(** * QuickDesk: the vote, status, assignment, role and e-mail workflows

    A shallow embedding of the handlers of the QuickDesk help-desk client
    (React components over Firestore) and of its e-mail route, followed by
    the properties of the workflow specification.

    Conventions of the embedding.
    - A Firestore collection is a finite map from document ids to typed
      documents; the [votes] sub-collections are one map keyed by
      (ticket id, voter id).  The [notifications] collection is only ever
      appended to by the handlers below, so it is a list.
    - [setDoc] creates or overwrites, [deleteDoc] succeeds on a missing
      document, [updateDoc] rejects when the document is missing, [addDoc]
      writes under the id the SDK generated (an input of the handler).
      Network failures of the store are not modelled, except for the
      profile read of [useUserProfile], whose outcome is an input.
    - An [async] function with [try]/[catch]/[finally] is a computation in a
      state-and-exception monad; a throw keeps every write made before it.
    - React state is a record per component; a handler reads the state of
      the render it was created in and its updates are applied in order.
      A refresh called without [await] has run to its first [await] when
      the handler returns.
    - The e-mail client reaches the route whenever it calls it; the route
      runs with the server's environment, and the mail provider is a
      function from the mail to its answer.  The statement at the top of
      the route's module, which builds the provider's client and throws
      without an API key, runs before the handler; when it throws the
      framework answers with status 500 and a page that is not JSON.
      Every mail handed to the provider and every e-mail given to
      [sendEmail] is recorded.
    - JavaScript numbers that hold counters are integers ([Z]).  A
      JavaScript string is the [string] of its UTF-8 bytes; its length is
      counted in UTF-16 code units and its white space is Unicode's, as
      JavaScript has them.  [console] output is not part of the state. *)

From Stdlib Require Import ZArith String Ascii List Sorted.
From stdpp Require Import base option list gmap strings fin_maps.

Local Open Scope string_scope.
Local Open Scope list_scope.
Local Open Scope Z_scope.

(** ** JavaScript values and operators *)

(** [a || b] on numbers: [0] is falsy. *)
Definition num_or (a b : Z) : Z := if Z.eqb a 0 then b else a.

(** [a || b] on a possibly undefined string: [undefined] and the empty
    string are falsy. *)
Definition str_or (a : option string) (b : string) : string :=
  match a with
  | Some s => if String.eqb s EmptyString then b else s
  | None => b
  end.

(** Truthiness of a possibly undefined string. *)
Definition str_truthy (a : option string) : bool :=
  match a with
  | Some s => negb (String.eqb s EmptyString)
  | None => false
  end.

(** [Math.max(0, n)]. *)
Definition Math_max0 (n : Z) : Z := Z.max 0 n.

(** The values a parsed JSON field can have, as far as [!v] tells them
    apart; arrays and objects are [JsObject]. *)
Inductive JsValue : Type :=
| JsUndefined
| JsNull
| JsBool (b : bool)
| JsNumber (n : Z)
| JsString (s : string)
| JsObject.

Definition truthy (v : JsValue) : bool :=
  match v with
  | JsUndefined | JsNull => false
  | JsBool b => b
  | JsNumber n => negb (Z.eqb n 0)
  | JsString s => negb (String.eqb s EmptyString)
  | JsObject => true
  end.

(** ** Asynchronous functions: state and exceptions *)

Inductive JsError : Type :=
| NotFound      (* updateDoc on a document that does not exist *)
| InvalidJson   (* json() rejected, or its result cannot be destructured *)
| Unavailable   (* a read that did not reach the store *)
| MissingApiKey. (* new Resend(key) without a key *)

(** [err.message] *)
Definition error_message (e : JsError) : option string :=
  match e with
  | NotFound => Some "No document to update"
  | InvalidJson => Some "Unexpected end of JSON input"
  | Unavailable => Some "Failed to get document because the client is offline."
  | MissingApiKey =>
      Some ("Missing API key. Pass it to the constructor `new Resend("
            +:+ String (ascii_of_nat 34) "re_123" +:+ String (ascii_of_nat 34) ")`")
  end.

Inductive Completion (A : Type) : Type :=
| Returned (a : A)
| Threw (e : JsError).
Arguments Returned {A} a.
Arguments Threw {A} e.

Definition Async (S A : Type) : Type := S -> S * Completion A.

Definition ret {S A : Type} (a : A) : Async S A :=
  fun s => (s, Returned a).

Definition throw {S A : Type} (e : JsError) : Async S A :=
  fun s => (s, Threw e).

Definition bind {S A B : Type} (m : Async S A) (k : A -> Async S B) : Async S B :=
  fun s =>
    match m s with
    | (s', Returned a) => k a s'
    | (s', Threw e) => (s', Threw e)
    end.

(** [try { body } catch (e) { handler }] *)
Definition try_catch {S A : Type} (body : Async S A) (handler : JsError -> Async S A)
  : Async S A :=
  fun s =>
    match body s with
    | (s', Returned a) => (s', Returned a)
    | (s', Threw e) => handler e s'
    end.

(** [try { body } finally { fin }] *)
Definition try_finally {S A : Type} (body : Async S A) (fin : Async S unit)
  : Async S A :=
  fun s =>
    match body s with
    | (s', c) =>
        match fin s' with
        | (s'', Returned _) => (s'', c)
        | (s'', Threw e) => (s'', Threw e)
        end
    end.

Definition get {S : Type} : Async S S := fun s => (s, Returned s).
Definition modify {S : Type} (f : S -> S) : Async S unit := fun s => (f s, Returned tt).

(** The state a handler leaves behind. *)
Definition exec {S A : Type} (m : Async S A) (s : S) : S := fst (m s).

Declare Scope async_scope.
Delimit Scope async_scope with async.
Notation "'let*' x ':=' m 'in' k" := (bind m (fun x => k))
  (at level 10, x pattern, m at level 100, k at level 200) : async_scope.
Notation "m ';;;' k" := (bind m (fun _ => k))
  (at level 100, k at level 200, right associativity) : async_scope.

(** ** Documents *)

Inductive VoteType : Type := upvote | downvote.

Global Instance VoteType_eq_dec : EqDecision VoteType.
Proof. solve_decision. Defined.

(** A document of [tickets]. *)
Record TicketDoc : Type := mkTicketDoc {
  t_title : string;
  t_description : string;
  t_category : string;
  t_tags : list string;
  t_status : string;
  t_createdAt : Z;
  t_userId : string;
  t_userName : string;
  t_replyCount : Z;
  t_upvotes : Z;
  t_downvotes : Z;
  t_assignedTo : option string;
  t_assignedToName : option string;
}.

(** A document of [tickets/{id}/votes]. *)
Record VoteDoc : Type := mkVoteDoc {
  v_type : VoteType;
  v_createdAt : Z;
}.

(** A document of [users]; every field may be missing. *)
Record UserDoc : Type := mkUserDoc {
  u_name : option string;
  u_email : option string;
  u_role : option string;
  u_categoryInterest : option string;
  u_language : option string;
}.

Inductive RequestStatus : Type := pending | approved | rejected.

(** A document of [roleUpgradeRequests]. *)
Record RoleUpgradeRequestDoc : Type := mkRoleUpgradeRequestDoc {
  r_userId : string;
  r_userName : string;
  r_userEmail : option string;
  r_currentRole : string;
  r_requestedRole : string;
  r_status : RequestStatus;
  r_createdAt : Z;
  r_reason : string;
}.

(** A document of [notifications]. *)
Record NotificationDoc : Type := mkNotificationDoc {
  n_userId : string;
  n_type : string;
  n_title : string;
  n_message : string;
  n_ticketId : string;
  n_createdAt : Z;
  n_read : bool;
}.

Record Firestore : Type := mkFirestore {
  tickets : gmap string TicketDoc;
  votes : gmap (string * string) VoteDoc;
  users : gmap string UserDoc;
  roleUpgradeRequests : gmap string RoleUpgradeRequestDoc;
  notifications : list NotificationDoc;
}.

(** The signed-in user of the authentication provider. *)
Record User : Type := mkUser {
  uid : string;
  email : option string;
  displayName : option string;
}.

(** The profile [useUserProfile] hands to the components. *)
Record UserProfile : Type := mkUserProfile {
  p_name : string;
  p_email : string;
  p_role : string;
  p_categoryInterest : string;
  p_language : string;
}.

(** ** The e-mail route: src/app/api/send-email/route.ts *)

(** The environment variables the e-mail code reads. *)
Record Env : Type := mkEnv {
  NEXT_PUBLIC_EMAIL_SERVICE_ENABLED : option string;
  RESEND_API_KEY : option string;
  FROM_EMAIL : option string;
}.

(** The fields the route destructures from the parsed request body. *)
Record EmailRequest : Type := mkEmailRequest {
  q_to : JsValue;
  q_subject : JsValue;
  q_body : JsValue;
  q_html : JsValue;
}.

(** The argument of [resend.emails.send]. *)
Record ResendMail : Type := mkResendMail {
  m_from : string;
  m_to : list JsValue;
  m_subject : JsValue;
  m_text : JsValue;
  m_html : JsValue;
}.

(** What the mail provider answers: [{data}], [{error}], or a rejected
    promise. *)
Inductive ResendReply : Type :=
| ResendData (id : string)
| ResendError (message : string)
| ResendThrows.

(** The body of a response: what the route passes to [NextResponse.json],
    or the page the framework answers with when the route threw, which is
    not JSON. *)
Inductive ResponseJson : Type :=
| ErrorJson (error : string)
| SuccessJson (message : string) (data : option string)
| ErrorPage.

Record Response : Type := mkResponse {
  json : ResponseJson;
  status : Z;
}.

(** [response.ok] *)
Definition ok (r : Response) : bool := Z.leb 200 (status r) && Z.leb (status r) 299.

(** The server: its environment and the provider behind [resend]. *)
Record Server : Type := mkServer {
  env : Env;
  resend : ResendMail -> ResendReply;
}.

(** [await request.json()] followed by the destructuring of its result;
    [None] is a body that is not JSON, or the JSON [null]. *)
Definition request_json {S : Type} (request : option EmailRequest) : Async S EmailRequest :=
  match request with
  | Some body => ret body
  | None => throw InvalidJson
  end.

(** [await resend.emails.send(mail)]: the mail is handed to the provider. *)
Definition resend_emails_send (srv : Server) (mail : ResendMail)
  : Async (list ResendMail) ResendReply :=
  fun sent =>
    match resend srv mail with
    | ResendThrows => (sent ++ [mail], Threw Unavailable)
    | reply => (sent ++ [mail], Returned reply)
    end.

(** [new Resend(process.env.RESEND_API_KEY)], the first statement of the
    module: the constructor throws when the key is missing or empty. *)
Definition new_Resend {S : Type} (key : option string) : Async S unit :=
  if str_truthy key then ret tt else throw MissingApiKey.

(** The route.  The module is evaluated before a request is handled, so
    when its first statement throws, no request reaches the handler and
    the error is the framework's to answer. *)
Definition POST (srv : Server) (request : option EmailRequest)
  : Async (list ResendMail) Response :=
  ((* Initialize Resend *)
   new_Resend (RESEND_API_KEY (env srv));;;
   try_catch
    (let* body := request_json request in
     let to := q_to body in
     let subject := q_subject body in
     let emailBody := q_body body in
     let html := q_html body in
     (* Validate required fields *)
     if negb (truthy to) || negb (truthy subject) || negb (truthy emailBody) then
       ret (mkResponse (ErrorJson "Missing required fields: to, subject, body") 400)
     (* Check if email service is enabled *)
     else if negb (bool_decide (NEXT_PUBLIC_EMAIL_SERVICE_ENABLED (env srv) = Some "true")) then
       ret (mkResponse
              (SuccessJson "Email service disabled - would send in production" None) 200)
     (* Check if Resend API key is configured *)
     else if negb (str_truthy (RESEND_API_KEY (env srv))) then
       ret (mkResponse
              (SuccessJson "Resend API key not configured - would send in production" None)
              200)
     else
       (* Send email using Resend *)
       let* reply :=
         resend_emails_send srv
           {| m_from := str_or (FROM_EMAIL (env srv)) "QuickDesk <noreply@yourdomain.com>";
              m_to := [to];
              m_subject := subject;
              m_text := emailBody;
              m_html := html |} in
       match reply with
       | ResendError _ => ret (mkResponse (ErrorJson "Failed to send email") 500)
       | ResendData data =>
           ret (mkResponse (SuccessJson "Email sent successfully" (Some data)) 200)
       | ResendThrows => throw Unavailable
       end)
    (fun _ => ret (mkResponse (ErrorJson "Failed to send email") 500)))%async.

(** The argument of [sendEmail] (src/lib/emailService.ts). *)
Record EmailData : Type := mkEmailData {
  e_to : string;
  e_subject : string;
  e_body : string;
  e_html : option string;
}.

(** What lives outside a component: the document store, the mails the
    e-mail route handed to the mail provider, and the history of the
    e-mails given to [sendEmail] (each is either logged as "would send" or
    posted to the route). *)
Record Backend : Type := mkBackend {
  db : Firestore;
  outbox : list ResendMail;
  dispatched : list EmailData;
}.

Definition with_db (f : Firestore -> Firestore) (b : Backend) : Backend :=
  {| db := f (db b); outbox := outbox b; dispatched := dispatched b |}.

(** ** The e-mail client: src/lib/emailService.ts *)

Record TicketNotificationData : Type := mkTicketNotificationData {
  d_ticketId : string;
  d_ticketTitle : string;
  d_userName : string;
  d_userEmail : string;
  d_status : option string;
  d_category : option string;
  d_description : option string;
}.

Record EmailService : Type := mkEmailService {
  isEnabled : bool;
}.

(** The constructor of [EmailService]. *)
Definition new_EmailService (e : Env) : EmailService :=
  {| isEnabled := bool_decide (NEXT_PUBLIC_EMAIL_SERVICE_ENABLED e = Some "true") |}.

(** The double quote character of the HTML templates. *)
Definition dq : string := String (ascii_of_nat 34) EmptyString.

(** A template hole [${v}] for a possibly undefined string. *)
Definition interpolate (v : option string) : string :=
  match v with
  | Some s => s
  | None => "undefined"
  end.

(** The request the route sees for [body: JSON.stringify(emailData)]: an
    undefined [html] is left out of the JSON text. *)
Definition JSON_stringify (emailData : EmailData) : option EmailRequest :=
  Some {| q_to := JsString (e_to emailData);
          q_subject := JsString (e_subject emailData);
          q_body := JsString (e_body emailData);
          q_html := match e_html emailData with
                    | Some h => JsString h
                    | None => JsUndefined
                    end |}.

Section Client.
Context {St : Type}.

(** [await fetch('/api/send-email', {method: 'POST', ...})]: the route
    runs on the server, and a route that threw is answered by the
    framework with status 500 and its error page. *)
Definition fetch_send_email (srv : Server) (request : option EmailRequest)
  : Async (Backend * St) Response :=
  fun '(b, st) =>
    match POST srv request (outbox b) with
    | (sent, Returned response) =>
        (({| db := db b; outbox := sent; dispatched := dispatched b |}, st),
         Returned response)
    | (sent, Threw _) =>
        (({| db := db b; outbox := sent; dispatched := dispatched b |}, st),
         Returned {| json := ErrorPage; status := 500 |})
    end.

(** [await response.json()] *)
Definition response_json (response : Response) : Async (Backend * St) ResponseJson :=
  match json response with
  | ErrorPage => throw InvalidJson
  | result => ret result
  end.

(** The entry of [sendEmail]: the e-mail joins the history. *)
Definition dispatch (emailData : EmailData) : Async (Backend * St) unit :=
  modify (fun '(b, st) =>
    ({| db := db b; outbox := outbox b;
        dispatched := dispatched b ++ [emailData] |}, st)).

Definition sendEmail (this : EmailService) (srv : Server) (emailData : EmailData)
  : Async (Backend * St) bool :=
  (dispatch emailData;;;
   if negb (isEnabled this) then ret true
   else
     try_catch
       (let* response := fetch_send_email srv (JSON_stringify emailData) in
        let* result := response_json response in
        if negb (ok response) then ret false else ret true)
       (fun _ => ret false))%async.

Definition sendTicketCreatedNotification (this : EmailService) (srv : Server)
    (data : TicketNotificationData) : Async (Backend * St) bool :=
  let subject := "New Ticket Created: " +:+ d_ticketTitle data in
  let body := "
      A new ticket has been created:
      
      Ticket ID: " +:+ d_ticketId data +:+ "
      Title: " +:+ d_ticketTitle data +:+ "
      Created by: " +:+ d_userName data +:+ " (" +:+ d_userEmail data +:+ ")
      Category: " +:+ str_or (d_category data) "General" +:+ "
      
      Description:
      " +:+ str_or (d_description data) "No description provided" +:+ "
      
      Please log in to the QuickDesk system to review and respond to this ticket.
    " in
  let html := "
      <div style=" +:+ dq +:+ "font-family: Arial, sans-serif; max-width: 600px; margin: 0 auto;" +:+ dq +:+ ">
        <h2 style=" +:+ dq +:+ "color: #2563eb;" +:+ dq +:+ ">New Ticket Created</h2>
        <div style=" +:+ dq +:+ "background-color: #f8fafc; padding: 20px; border-radius: 8px; margin: 20px 0;" +:+ dq +:+ ">
          <h3 style=" +:+ dq +:+ "margin-top: 0;" +:+ dq +:+ ">" +:+ d_ticketTitle data +:+ "</h3>
          <p><strong>Ticket ID:</strong> " +:+ d_ticketId data +:+ "</p>
          <p><strong>Created by:</strong> " +:+ d_userName data +:+ " (" +:+ d_userEmail data +:+ ")</p>
          <p><strong>Category:</strong> " +:+ str_or (d_category data) "General" +:+ "</p>
          " +:+ (if str_truthy (d_description data)
               then "<p><strong>Description:</strong><br>"
                    +:+ interpolate (d_description data) +:+ "</p>"
               else EmptyString) +:+ "
        </div>
        <p>Please log in to the QuickDesk system to review and respond to this ticket.</p>
        <div style=" +:+ dq +:+ "margin-top: 30px; padding-top: 20px; border-top: 1px solid #e5e7eb;" +:+ dq +:+ ">
          <p style=" +:+ dq +:+ "color: #6b7280; font-size: 12px;" +:+ dq +:+ ">
            This is an automated notification from QuickDesk Help Desk System.
          </p>
        </div>
      </div>
    " in
  sendEmail this srv
    {| e_to := "support@company.com"; (* In production, this would be configurable *)
       e_subject := subject;
       e_body := body;
       e_html := Some html |}.

Definition sendTicketStatusUpdateNotification (this : EmailService) (srv : Server)
    (data : TicketNotificationData) : Async (Backend * St) bool :=
  let subject := "Ticket Status Updated: " +:+ d_ticketTitle data in
  let body := "
      Your ticket status has been updated:
      
      Ticket ID: " +:+ d_ticketId data +:+ "
      Title: " +:+ d_ticketTitle data +:+ "
      New Status: " +:+ interpolate (d_status data) +:+ "
      
      Please log in to the QuickDesk system to view the latest updates.
    " in
  let html := "
      <div style=" +:+ dq +:+ "font-family: Arial, sans-serif; max-width: 600px; margin: 0 auto;" +:+ dq +:+ ">
        <h2 style=" +:+ dq +:+ "color: #059669;" +:+ dq +:+ ">Ticket Status Updated</h2>
        <div style=" +:+ dq +:+ "background-color: #f0fdf4; padding: 20px; border-radius: 8px; margin: 20px 0; border-left: 4px solid #059669;" +:+ dq +:+ ">
          <h3 style=" +:+ dq +:+ "margin-top: 0;" +:+ dq +:+ ">" +:+ d_ticketTitle data +:+ "</h3>
          <p><strong>Ticket ID:</strong> " +:+ d_ticketId data +:+ "</p>
          <p><strong>New Status:</strong> <span style=" +:+ dq +:+ "color: #059669; font-weight: bold;" +:+ dq +:+ ">" +:+ interpolate (d_status data) +:+ "</span></p>
        </div>
        <p>Please log in to the QuickDesk system to view the latest updates and respond if needed.</p>
        <div style=" +:+ dq +:+ "margin-top: 30px; padding-top: 20px; border-top: 1px solid #e5e7eb;" +:+ dq +:+ ">
          <p style=" +:+ dq +:+ "color: #6b7280; font-size: 12px;" +:+ dq +:+ ">
            This is an automated notification from QuickDesk Help Desk System.
          </p>
        </div>
      </div>
    " in
  sendEmail this srv
    {| e_to := d_userEmail data;
       e_subject := subject;
       e_body := body;
       e_html := Some html |}.

End Client.

(** ** Firestore operations *)

Definition set_tickets (m : gmap string TicketDoc) (fs : Firestore) : Firestore :=
  {| tickets := m; votes := votes fs; users := users fs;
     roleUpgradeRequests := roleUpgradeRequests fs;
     notifications := notifications fs |}.

Definition set_votes (m : gmap (string * string) VoteDoc) (fs : Firestore) : Firestore :=
  {| tickets := tickets fs; votes := m; users := users fs;
     roleUpgradeRequests := roleUpgradeRequests fs;
     notifications := notifications fs |}.

Definition set_users (m : gmap string UserDoc) (fs : Firestore) : Firestore :=
  {| tickets := tickets fs; votes := votes fs; users := m;
     roleUpgradeRequests := roleUpgradeRequests fs;
     notifications := notifications fs |}.

Definition set_roleUpgradeRequests (m : gmap string RoleUpgradeRequestDoc)
    (fs : Firestore) : Firestore :=
  {| tickets := tickets fs; votes := votes fs; users := users fs;
     roleUpgradeRequests := m;
     notifications := notifications fs |}.

Definition set_notifications (l : list NotificationDoc) (fs : Firestore) : Firestore :=
  {| tickets := tickets fs; votes := votes fs; users := users fs;
     roleUpgradeRequests := roleUpgradeRequests fs;
     notifications := l |}.

(** The partial objects the handlers pass to [updateDoc] on a ticket. *)
Definition with_counts (newUpvotes newDownvotes : Z) (d : TicketDoc) : TicketDoc :=
  {| t_title := t_title d; t_description := t_description d;
     t_category := t_category d; t_tags := t_tags d; t_status := t_status d;
     t_createdAt := t_createdAt d; t_userId := t_userId d;
     t_userName := t_userName d; t_replyCount := t_replyCount d;
     t_upvotes := newUpvotes; t_downvotes := newDownvotes;
     t_assignedTo := t_assignedTo d; t_assignedToName := t_assignedToName d |}.

Definition with_status (newStatus : string) (d : TicketDoc) : TicketDoc :=
  {| t_title := t_title d; t_description := t_description d;
     t_category := t_category d; t_tags := t_tags d; t_status := newStatus;
     t_createdAt := t_createdAt d; t_userId := t_userId d;
     t_userName := t_userName d; t_replyCount := t_replyCount d;
     t_upvotes := t_upvotes d; t_downvotes := t_downvotes d;
     t_assignedTo := t_assignedTo d; t_assignedToName := t_assignedToName d |}.

Definition with_assignment (assignedTo assignedToName newStatus : string)
    (d : TicketDoc) : TicketDoc :=
  {| t_title := t_title d; t_description := t_description d;
     t_category := t_category d; t_tags := t_tags d; t_status := newStatus;
     t_createdAt := t_createdAt d; t_userId := t_userId d;
     t_userName := t_userName d; t_replyCount := t_replyCount d;
     t_upvotes := t_upvotes d; t_downvotes := t_downvotes d;
     t_assignedTo := Some assignedTo; t_assignedToName := Some assignedToName |}.

(** [{role: newRole}] on a user document. *)
Definition with_role (newRole : string) (d : UserDoc) : UserDoc :=
  {| u_name := u_name d; u_email := u_email d; u_role := Some newRole;
     u_categoryInterest := u_categoryInterest d; u_language := u_language d |}.

(** [{status: newStatus}] on a role upgrade request. *)
Definition with_request_status (newStatus : RequestStatus)
    (d : RoleUpgradeRequestDoc) : RoleUpgradeRequestDoc :=
  {| r_userId := r_userId d; r_userName := r_userName d;
     r_userEmail := r_userEmail d; r_currentRole := r_currentRole d;
     r_requestedRole := r_requestedRole d; r_status := newStatus;
     r_createdAt := r_createdAt d; r_reason := r_reason d |}.

(** [updateDoc] on a collection [m]: merge [fields] into the document, or
    reject when there is none. *)
Definition update_in {V : Type} (m : gmap string V) (id : string) (fields : V -> V)
  : option (gmap string V) :=
  match m !! id with
  | Some d => Some (<[id := fields d]> m)
  | None => None
  end.

Section Store.
Context {St : Type}.

(** A React state update [setX(prev => f prev)]. *)
Definition setState (f : St -> St) : Async (Backend * St) unit :=
  modify (fun '(b, st) => (b, f st)).

(** The state of the render the handler was created in. *)
Definition render : Async (Backend * St) St :=
  fun '(b, st) => ((b, st), Returned st).

Definition write (f : Firestore -> Firestore) : Async (Backend * St) unit :=
  modify (fun '(b, st) => (with_db f b, st)).

Definition updateDoc_tickets (id : string) (fields : TicketDoc -> TicketDoc)
  : Async (Backend * St) unit :=
  fun '(b, st) =>
    match update_in (tickets (db b)) id fields with
    | Some m => ((with_db (set_tickets m) b, st), Returned tt)
    | None => ((b, st), Threw NotFound)
    end.

Definition updateDoc_users (id : string) (fields : UserDoc -> UserDoc)
  : Async (Backend * St) unit :=
  fun '(b, st) =>
    match update_in (users (db b)) id fields with
    | Some m => ((with_db (set_users m) b, st), Returned tt)
    | None => ((b, st), Threw NotFound)
    end.

Definition updateDoc_roleUpgradeRequests (id : string)
    (fields : RoleUpgradeRequestDoc -> RoleUpgradeRequestDoc)
  : Async (Backend * St) unit :=
  fun '(b, st) =>
    match update_in (roleUpgradeRequests (db b)) id fields with
    | Some m => ((with_db (set_roleUpgradeRequests m) b, st), Returned tt)
    | None => ((b, st), Threw NotFound)
    end.

(** [setDoc(doc(db, 'tickets', ticketId, 'votes', uid), v)] *)
Definition setDoc_votes (ticketId voter : string) (v : VoteDoc)
  : Async (Backend * St) unit :=
  write (fun fs => set_votes (<[(ticketId, voter) := v]> (votes fs)) fs).

(** [deleteDoc(doc(db, 'tickets', ticketId, 'votes', uid))] *)
Definition deleteDoc_votes (ticketId voter : string) : Async (Backend * St) unit :=
  write (fun fs => set_votes (delete (ticketId, voter) (votes fs)) fs).

(** [addDoc(collection(db, 'tickets'), d)]; [newId] is the generated id. *)
Definition addDoc_tickets (newId : string) (d : TicketDoc)
  : Async (Backend * St) string :=
  (write (fun fs => set_tickets (<[newId := d]> (tickets fs)) fs);;;
   ret newId)%async.

(** [addDoc(collection(db, 'notifications'), d)] *)
Definition addDoc_notifications (d : NotificationDoc) : Async (Backend * St) unit :=
  write (fun fs => set_notifications (notifications fs ++ [d]) fs).

End Store.

(** A ticket as the components hold it: [{id: doc.id, ...doc.data()}]. *)
Record Ticket : Type := mkTicket {
  id : string;
  data : TicketDoc;
}.

(** [tickets.find(t => t.id === ticketId)] *)
Definition find_ticket (ticketId : string) (l : list Ticket) : option Ticket :=
  List.find (fun t => String.eqb (id t) ticketId) l.

(** ** src/components/dashboard/TicketList.tsx *)

Module TicketList.

(** The state [handleVote] reads and writes; the filters and the
    pagination cursor play no part in it. *)
Record State : Type := mkState {
  s_tickets : list Ticket;
  s_userVotes : gmap string (option VoteType);
  s_votingTickets : gset string;
}.

Definition setTickets (f : list Ticket -> list Ticket) (st : State) : State :=
  {| s_tickets := f (s_tickets st); s_userVotes := s_userVotes st;
     s_votingTickets := s_votingTickets st |}.

Definition setUserVotes
    (f : gmap string (option VoteType) -> gmap string (option VoteType))
    (st : State) : State :=
  {| s_tickets := s_tickets st; s_userVotes := f (s_userVotes st);
     s_votingTickets := s_votingTickets st |}.

Definition setVotingTickets (f : gset string -> gset string) (st : State) : State :=
  {| s_tickets := s_tickets st; s_userVotes := s_userVotes st;
     s_votingTickets := f (s_votingTickets st) |}.

(** [userVotes[ticketId]]: [None] is [null] or [undefined]. *)
Definition currentVote_of (st : State) (ticketId : string) : option VoteType :=
  match s_userVotes st !! ticketId with
  | Some v => v
  | None => None
  end.

Definition handleVote (user : option User) (now : Z)
    (ticketId : string) (type : VoteType) : Async (Backend * State) unit :=
  (let* st := render in
   match user with
   | None => ret tt
   | Some user =>
   if bool_decide (ticketId ∈ s_votingTickets st) then ret tt
   else
     setState (setVotingTickets (fun prev => prev ∪ {[ticketId]}));;;
     try_finally
       (try_catch
         (match find_ticket ticketId (s_tickets st) with
          | None => ret tt
          | Some ticket =>
            let newUpvotes := num_or (t_upvotes (data ticket)) 0 in
            let newDownvotes := num_or (t_downvotes (data ticket)) 0 in
            let currentVote := currentVote_of st ticketId in
            let* (newUpvotes, newDownvotes) :=
              if bool_decide (currentVote = Some type) then
                (* User is unvoting (clicking the same vote type) *)
                let counts :=
                  match type with
                  | upvote => (Math_max0 (newUpvotes - 1), newDownvotes)
                  | downvote => (newUpvotes, Math_max0 (newDownvotes - 1))
                  end in
                (* Remove the vote document *)
                deleteDoc_votes ticketId (uid user);;;
                setState (setUserVotes (fun prev => <[ticketId := None]> prev));;;
                ret counts
              else
                (* User is voting or changing their vote *)
                let counts :=
                  match currentVote with
                  | Some upvote =>
                      (* User was upvoted, now voting down *)
                      (Math_max0 (newUpvotes - 1), newDownvotes + 1)
                  | Some downvote =>
                      (* User was downvoted, now voting up *)
                      (newUpvotes + 1, Math_max0 (newDownvotes - 1))
                  | None =>
                      (* User is voting for the first time *)
                      match type with
                      | upvote => (newUpvotes + 1, newDownvotes)
                      | downvote => (newUpvotes, newDownvotes + 1)
                      end
                  end in
                (* Set the vote document *)
                setDoc_votes ticketId (uid user)
                  {| v_type := type; v_createdAt := now |};;;
                setState (setUserVotes (fun prev => <[ticketId := Some type]> prev));;;
                ret counts
            in
            (* Update the ticket document *)
            updateDoc_tickets ticketId (with_counts newUpvotes newDownvotes);;;
            (* Update local state *)
            setState (setTickets (fun prev =>
              List.map (fun t =>
                if String.eqb (id t) ticketId
                then {| id := id t;
                        data := with_counts newUpvotes newDownvotes (data t) |}
                else t) prev))
          end)
         (fun _ => ret tt))
       (setState (setVotingTickets (fun prev => prev ∖ {[ticketId]})))
   end)%async.

End TicketList.

(** ** TicketDetail (src/unnamed/part_002, first component) *)

Module TicketDetail.

Record State : Type := mkState {
  s_ticket : option Ticket;
  s_userVote : option VoteType;
  s_voting : bool;
}.

Definition setTicket (f : option Ticket -> option Ticket) (st : State) : State :=
  {| s_ticket := f (s_ticket st); s_userVote := s_userVote st;
     s_voting := s_voting st |}.

Definition setUserVote (v : option VoteType) (st : State) : State :=
  {| s_ticket := s_ticket st; s_userVote := v; s_voting := s_voting st |}.

Definition setVoting (v : bool) (st : State) : State :=
  {| s_ticket := s_ticket st; s_userVote := s_userVote st; s_voting := v |}.

(** [ticketId] is the component's prop. *)
Definition handleVote (user : option User) (now : Z)
    (ticketId : string) (type : VoteType) : Async (Backend * State) unit :=
  (let* st := render in
   match s_ticket st, user with
   | None, _ | _, None => ret tt
   | Some ticket, Some user =>
   if s_voting st then ret tt
   else
     setState (setVoting true);;;
     try_finally
       (try_catch
         (let newUpvotes := num_or (t_upvotes (data ticket)) 0 in
          let newDownvotes := num_or (t_downvotes (data ticket)) 0 in
          let userVote := s_userVote st in
          let* (newUpvotes, newDownvotes) :=
            if bool_decide (userVote = Some type) then
              (* User is unvoting (clicking the same vote type) *)
              let counts :=
                match type with
                | upvote => (Math_max0 (newUpvotes - 1), newDownvotes)
                | downvote => (newUpvotes, Math_max0 (newDownvotes - 1))
                end in
              (* Remove the vote document *)
              deleteDoc_votes ticketId (uid user);;;
              setState (setUserVote None);;;
              ret counts
            else
              (* User is voting or changing their vote *)
              let counts :=
                match userVote with
                | Some upvote =>
                    (* User was upvoted, now voting down *)
                    (Math_max0 (newUpvotes - 1), newDownvotes + 1)
                | Some downvote =>
                    (* User was downvoted, now voting up *)
                    (newUpvotes + 1, Math_max0 (newDownvotes - 1))
                | None =>
                    (* User is voting for the first time *)
                    match type with
                    | upvote => (newUpvotes + 1, newDownvotes)
                    | downvote => (newUpvotes, newDownvotes + 1)
                    end
                end in
              (* Set the vote document *)
              setDoc_votes ticketId (uid user)
                {| v_type := type; v_createdAt := now |};;;
              setState (setUserVote (Some type));;;
              ret counts
          in
          (* Update the ticket document *)
          updateDoc_tickets ticketId (with_counts newUpvotes newDownvotes);;;
          (* Update local state *)
          setState (setTicket (fun prev =>
            match prev with
            | Some prev =>
                Some {| id := id prev;
                        data := with_counts newUpvotes newDownvotes (data prev) |}
            | None => None
            end)))
         (fun _ => ret tt))
       (setState (setVoting false))
   end)%async.

End TicketDetail.

(** ** SupportAgentDashboard (src/unnamed/part_002, third component) *)

Module SupportAgentDashboard.

Record State : Type := mkState {
  s_tickets : list Ticket;
  s_loading : bool;
}.

Definition setLoading (v : bool) (st : State) : State :=
  {| s_tickets := s_tickets st; s_loading := v |}.

(** [fetchTickets()] is called without [await]: when the handler returns
    it has run up to its first [await], that is [setLoading(true)]; the
    query that follows reads the store and writes no document. *)
Definition fetchTickets : Async (Backend * State) unit :=
  setState (setLoading true).

Definition handleAssignTicket (this : EmailService) (srv : Server)
    (user : option User) (profile : option UserProfile) (now : Z)
    (ticketId : string) : Async (Backend * State) unit :=
  (let* st := render in
   match user, profile with
   | None, _ | _, None => ret tt
   | Some user, Some profile =>
     try_catch
       (updateDoc_tickets ticketId
          (with_assignment (uid user) (p_name profile) "in-progress");;;
        (* Send notification to ticket owner *)
        match find_ticket ticketId (s_tickets st) with
        | Some ticket =>
            try_catch
              ((* Create in-app notification for ticket owner *)
               addDoc_notifications
                 {| n_userId := t_userId (data ticket);
                    n_type := "ticket_updated";
                    n_title := "Ticket Assigned";
                    n_message := "Your ticket " +:+ dq +:+ t_title (data ticket)
                                 +:+ dq +:+ " has been assigned to a support agent";
                    n_ticketId := ticketId;
                    n_createdAt := now;
                    n_read := false |};;;
               (* Send email notification *)
               let* _ := sendTicketStatusUpdateNotification this srv
                 {| d_ticketId := ticketId;
                    d_ticketTitle := t_title (data ticket);
                    d_userName := t_userName (data ticket);
                    d_userEmail := EmptyString; (* You'd need to get this from user profile *)
                    d_status := Some "in-progress";
                    d_category := None;
                    d_description := None |} in
               ret tt)
              (fun _ => ret tt)
        | None => ret tt
        end;;;
        fetchTickets)
       (fun _ => ret tt)
   end)%async.

Definition handleUpdateStatus (this : EmailService) (srv : Server) (now : Z)
    (ticketId : string) (newStatus : string) : Async (Backend * State) unit :=
  (let* st := render in
   try_catch
     (updateDoc_tickets ticketId (with_status newStatus);;;
      (* Send notification to ticket owner about status change *)
      match find_ticket ticketId (s_tickets st) with
      | Some ticket =>
          try_catch
            ((* Create in-app notification for ticket owner *)
             addDoc_notifications
               {| n_userId := t_userId (data ticket);
                  n_type := "status_changed";
                  n_title := "Ticket Status Updated";
                  n_message := "Your ticket " +:+ dq +:+ t_title (data ticket)
                               +:+ dq +:+ " status has been updated to " +:+ newStatus;
                  n_ticketId := ticketId;
                  n_createdAt := now;
                  n_read := false |};;;
             (* Send email notification *)
             let* _ := sendTicketStatusUpdateNotification this srv
               {| d_ticketId := ticketId;
                  d_ticketTitle := t_title (data ticket);
                  d_userName := t_userName (data ticket);
                  d_userEmail := EmptyString; (* You'd need to get this from user profile *)
                  d_status := Some newStatus;
                  d_category := None;
                  d_description := None |} in
             ret tt)
            (fun _ => ret tt)
      | None => ret tt
      end;;;
      fetchTickets)
     (fun _ => ret tt))%async.

End SupportAgentDashboard.

(** ** src/components/admin/AdminPanel.tsx *)

Module AdminPanel.

(** A request as the panel holds it: [{id: doc.id, ...doc.data()}]. *)
Record RoleUpgradeRequest : Type := mkRoleUpgradeRequest {
  rid : string;
  rdata : RoleUpgradeRequestDoc;
}.

Record State : Type := mkState {
  s_roleRequests : list RoleUpgradeRequest;
  s_loading : bool;
}.

Definition setLoading (v : bool) (st : State) : State :=
  {| s_roleRequests := s_roleRequests st; s_loading := v |}.

(** [fetchData()] is called without [await]; see
    [SupportAgentDashboard.fetchTickets]. *)
Definition fetchData : Async (Backend * State) unit :=
  setState (setLoading true).

Inductive Action : Type := approve | reject.

Definition handleRoleRequest (requestId : string) (action : Action)
  : Async (Backend * State) unit :=
  (let* st := render in
   try_catch
     (match List.find (fun r => String.eqb (rid r) requestId) (s_roleRequests st) with
      | None => ret tt
      | Some request =>
          match action with
          | approve =>
              (* Update user role *)
              updateDoc_users (r_userId (rdata request))
                (with_role (r_requestedRole (rdata request)));;;
              (* Update request status *)
              updateDoc_roleUpgradeRequests requestId (with_request_status approved)
          | reject =>
              (* Update request status *)
              updateDoc_roleUpgradeRequests requestId (with_request_status rejected)
          end;;;
          fetchData
      end)
     (fun _ => ret tt))%async.

End AdminPanel.

(** ** src/hooks/useUserProfile.ts *)

(** [s.split('@')[0]] *)
Fixpoint before_at (s : string) : string :=
  match s with
  | EmptyString => EmptyString
  | String c rest =>
      if Ascii.eqb c "@"%char then EmptyString else String c (before_at rest)
  end.

Module useUserProfile.

Record State : Type := mkState {
  s_profile : option UserProfile;
  s_loading : bool;
}.

Definition setProfile (p : option UserProfile) (st : State) : State :=
  {| s_profile := p; s_loading := s_loading st |}.

Definition setLoading (v : bool) (st : State) : State :=
  {| s_profile := s_profile st; s_loading := v |}.

(** [await getDoc(doc(db, 'users', uid))]; [online = false] is a read
    that does not reach the store.  [Some d] is a snapshot for which
    [exists()] holds. *)
Definition getDoc_users (online : bool) (id : string)
  : Async (Backend * State) (option UserDoc) :=
  fun '(b, st) =>
    if online then ((b, st), Returned (users (db b) !! id))
    else ((b, st), Threw Unavailable).

(** [user?.displayName || user?.email?.split('@')[0] || 'User'] *)
Definition fallback_name (user : User) : string :=
  str_or (displayName user)
    (str_or (before_at <$> email user) "User").

Definition loadProfile (online : bool) (user : option User)
  : Async (Backend * State) unit :=
  (match user with
   | None =>
       setState (setProfile None);;;
       setState (setLoading false)
   | Some user =>
       try_finally
         (try_catch
           (let* userDoc := getDoc_users online (uid user) in
            match userDoc with
            | Some userData =>
                setState (setProfile (Some
                  {| p_name := str_or (u_name userData) (fallback_name user);
                     p_email := str_or (email user) EmptyString;
                     p_role := str_or (u_role userData) "end-user";
                     p_categoryInterest :=
                       str_or (u_categoryInterest userData) EmptyString;
                     p_language := str_or (u_language userData) "en" |}))
            | None =>
                (* Create default profile if user doesn't exist in Firestore *)
                setState (setProfile (Some
                  {| p_name := fallback_name user;
                     p_email := str_or (email user) EmptyString;
                     p_role := "end-user";
                     p_categoryInterest := EmptyString;
                     p_language := "en" |}))
            end)
           (fun _ =>
              setState (setProfile (Some
                {| p_name := fallback_name user;
                   p_email := str_or (email user) EmptyString;
                   p_role := "end-user";
                   p_categoryInterest := EmptyString;
                   p_language := "en" |}))))
         (setState (setLoading false))
   end)%async.

End useUserProfile.

(** ** AskQuestionForm (src/unnamed/part_003) *)

(** [s.split(',')] *)
Fixpoint split_comma (s : string) : list string :=
  match s with
  | EmptyString => [EmptyString]
  | String c rest =>
      if Ascii.eqb c ","%char then EmptyString :: split_comma rest
      else match split_comma rest with
           | piece :: pieces => String c piece :: pieces
           | [] => [String c EmptyString]
           end
  end.

(** *** The characters of a string

    A [string] holds the UTF-8 bytes of a JavaScript string, as the string
    literals of this file do.  [length], [trim] and the [min] of the
    schema work on characters, so [chars] cuts a string into its
    characters, each with its code point and its bytes.  The well-formed
    sequences are those of the Unicode standard (no overlong form, no
    surrogate, nothing above U+10FFFF); a byte that does not begin one is
    read as the character of the same number, so that every [string]
    stands for a JavaScript string. *)

Definition byte (c : ascii) : N := N_of_ascii c.

(** A continuation byte, 80..BF, and the six bits it carries. *)
Definition continues (c : ascii) : bool :=
  N.leb 128 (byte c) && N.leb (byte c) 191.

Definition low6 (c : ascii) : N := (byte c - 128)%N.

Definition two_bytes (a b : ascii) : option N :=
  if N.leb 194 (byte a) && N.leb (byte a) 223 && continues b
  then Some ((byte a - 192) * 64 + low6 b)%N
  else None.

Definition three_bytes (a b c : ascii) : option N :=
  if N.leb 224 (byte a) && N.leb (byte a) 239 && continues b && continues c then
    let cp := ((byte a - 224) * 4096 + low6 b * 64 + low6 c)%N in
    if N.leb 2048 cp && negb (N.leb 55296 cp && N.leb cp 57343) then Some cp else None
  else None.

Definition four_bytes (a b c d : ascii) : option N :=
  if N.leb 240 (byte a) && N.leb (byte a) 244 && continues b && continues c
     && continues d then
    let cp := ((byte a - 240) * 262144 + low6 b * 4096 + low6 c * 64 + low6 d)%N in
    if N.leb 65536 cp && N.leb cp 1114111 then Some cp else None
  else None.

Fixpoint chars (s : string) : list (N * string) :=
  match s with
  | EmptyString => []
  | String a r1 =>
      if N.ltb (byte a) 128 then (byte a, String a EmptyString) :: chars r1
      else
      match r1 with
      | EmptyString => (byte a, String a EmptyString) :: chars r1
      | String b r2 =>
          match two_bytes a b with
          | Some cp => (cp, String a (String b EmptyString)) :: chars r2
          | None =>
              match r2 with
              | EmptyString => (byte a, String a EmptyString) :: chars r1
              | String c r3 =>
                  match three_bytes a b c with
                  | Some cp =>
                      (cp, String a (String b (String c EmptyString))) :: chars r3
                  | None =>
                      match r3 with
                      | EmptyString => (byte a, String a EmptyString) :: chars r1
                      | String d r4 =>
                          match four_bytes a b c d with
                          | Some cp =>
                              (cp, String a (String b (String c (String d EmptyString))))
                              :: chars r4
                          | None => (byte a, String a EmptyString) :: chars r1
                          end
                      end
                  end
              end
          end
      end
  end.

(** The UTF-16 code units of a character: two above U+FFFF. *)
Definition units (cp : N) : nat := if N.leb 65536 cp then 2%nat else 1%nat.

(** [s.length] *)
Definition js_length (s : string) : nat :=
  list_sum (List.map (fun c => units (fst c)) (chars s)).

(** The white space and the line terminators of ECMAScript, which [trim]
    strips: tab to carriage return, space, no-break space, U+1680, U+2000
    to U+200A, U+2028, U+2029, U+202F, U+205F, U+3000 and U+FEFF. *)
Definition is_space (cp : N) : bool :=
  (N.leb 9 cp && N.leb cp 13) || N.eqb cp 32 || N.eqb cp 160 || N.eqb cp 5760
  || (N.leb 8192 cp && N.leb cp 8202) || N.eqb cp 8232 || N.eqb cp 8233
  || N.eqb cp 8239 || N.eqb cp 8287 || N.eqb cp 12288 || N.eqb cp 65279.

Fixpoint trim_start (l : list (N * string)) : list (N * string) :=
  match l with
  | [] => []
  | c :: rest => if is_space (fst c) then trim_start rest else l
  end.

(** [s.trimEnd()]: a character is kept when it is not white space or
    something is kept after it. *)
Fixpoint trim_end (l : list (N * string)) : list (N * string) :=
  match l with
  | [] => []
  | c :: rest =>
      match trim_end rest with
      | [] => if is_space (fst c) then [] else [c]
      | kept => c :: kept
      end
  end.

(** [s.trim()] *)
Definition trim (s : string) : string :=
  String.concat EmptyString (List.map snd (trim_end (trim_start (chars s)))).

Module AskQuestionForm.

(** The values of the form's inputs. *)
Record FormValues : Type := mkFormValues {
  f_title : string;
  f_description : string;
  f_category : string;
  f_tags : option string;
}.

(** [formState.errors] *)
Record FieldErrors : Type := mkFieldErrors {
  err_title : option string;
  err_description : option string;
  err_category : option string;
}.

(** [z.string().min(n, message)]: zod compares [input.length] with [n]. *)
Definition min_length (n : nat) (message : string) (s : string) : option string :=
  if Nat.ltb (js_length s) n then Some message else None.

(** [questionSchema], as [zodResolver] runs it: the parsed data, or the
    message of every field that fails. *)
Definition questionSchema (values : FormValues) : FieldErrors + FormValues :=
  let errors :=
    {| err_title := min_length 5 "Title must be at least 5 characters" (f_title values);
       err_description :=
         min_length 10 "Description must be at least 10 characters"
           (f_description values);
       err_category := min_length 1 "Please select a category" (f_category values) |} in
  match err_title errors, err_description errors, err_category errors with
  | None, None, None => inr values
  | _, _, _ => inl errors
  end.

Record State : Type := mkState {
  s_submitting : bool;
  s_error : string;
  s_errors : FieldErrors;
  s_values : FormValues;   (* the inputs, cleared by [reset()] *)
  s_left : bool;           (* [onBack()] was called *)
}.

Definition setSubmitting (v : bool) (st : State) : State :=
  {| s_submitting := v; s_error := s_error st; s_errors := s_errors st;
     s_values := s_values st; s_left := s_left st |}.

Definition setError (v : string) (st : State) : State :=
  {| s_submitting := s_submitting st; s_error := v; s_errors := s_errors st;
     s_values := s_values st; s_left := s_left st |}.

Definition setErrors (v : FieldErrors) (st : State) : State :=
  {| s_submitting := s_submitting st; s_error := s_error st; s_errors := v;
     s_values := s_values st; s_left := s_left st |}.

Definition no_errors : FieldErrors :=
  {| err_title := None; err_description := None; err_category := None |}.

(** [reset()] of react-hook-form: the inputs return to their defaults. *)
Definition reset (st : State) : State :=
  {| s_submitting := s_submitting st; s_error := s_error st;
     s_errors := no_errors;
     s_values := {| f_title := EmptyString; f_description := EmptyString;
                    f_category := EmptyString; f_tags := None |};
     s_left := s_left st |}.

Definition onBack (st : State) : State :=
  {| s_submitting := s_submitting st; s_error := s_error st;
     s_errors := s_errors st; s_values := s_values st; s_left := true |}.

(** [getDocs(query(collection(db, 'users'), where('role', 'in', roles)))] *)
Definition getDocs_users_role_in (roles : list string)
  : Async (Backend * State) (list (string * UserDoc)) :=
  fun '(b, st) =>
    ((b, st),
     Returned (List.filter
                 (fun '(_, d) =>
                    match u_role d with
                    | Some r => bool_decide (r ∈ roles)
                    | None => false
                    end)
                 (map_to_list (users (db b))))).

(** [await Promise.all(l.map(d => addDoc(collection(db, 'notifications'), d)))] *)
Fixpoint addDoc_notifications_all (l : list NotificationDoc)
  : Async (Backend * State) unit :=
  match l with
  | [] => ret tt
  | d :: rest => (addDoc_notifications d;;; addDoc_notifications_all rest)%async
  end.

(** [newId] is the id [addDoc] generates for the ticket. *)
Definition onSubmit (this : EmailService) (srv : Server)
    (user : option User) (profile : option UserProfile) (now : Z)
    (newId : string) (data : FormValues) : Async (Backend * State) unit :=
  (match user with
   | None => ret tt
   | Some user =>
     setState (setSubmitting true);;;
     setState (setError EmptyString);;;
     try_finally
       (try_catch
         ((* Create ticket data *)
          let ticketData :=
            {| t_title := f_title data;
               t_description := f_description data;
               t_category := f_category data;
               t_tags := if str_truthy (f_tags data)
                         then List.map trim (split_comma (default EmptyString (f_tags data)))
                         else [];
               t_status := "open";
               t_userId := uid user;
               t_userName := str_or (p_name <$> profile) "User";
               t_createdAt := now;
               t_replyCount := 0;
               t_upvotes := 0;
               t_downvotes := 0;
               t_assignedTo := None;
               t_assignedToName := None |} in
          (* Add ticket to Firestore *)
          let* ticketRef := addDoc_tickets newId ticketData in
          (* Send email notification *)
          try_catch
            (let* _ := sendTicketCreatedNotification this srv
               {| d_ticketId := ticketRef;
                  d_ticketTitle := f_title data;
                  d_userName := str_or (p_name <$> profile) "User";
                  d_userEmail := str_or (email user) EmptyString;
                  d_status := None;
                  d_category := Some (f_category data);
                  d_description := Some (f_description data) |} in
             ret tt)
            (fun _ => ret tt);;;
          (* Send notification to all support agents and admins *)
          try_catch
            (let* supportUsers := getDocs_users_role_in ["support-agent"; "admin"] in
             addDoc_notifications_all
               (List.map (fun '(supportId, _) =>
                  {| n_userId := supportId;
                     n_type := "ticket_created";
                     n_title := "New Ticket Created";
                     n_message := "New ticket " +:+ dq +:+ f_title data +:+ dq
                                  +:+ " created by " +:+ interpolate (p_name <$> profile);
                     n_ticketId := ticketRef;
                     n_createdAt := now;
                     n_read := false |}) supportUsers))
            (fun _ => ret tt);;;
          setState reset;;;
          setState onBack)
         (fun err =>
            setState (setError
              (str_or (error_message err) "An error occurred while creating the ticket"))))
       (setState (setSubmitting false))
   end)%async.

(** [handleSubmit(onSubmit)] of react-hook-form with the zod resolver:
    [onSubmit] runs only on values the schema accepts; otherwise the
    field errors are shown. *)
Definition handleSubmit (this : EmailService) (srv : Server)
    (user : option User) (profile : option UserProfile) (now : Z)
    (newId : string) : Async (Backend * State) unit :=
  (let* st := render in
   match questionSchema (s_values st) with
   | inl errors => setState (setErrors errors)
   | inr data =>
       setState (setErrors no_errors);;;
       onSubmit this srv user profile now newId data
   end)%async.

End AskQuestionForm.

(** ** Several browsers over one store *)

(** A mounted voting component with the user signed in to its browser;
    a ticket detail view also has its [ticketId] prop. *)
Inductive Client : Type :=
| ListClient (user : option User) (st : TicketList.State)
| DetailClient (user : option User) (ticketId : string) (st : TicketDetail.State).

Record System : Type := mkSystem {
  backend : Backend;
  clients : list Client;
}.

(** One click on a vote button: in client number [who], at time [at_time],
    of kind [kind]; [on] is the ticket of the row clicked in a list (a
    detail view votes on its own ticket). *)
Record VoteCall : Type := mkVoteCall {
  who : nat;
  at_time : Z;
  on : string;
  kind : VoteType;
}.

Definition vote (sys : System) (c : VoteCall) : System :=
  match clients sys !! who c with
  | None => sys
  | Some (ListClient user st) =>
      match exec (TicketList.handleVote user (at_time c) (on c) (kind c))
                 (backend sys, st) with
      | (b', st') =>
          {| backend := b'; clients := <[who c := ListClient user st']> (clients sys) |}
      end
  | Some (DetailClient user ticketId st) =>
      match exec (TicketDetail.handleVote user (at_time c) ticketId (kind c))
                 (backend sys, st) with
      | (b', st') =>
          {| backend := b';
             clients := <[who c := DetailClient user ticketId st']> (clients sys) |}
      end
  end.

(** The clicks of [calls], one after the other. *)
Definition run (calls : list VoteCall) (sys : System) : System :=
  List.fold_left vote calls sys.

(** * Properties *)

(** ** Vocabulary of the statements *)

(** The count of a ticket for a kind of vote. *)
Definition count (type : VoteType) (d : TicketDoc) : Z :=
  match type with
  | upvote => t_upvotes d
  | downvote => t_downvotes d
  end.

Definition nonneg_doc (d : TicketDoc) : Prop :=
  0 <= t_upvotes d ∧ 0 <= t_downvotes d.

(** The copies of ticket [tid] a client holds have non-negative counts. *)
Definition nonneg_in_client (tid : string) (c : Client) : Prop :=
  match c with
  | ListClient _ st =>
      Forall (fun t => id t = tid → nonneg_doc (data t)) (TicketList.s_tickets st)
  | DetailClient _ ticketId st =>
      ticketId = tid →
      match TicketDetail.s_ticket st with
      | Some t => nonneg_doc (data t)
      | None => True
      end
  end.

(** Ticket [tid] has non-negative counts, in the store and in every
    browser that shows it. *)
Definition ticket_nonneg (tid : string) (sys : System) : Prop :=
  match tickets (db (backend sys)) !! tid with
  | Some d => nonneg_doc d
  | None => True
  end ∧
  Forall (nonneg_in_client tid) (clients sys).

(** The two counts [handleVote] computes, from the vote and the counts its
    component holds; [handleVote_list_run] and [handleVote_detail_run]
    relate it to the handlers. *)
Definition counts_after (current : option VoteType) (type : VoteType) (up down : Z)
  : Z * Z :=
  if bool_decide (current = Some type) then
    match type with
    | upvote => (Z.max 0 (up - 1), down)
    | downvote => (up, Z.max 0 (down - 1))
    end
  else
    match current with
    | Some upvote => (Z.max 0 (up - 1), down + 1)
    | Some downvote => (up + 1, Z.max 0 (down - 1))
    | None =>
        match type with
        | upvote => (up + 1, down)
        | downvote => (up, down + 1)
        end
    end.

(** The update of the list after a vote on [tid]. *)
Definition recount (tid : string) (nu nd : Z) (t : Ticket) : Ticket :=
  if String.eqb (id t) tid
  then {| id := id t; data := with_counts nu nd (data t) |}
  else t.

(** The e-mail enable flag is anything but the string [true]. *)
Definition flag_off (e : Env) : Prop :=
  NEXT_PUBLIC_EMAIL_SERVICE_ENABLED e ≠ Some "true".

(** Every field but the status is the same. *)
Definition same_but_status (d d' : TicketDoc) : Prop :=
  t_title d' = t_title d ∧ t_description d' = t_description d ∧
  t_category d' = t_category d ∧ t_tags d' = t_tags d ∧
  t_createdAt d' = t_createdAt d ∧ t_userId d' = t_userId d ∧
  t_userName d' = t_userName d ∧ t_replyCount d' = t_replyCount d ∧
  t_upvotes d' = t_upvotes d ∧ t_downvotes d' = t_downvotes d ∧
  t_assignedTo d' = t_assignedTo d ∧ t_assignedToName d' = t_assignedToName d.

(** Runs the monad of a handler. *)
Ltac run_async :=
  unfold exec, bind, ret, throw, try_catch, try_finally, render, setState, write,
    modify, get; simpl.

(** ** Sample data *)

Module Sample.

Definition ann : User :=
  {| uid := "ann"; email := Some "ann@example.com"; displayName := Some "Ann" |}.

Definition bob : User :=
  {| uid := "bob"; email := Some "bob@example.com"; displayName := None |}.

Definition bob_profile : UserProfile :=
  {| p_name := "Bob"; p_email := "bob@example.com"; p_role := "support-agent";
     p_categoryInterest := EmptyString; p_language := "en" |}.

(** A ticket created by Ann, with three upvotes and one downvote. *)
Definition printer : TicketDoc :=
  {| t_title := "Printer is offline"; t_description := "The printer on floor 2 is offline";
     t_category := "technical"; t_tags := ["printer"]; t_status := "open";
     t_createdAt := 1000; t_userId := "ann"; t_userName := "Ann";
     t_replyCount := 0; t_upvotes := 3; t_downvotes := 1;
     t_assignedTo := None; t_assignedToName := None |}.

Definition printer_ticket : Ticket := {| id := "t1"; data := printer |}.

(** Ann asks to become a support agent. *)
Definition ann_request : RoleUpgradeRequestDoc :=
  {| r_userId := "ann"; r_userName := "Ann"; r_userEmail := Some "ann@example.com";
     r_currentRole := "end-user"; r_requestedRole := "support-agent";
     r_status := pending; r_createdAt := 1500; r_reason := "I answer tickets" |}.

Definition store : Firestore :=
  {| tickets := {[ "t1" := printer ]};
     votes := ∅;
     users := {[ "ann" := {| u_name := Some "Ann"; u_email := Some "ann@example.com";
                             u_role := None; u_categoryInterest := None;
                             u_language := None |};
                 "bob" := {| u_name := Some "Bob"; u_email := Some "bob@example.com";
                             u_role := Some "support-agent";
                             u_categoryInterest := None; u_language := Some "en" |} ]};
     roleUpgradeRequests := {[ "r1" := ann_request ]};
     notifications := [] |}.

Definition world : Backend := {| db := store; outbox := []; dispatched := [] |}.

(** The same store after Bob upvoted the printer ticket. *)
Definition world_upvoted : Backend :=
  {| db := set_votes {[ ("t1", "bob") := {| v_type := upvote; v_createdAt := 1200 |} ]}
             store;
     outbox := []; dispatched := [] |}.

Definition list_view : TicketList.State :=
  {| TicketList.s_tickets := [printer_ticket];
     TicketList.s_userVotes := {[ "t1" := None ]};
     TicketList.s_votingTickets := ∅ |}.


Definition detail_view : TicketDetail.State :=
  {| TicketDetail.s_ticket := Some printer_ticket;
     TicketDetail.s_userVote := None;
     TicketDetail.s_voting := false |}.


(** A detail view opened on a ticket id that has no document. *)
Definition detail_view_missing : TicketDetail.State :=
  {| TicketDetail.s_ticket := None;
     TicketDetail.s_userVote := None;
     TicketDetail.s_voting := false |}.

Definition dashboard : SupportAgentDashboard.State :=
  {| SupportAgentDashboard.s_tickets := [printer_ticket];
     SupportAgentDashboard.s_loading := false |}.

Definition panel : AdminPanel.State :=
  {| AdminPanel.s_roleRequests :=
       [ {| AdminPanel.rid := "r1"; AdminPanel.rdata := ann_request |} ];
     AdminPanel.s_loading := false |}.

Definition form (title description category : string) : AskQuestionForm.State :=
  {| AskQuestionForm.s_submitting := false;
     AskQuestionForm.s_error := EmptyString;
     AskQuestionForm.s_errors := AskQuestionForm.no_errors;
     AskQuestionForm.s_values :=
       {| AskQuestionForm.f_title := title;
          AskQuestionForm.f_description := description;
          AskQuestionForm.f_category := category;
          AskQuestionForm.f_tags := Some "vpn, remote" |};
     AskQuestionForm.s_left := false |}.

Definition profile_view : useUserProfile.State :=
  {| useUserProfile.s_profile := None; useUserProfile.s_loading := true |}.

Definition env_on : Env :=
  {| NEXT_PUBLIC_EMAIL_SERVICE_ENABLED := Some "true";
     RESEND_API_KEY := Some "re_test";
     FROM_EMAIL := None |}.


(** A provider that accepts every mail. *)
Definition server_on : Server :=
  {| env := env_on; resend := fun _ => ResendData "mail-1" |}.




Definition request_complete : EmailRequest :=
  {| q_to := JsString "ann@example.com"; q_subject := JsString "Hello";
     q_body := JsString "Hi"; q_html := JsUndefined |}.

Definition hello : EmailData :=
  {| e_to := "ann@example.com"; e_subject := "Hello"; e_body := "Hi";
     e_html := None |}.

(** Bob's ticket list and Ann's detail view of the printer ticket. *)
Definition system : System :=
  {| backend := world;
     clients := [ListClient (Some bob) list_view;
                 DetailClient (Some ann) "t1" detail_view] |}.

Definition clicks : list VoteCall :=
  [ {| who := 0%nat; at_time := 2000; on := "t1"; kind := downvote |};
    {| who := 1%nat; at_time := 2001; on := "t1"; kind := downvote |};
    {| who := 1%nat; at_time := 2002; on := "t1"; kind := upvote |};
    {| who := 0%nat; at_time := 2003; on := "t1"; kind := downvote |} ].

End Sample.

(** * The rest of the client

    The page list, the loading of the lists, the replies, the refresh of
    the admin panel, the navigation and the notification centre, embedded
    with the conventions above and these.
    - The answer of a query ([getDocs], [onSnapshot]) is an input of the
      function that reads it, since its order and its page depend on the
      query; the answer to the pending role requests is computed from the
      store, because only the documents it holds matter.  A read of one
      document ([getDoc]) is taken from the store, and whether it reaches
      the store is an input.
    - The replies of the tickets are kept beside the store as the list of
      the documents added.
    - The id of a notification is its position in the collection. *)

(** ** src/components/ui/Pagination.tsx *)

Module Pagination.

(** An entry of the page list: a page number, or the string of three
    dots. *)
Inductive PageItem : Type :=
| Page (n : Z)
| Dots.

Definition startItem (currentPage itemsPerPage : Z) : Z :=
  (currentPage - 1) * itemsPerPage + 1.

Definition endItem (currentPage itemsPerPage totalItems : Z) : Z :=
  Z.min (currentPage * itemsPerPage) totalItems.

(** [for (let i = first; i <= last; i++) pages.push(i)] *)
Definition push_range (first last : Z) : list PageItem :=
  Page <$> seqZ first (last - first + 1).

Definition getPageNumbers (currentPage totalPages : Z) : list PageItem :=
  let maxVisiblePages := 5 in
  if Z.leb totalPages maxVisiblePages then
    (* Show all pages if total is small *)
    push_range 1 totalPages
  else
    (* Show pages around current page *)
    let start := Z.max 1 (currentPage - 2) in
    let end_ := Z.min totalPages (currentPage + 2) in
    (if Z.ltb 1 start
     then Page 1 :: (if Z.ltb 2 start then [Dots] else [])
     else [])
    ++ push_range start end_
    ++ (if Z.ltb end_ totalPages
        then (if Z.ltb end_ (totalPages - 1) then [Dots] else []) ++ [Page totalPages]
        else []).

(** The component renders nothing when [totalPages <= 1]. *)
Definition rendered (totalPages : Z) : bool := negb (Z.leb totalPages 1).

(** The entries for which [typeof page === 'number']. *)
Definition numbers (pages : list PageItem) : list Z :=
  omap (fun item => match item with Page n => Some n | Dots => None end) pages.

(** The pages the enabled buttons pass to [onPageChange]: the previous
    page unless the current page is the first, the numbered entries, the
    next page unless the current page is the last. *)
Definition requests (currentPage totalPages : Z) : list Z :=
  (if Z.eqb currentPage 1 then [] else [currentPage - 1])
  ++ numbers (getPageNumbers currentPage totalPages)
  ++ (if Z.eqb currentPage totalPages then [] else [currentPage + 1]).

End Pagination.

(** ** Vocabulary for the e-mail route *)

(** The request has the three fields the route requires. *)
Definition complete (body : EmailRequest) : Prop :=
  truthy (q_to body) = true ∧ truthy (q_subject body) = true ∧
  truthy (q_body body) = true.

(** The server is set up to send: the flag is the string [true] and an
    API key is present. *)
Definition live (srv : Server) : Prop :=
  NEXT_PUBLIC_EMAIL_SERVICE_ENABLED (env srv) = Some "true" ∧
  str_truthy (RESEND_API_KEY (env srv)) = true.

(** The server has an API key, so the module of the route loads. *)
Definition has_key (srv : Server) : Prop :=
  str_truthy (RESEND_API_KEY (env srv)) = true.

(** The mail the route builds from a request. *)
Definition mail_of (srv : Server) (body : EmailRequest) : ResendMail :=
  {| m_from := str_or (FROM_EMAIL (env srv)) "QuickDesk <noreply@yourdomain.com>";
     m_to := [q_to body];
     m_subject := q_subject body;
     m_text := q_body body;
     m_html := q_html body |}.

(** The provider answers [{data}] for the mail. *)
Definition accepted (srv : Server) (mail : ResendMail) : Prop :=
  ∃ id, resend srv mail = ResendData id.

(** ** Vocabulary for votes *)

(** The vote records of a kind on a ticket. *)
Definition voters (type : VoteType) (tid : string) (fs : Firestore)
  : gmap (string * string) VoteDoc :=
  filter (fun kv => fst (fst kv) = tid ∧ v_type (snd kv) = type) (votes fs).

(** How many voters have a vote of a kind on a ticket. *)
Definition tally (type : VoteType) (tid : string) (fs : Firestore) : Z :=
  Z.of_nat (size (voters type tid fs)).

(** The stored counts of a ticket are the numbers of its vote records. *)
Definition counts_match (tid : string) (fs : Firestore) : Prop :=
  match tickets fs !! tid with
  | Some d => t_upvotes d = tally upvote tid fs ∧ t_downvotes d = tally downvote tid fs
  | None => True
  end.

(** ** TicketList.tsx: loading the list *)

(** [Math.ceil(a / b)] for integers [a] and [b > 0]. *)
Definition Math_ceil_div (a b : Z) : Z := - ((- a) / b).

Module TicketListPage.

Definition itemsPerPage : Z := 10.

(** The whole state of the list: the part [handleVote] works on, and the
    loading flag, the cursor and the counters of the pages.  The search
    term, the filters and the sort order only shape the query, whose
    answer is an input of [fetchTickets]. *)
Record State : Type := mkState {
  s_votes : TicketList.State;
  s_loading : bool;
  s_lastDoc : option Ticket;
  s_hasMore : bool;
  s_totalItems : Z;
  s_currentPage : Z;
  s_showMyTicketsOnly : bool;
}.

Definition setVotes (f : TicketList.State -> TicketList.State) (st : State) : State :=
  {| s_votes := f (s_votes st); s_loading := s_loading st; s_lastDoc := s_lastDoc st;
     s_hasMore := s_hasMore st; s_totalItems := s_totalItems st;
     s_currentPage := s_currentPage st;
     s_showMyTicketsOnly := s_showMyTicketsOnly st |}.

Definition setLoading (v : bool) (st : State) : State :=
  {| s_votes := s_votes st; s_loading := v; s_lastDoc := s_lastDoc st;
     s_hasMore := s_hasMore st; s_totalItems := s_totalItems st;
     s_currentPage := s_currentPage st;
     s_showMyTicketsOnly := s_showMyTicketsOnly st |}.

Definition setLastDoc (v : option Ticket) (st : State) : State :=
  {| s_votes := s_votes st; s_loading := s_loading st; s_lastDoc := v;
     s_hasMore := s_hasMore st; s_totalItems := s_totalItems st;
     s_currentPage := s_currentPage st;
     s_showMyTicketsOnly := s_showMyTicketsOnly st |}.

Definition setHasMore (v : bool) (st : State) : State :=
  {| s_votes := s_votes st; s_loading := s_loading st; s_lastDoc := s_lastDoc st;
     s_hasMore := v; s_totalItems := s_totalItems st;
     s_currentPage := s_currentPage st;
     s_showMyTicketsOnly := s_showMyTicketsOnly st |}.

Definition setTotalItems (f : Z -> Z) (st : State) : State :=
  {| s_votes := s_votes st; s_loading := s_loading st; s_lastDoc := s_lastDoc st;
     s_hasMore := s_hasMore st; s_totalItems := f (s_totalItems st);
     s_currentPage := s_currentPage st;
     s_showMyTicketsOnly := s_showMyTicketsOnly st |}.

Definition setCurrentPage (v : Z) (st : State) : State :=
  {| s_votes := s_votes st; s_loading := s_loading st; s_lastDoc := s_lastDoc st;
     s_hasMore := s_hasMore st; s_totalItems := s_totalItems st;
     s_currentPage := v;
     s_showMyTicketsOnly := s_showMyTicketsOnly st |}.

(** A handler of the voting part, run in the whole state. *)
Definition on_votes {A : Type} (m : Async (Backend * TicketList.State) A)
  : Async (Backend * State) A :=
  fun '(b, st) =>
    match m (b, s_votes st) with
    | ((b', v'), c) => ((b', setVotes (fun _ => v') st), c)
    end.

(** The object [votes] that [fetchUserVotes] fills: for each ticket id the
    type of the user's stored vote, or [null] when there is none or the
    read fails ([reachable] tells which reads reach the store). *)
Definition fetched_votes (reachable : string -> bool) (fs : Firestore) (user : User)
    (ticketIds : list string) : gmap string (option VoteType) :=
  List.fold_left
    (fun acc ticketId =>
       <[ticketId :=
           if reachable ticketId
           then match votes fs !! (ticketId, uid user) with
                | Some voteData => Some (v_type voteData)
                | None => None
                end
           else None]> acc)
    ticketIds ∅.

Definition fetchUserVotes (reachable : string -> bool) (user : option User)
    (ticketIds : list string) : Async (Backend * State) unit :=
  match user with
  | None => ret tt
  | Some user =>
      (let* (b, _) := get in
       let votes := fetched_votes reachable (db b) user ticketIds in
       (* {...prev, ...votes} *)
       setState (setVotes (TicketList.setUserVotes (fun prev => votes ∪ prev))))%async
  end.

(** [await getDocs(q)]: the documents of the answer, or a query that
    fails. *)
Definition getDocs_tickets (snapshot : option (list Ticket))
  : Async (Backend * State) (list Ticket) :=
  match snapshot with
  | Some docs => ret docs
  | None => throw Unavailable
  end.

Definition fetchTickets (reachable : string -> bool) (user : option User)
    (snapshot : option (list Ticket)) (reset : bool) : Async (Backend * State) unit :=
  (let* st := render in
   (if reset then
      setState (setLoading true);;;
      setState (setVotes (TicketList.setTickets (fun _ => [])));;;
      setState (setLastDoc None);;;
      setState (setHasMore true)
    else ret tt);;;
   try_finally
     (try_catch
       (let* ticketsData := getDocs_tickets snapshot in
        (* Filter by user if needed (client-side to avoid complex indexes) *)
        let filteredData :=
          match s_showMyTicketsOnly st, user with
          | true, Some user =>
              List.filter (fun ticket => String.eqb (t_userId (data ticket)) (uid user))
                          ticketsData
          | _, _ => ticketsData
          end in
        (if reset then
           setState (setVotes (TicketList.setTickets (fun _ => filteredData)));;;
           (* Fetch user votes for all tickets *)
           match user with
           | Some _ => fetchUserVotes reachable user (List.map id filteredData)
           | None => ret tt
           end
         else
           setState (setVotes (TicketList.setTickets (fun prev => prev ++ filteredData)));;;
           (* Fetch user votes for new tickets *)
           match user with
           | Some _ => fetchUserVotes reachable user (List.map id filteredData)
           | None => ret tt
           end);;;
        setState (setLastDoc (last ticketsData));;;
        setState (setHasMore
          (Z.eqb (Z.of_nat (length ticketsData)) itemsPerPage));;;
        setState (setTotalItems (fun prev =>
          if reset then Z.of_nat (length filteredData)
          else prev + Z.of_nat (length filteredData))))
       (fun _ => ret tt))
     (setState (setLoading false)))%async.

(** [handlePageChange(page)], with the [fetchTickets(true)] it starts run
    to its end. *)
Definition handlePageChange (reachable : string -> bool) (user : option User)
    (snapshot : option (list Ticket)) (page : Z) : Async (Backend * State) unit :=
  (setState (setCurrentPage page);;;
   (* For simplicity, we'll reset and fetch from the beginning *)
   setState (setCurrentPage 1);;;
   setState (setLastDoc None);;;
   fetchTickets reachable user snapshot true)%async.

(** The [totalPages] the list passes to [Pagination]. *)
Definition totalPages (st : State) : Z :=
  Math_ceil_div (s_totalItems st) itemsPerPage.

End TicketListPage.

(** ** src/lib/emailService.ts: the reply notification *)

(** [data] and [replyFrom] are the fields of the argument, of type
    [TicketNotificationData & { replyFrom: string }]. *)
Definition sendTicketReplyNotification {St : Type} (this : EmailService) (srv : Server)
    (data : TicketNotificationData) (replyFrom : string) : Async (Backend * St) bool :=
  let subject := "New Reply to Your Ticket: " +:+ d_ticketTitle data in
  let body := "
      You have received a new reply to your ticket:
      
      Ticket ID: " +:+ d_ticketId data +:+ "
      Title: " +:+ d_ticketTitle data +:+ "
      Replied by: " +:+ replyFrom +:+ "
      
      Please log in to the QuickDesk system to view the reply and respond if needed.
    " in
  let html := "
      <div style=" +:+ dq +:+ "font-family: Arial, sans-serif; max-width: 600px; margin: 0 auto;" +:+ dq +:+ ">
        <h2 style=" +:+ dq +:+ "color: #7c3aed;" +:+ dq +:+ ">New Reply to Your Ticket</h2>
        <div style=" +:+ dq +:+ "background-color: #faf5ff; padding: 20px; border-radius: 8px; margin: 20px 0; border-left: 4px solid #7c3aed;" +:+ dq +:+ ">
          <h3 style=" +:+ dq +:+ "margin-top: 0;" +:+ dq +:+ ">" +:+ d_ticketTitle data +:+ "</h3>
          <p><strong>Ticket ID:</strong> " +:+ d_ticketId data +:+ "</p>
          <p><strong>Replied by:</strong> " +:+ replyFrom +:+ "</p>
        </div>
        <p>Please log in to the QuickDesk system to view the reply and respond if needed.</p>
        <div style=" +:+ dq +:+ "margin-top: 30px; padding-top: 20px; border-top: 1px solid #e5e7eb;" +:+ dq +:+ ">
          <p style=" +:+ dq +:+ "color: #6b7280; font-size: 12px;" +:+ dq +:+ ">
            This is an automated notification from QuickDesk Help Desk System.
          </p>
        </div>
      </div>
    " in
  sendEmail this srv
    {| e_to := d_userEmail data;
       e_subject := subject;
       e_body := body;
       e_html := Some html |}.

(** ** TicketDetail.tsx: opening a ticket and replying *)

Module TicketDetailPage.

(** A document of [tickets/{ticketId}/replies]. *)
Record ReplyDoc : Type := mkReplyDoc {
  rp_content : string;
  rp_userId : string;
  rp_userName : string;
  rp_createdAt : Z;
}.

Record Reply : Type := mkReply {
  reply_id : string;
  reply_data : ReplyDoc;
}.

(** The replies the component has added, each with the ticket it was added
    under, oldest first: [addDoc] never overwrites. *)
Definition Replies : Type := list (string * ReplyDoc).

(** The whole state of the component: the part [handleVote] works on, and
    the replies, the reply being typed and the two busy flags. *)
Record State : Type := mkState {
  s_view : TicketDetail.State;
  s_replies : list Reply;
  s_newReply : string;
  s_loading : bool;
  s_submitting : bool;
}.

Definition setView (f : TicketDetail.State -> TicketDetail.State) (st : State) : State :=
  {| s_view := f (s_view st); s_replies := s_replies st; s_newReply := s_newReply st;
     s_loading := s_loading st; s_submitting := s_submitting st |}.

Definition setReplies (v : list Reply) (st : State) : State :=
  {| s_view := s_view st; s_replies := v; s_newReply := s_newReply st;
     s_loading := s_loading st; s_submitting := s_submitting st |}.

Definition setNewReply (v : string) (st : State) : State :=
  {| s_view := s_view st; s_replies := s_replies st; s_newReply := v;
     s_loading := s_loading st; s_submitting := s_submitting st |}.

Definition setLoading (v : bool) (st : State) : State :=
  {| s_view := s_view st; s_replies := s_replies st; s_newReply := s_newReply st;
     s_loading := v; s_submitting := s_submitting st |}.

Definition setSubmitting (v : bool) (st : State) : State :=
  {| s_view := s_view st; s_replies := s_replies st; s_newReply := s_newReply st;
     s_loading := s_loading st; s_submitting := v |}.

Definition World : Type := Backend * (Replies * State).

Definition setPage (f : State -> State) : Async World unit :=
  setState (fun '(log, st) => (log, f st)).

Definition renderPage : Async World State :=
  (let* (_, st) := render in ret st)%async.

(** A handler of the voting part, run in the whole state. *)
Definition on_view {A : Type} (m : Async (Backend * TicketDetail.State) A)
  : Async World A :=
  fun '(b, (log, st)) =>
    match m (b, s_view st) with
    | ((b', v'), c) => ((b', (log, setView (fun _ => v') st)), c)
    end.

(** [await getDoc(doc(db, 'tickets', ticketId))]; [online = false] is a
    read that fails. *)
Definition getDoc_tickets (online : bool) (ticketId : string)
  : Async World (option TicketDoc) :=
  if online then (let* (b, _) := get in ret (tickets (db b) !! ticketId))%async
  else throw Unavailable.

(** [await getDoc(doc(db, 'tickets', ticketId, 'votes', user.uid))] *)
Definition getDoc_votes (online : bool) (ticketId voter : string)
  : Async World (option VoteDoc) :=
  if online then (let* (b, _) := get in ret (votes (db b) !! (ticketId, voter)))%async
  else throw Unavailable.

(** [await getDocs(repliesQuery)]: the documents of the answer, or a query
    that fails. *)
Definition getDocs_replies (snapshot : option (list Reply)) : Async World (list Reply) :=
  match snapshot with
  | Some docs => ret docs
  | None => throw Unavailable
  end.

(** [addDoc(collection(db, 'tickets', ticketId, 'replies'), d)] *)
Definition addDoc_replies (ticketId : string) (d : ReplyDoc) : Async World unit :=
  setState (fun '(log, st) => (log ++ [(ticketId, d)], st)).

Definition fetchTicketAndReplies (online : bool) (snapshot : option (list Reply))
    (ticketId : string) : Async World unit :=
  (setPage (setLoading true);;;
   try_finally
     (try_catch
       ((* Fetch ticket *)
        let* ticketDoc := getDoc_tickets online ticketId in
        match ticketDoc with
        | Some d =>
            setPage (setView (TicketDetail.setTicket
              (fun _ => Some {| id := ticketId; data := d |})))
        | None => ret tt
        end;;;
        (* Fetch replies *)
        let* repliesData := getDocs_replies snapshot in
        setPage (setReplies repliesData))
       (fun _ => ret tt))
     (setPage (setLoading false)))%async.

Definition fetchUserVote (online : bool) (user : option User) (ticketId : string)
  : Async World unit :=
  match user with
  | None => ret tt
  | Some user =>
      try_catch
        (let* voteDoc := getDoc_votes online ticketId (uid user) in
         match voteDoc with
         | Some voteData => setPage (setView (TicketDetail.setUserVote (Some (v_type voteData))))
         | None => setPage (setView (TicketDetail.setUserVote None))
         end)
        (fun _ => ret tt)
  end%async.

(** The effect of [[ticketId, user]], with both fetches run to their end. *)
Definition useEffect (ticketOnline voteOnline : bool) (snapshot : option (list Reply))
    (user : option User) (ticketId : string) : Async World unit :=
  (fetchTicketAndReplies ticketOnline snapshot ticketId;;;
   match user with
   | Some _ => fetchUserVote voteOnline user ticketId
   | None => ret tt
   end)%async.

(** [userRole === 'support-agent' || userRole === 'admin'] *)
Definition from_support (userRole : option string) : bool :=
  bool_decide (userRole = Some "support-agent") || bool_decide (userRole = Some "admin").

(** [handleSubmitReply()], up to its return: the refresh
    [fetchTicketAndReplies()] is not awaited and has run to its first
    [await]. *)
Definition handleSubmitReply (this : EmailService) (srv : Server)
    (user : option User) (profile : option UserProfile) (userRole : option string)
    (now : Z) (ticketId : string) : Async World unit :=
  (let* st := renderPage in
   if String.eqb (trim (s_newReply st)) EmptyString then ret tt
   else
   match user, TicketDetail.s_ticket (s_view st) with
   | None, _ | _, None => ret tt
   | Some user, Some ticket =>
     setPage (setSubmitting true);;;
     try_finally
       (try_catch
         (addDoc_replies ticketId
            {| rp_content := s_newReply st;
               rp_userId := uid user;
               rp_userName := str_or (p_name <$> profile) "User";
               rp_createdAt := now |};;;
          (* Send email notification to ticket owner if reply is from support *)
          (if from_support userRole then
             try_catch
               (let* _ := sendTicketReplyNotification this srv
                  {| d_ticketId := ticketId;
                     d_ticketTitle := t_title (data ticket);
                     d_userName := t_userName (data ticket);
                     d_userEmail := EmptyString; (* You'd need to get this from user profile *)
                     d_status := None;
                     d_category := None;
                     d_description := None |}
                  (str_or (p_name <$> profile) "Support Team") in
                ret tt)
               (fun _ => ret tt)
           else ret tt);;;
          setPage (setNewReply EmptyString);;;
          setPage (setLoading true) (* Refresh replies *))
         (fun _ => ret tt))
       (setPage (setSubmitting false))
   end)%async.

End TicketDetailPage.

(** ** AdminPanel.tsx: refreshing the requests *)

Module AdminPanelData.

Definition setRoleRequests (v : list AdminPanel.RoleUpgradeRequest)
    (st : AdminPanel.State) : AdminPanel.State :=
  {| AdminPanel.s_roleRequests := v; AdminPanel.s_loading := AdminPanel.s_loading st |}.

(** The answer to [where('status', '==', 'pending')] on a store, each
    document as [{id: doc.id, ...doc.data()}].  The ids of an answer are
    distinct, so its order does not matter to [roleRequests.find]. *)
Definition pending_requests (fs : Firestore) : list AdminPanel.RoleUpgradeRequest :=
  List.map (fun kd => {| AdminPanel.rid := fst kd; AdminPanel.rdata := snd kd |})
    (List.filter
       (fun kd => match r_status (snd kd) with pending => true | _ => false end)
       (map_to_list (roleUpgradeRequests fs))).

(** [await getDocs(query(collection(db, 'roleUpgradeRequests'),
    where('status', '==', 'pending')))]; [online = false] is a read that
    fails, this one or one of the two before it. *)
Definition getDocs_pending (online : bool)
  : Async (Backend * AdminPanel.State) (list AdminPanel.RoleUpgradeRequest) :=
  if online then (let* (b, _) := get in ret (pending_requests (db b)))%async
  else throw Unavailable.

(** [fetchData()] run to its end, for the requests: the categories and the
    users it also reads go to state that the handlers of the requests do
    not use. *)
Definition fetchData (online : bool) : Async (Backend * AdminPanel.State) unit :=
  (setState (AdminPanel.setLoading true);;;
   try_finally
     (try_catch
       ((* Fetch role upgrade requests *)
        let* requestsData := getDocs_pending online in
        setState (setRoleRequests requestsData))
       (fun _ => ret tt))
     (setState (AdminPanel.setLoading false)))%async.

End AdminPanelData.

(** ** SupportAgentDashboard: loading the tickets *)

Module SupportAgentDashboardData.

(** The state of the dashboard with the list of the agent's own tickets. *)
Record State : Type := mkState {
  s_dash : SupportAgentDashboard.State;
  s_myTickets : list Ticket;
}.

Definition setDash (f : SupportAgentDashboard.State -> SupportAgentDashboard.State)
    (st : State) : State :=
  {| s_dash := f (s_dash st); s_myTickets := s_myTickets st |}.

Definition setTickets (v : list Ticket) (st : SupportAgentDashboard.State)
  : SupportAgentDashboard.State :=
  {| SupportAgentDashboard.s_tickets := v;
     SupportAgentDashboard.s_loading := SupportAgentDashboard.s_loading st |}.

Definition setMyTickets (v : list Ticket) (st : State) : State :=
  {| s_dash := s_dash st; s_myTickets := v |}.

(** A handler of the dashboard, run in the larger state. *)
Definition on_dash {A : Type} (m : Async (Backend * SupportAgentDashboard.State) A)
  : Async (Backend * State) A :=
  fun '(b, st) =>
    match m (b, s_dash st) with
    | ((b', d'), c) => ((b', setDash (fun _ => d') st), c)
    end.

(** [ticket.assignedTo === user?.uid]: both sides may be [undefined]. *)
Definition assigned_to (user : option User) (ticket : Ticket) : bool :=
  bool_decide (t_assignedTo (data ticket) = (uid <$> user)).

(** [await getDocs(q)]: the documents of the answer, or a query that
    fails. *)
Definition getDocs_tickets (snapshot : option (list Ticket))
  : Async (Backend * State) (list Ticket) :=
  match snapshot with
  | Some docs => ret docs
  | None => throw Unavailable
  end.

Definition fetchTickets (user : option User) (snapshot : option (list Ticket))
  : Async (Backend * State) unit :=
  (setState (setDash (SupportAgentDashboard.setLoading true));;;
   try_finally
     (try_catch
       (let* ticketsData := getDocs_tickets snapshot in
        setState (setDash (setTickets ticketsData));;;
        (* Filter my tickets *)
        let myTicketsData := List.filter (assigned_to user) ticketsData in
        setState (setMyTickets myTicketsData))
       (fun _ => ret tt))
     (setState (setDash (SupportAgentDashboard.setLoading false))))%async.

(** The two controls of a listed ticket: the assign button is rendered
    under [!ticket.assignedTo], the status select under
    [ticket.assignedTo === user?.uid]. *)
Definition offers_assign (ticket : Ticket) : bool :=
  negb (str_truthy (t_assignedTo (data ticket))).

Definition offers_status (user : option User) (ticket : Ticket) : bool :=
  assigned_to user ticket.

End SupportAgentDashboardData.

(** ** Dashboard (src/unnamed/part_001) and Header (src/unnamed/part_002) *)

Module Dashboard.

Inductive View : Type := dashboard | ask | profile | admin | support.

(** The component [renderView] returns. *)
Inductive Screen : Type :=
  | AskQuestionForm_screen
  | Profile_screen
  | AdminPanel_screen
  | SupportAgentDashboard_screen
  | TicketList_screen.

(** [profile?.role || 'end-user'] *)
Definition userRole (profile : option UserProfile) : string :=
  str_or (p_role <$> profile) "end-user".

Definition renderView (currentView : View) (userRole : string) : Screen :=
  match currentView with
  | ask => AskQuestionForm_screen
  | profile => Profile_screen
  | admin => AdminPanel_screen
  | support => SupportAgentDashboard_screen
  | dashboard =>
      (* Show different dashboards based on user role *)
      if String.eqb userRole "support-agent" then SupportAgentDashboard_screen
      else if String.eqb userRole "admin" then AdminPanel_screen
      else TicketList_screen
  end.

End Dashboard.

Module Header.

Definition getPageTitle (currentView : Dashboard.View) (userRole : string) : string :=
  match currentView with
  | Dashboard.dashboard =>
      if String.eqb userRole "support-agent" then "Support Dashboard"
      else if String.eqb userRole "admin" then "Admin Dashboard"
      else "Dashboard"
  | Dashboard.ask => "Ask Your Question"
  | Dashboard.profile => "Profile"
  | Dashboard.admin => "Admin Panel"
  | Dashboard.support => "Support Agent Dashboard"
  end.

Definition canAccessAdmin (userRole : string) : bool := String.eqb userRole "admin".

Definition canAccessSupport (userRole : string) : bool :=
  String.eqb userRole "support-agent" || String.eqb userRole "admin".

(** The buttons that change the view: the four of the header, and the
    back button of a screen, which calls [onBack].  Every screen but the
    ticket list receives [onBack]; the support dashboard never uses it. *)
Inductive Button : Type := NewTicket | Support | Admin | ProfileButton | BackButton.

(** Whether the button is rendered. *)
Definition shown (currentView : Dashboard.View) (userRole : string) (button : Button)
  : bool :=
  let on_dashboard :=
    match currentView with Dashboard.dashboard => true | _ => false end in
  match button with
  | NewTicket => on_dashboard
  | Support => canAccessSupport userRole && on_dashboard
  | Admin => canAccessAdmin userRole && on_dashboard
  | ProfileButton => true
  | BackButton =>
      match Dashboard.renderView currentView userRole with
      | Dashboard.AskQuestionForm_screen
      | Dashboard.Profile_screen
      | Dashboard.AdminPanel_screen => true
      | Dashboard.SupportAgentDashboard_screen
      | Dashboard.TicketList_screen => false
      end
  end.

(** The view the button's handler sets. *)
Definition onClick (button : Button) : Dashboard.View :=
  match button with
  | NewTicket => Dashboard.ask
  | Support => Dashboard.support
  | Admin => Dashboard.admin
  | ProfileButton => Dashboard.profile
  | BackButton => Dashboard.dashboard
  end.

(** A session: the user presses buttons; one that is not rendered cannot
    be pressed. *)
Fixpoint navigate (userRole : string) (currentView : Dashboard.View)
    (presses : list Button) : Dashboard.View :=
  match presses with
  | [] => currentView
  | button :: rest =>
      navigate userRole
        (if shown currentView userRole button then onClick button else currentView)
        rest
  end.

End Header.

(** ** src/components/ui/NotificationSystem.tsx *)

Module NotificationSystem.

(** The id of a notification document is its position in the collection:
    [addDoc] appends, and nothing deletes a notification. *)
Record Notification : Type := mkNotification {
  nid : nat;
  type : string;
  title : string;
  message : string;
  ticketId : string;
  createdAt : Z;
  read : bool;
}.

Record State : Type := mkState {
  s_notifications : list Notification;
  s_unreadCount : Z;
  s_loading : bool;
}.

Definition setNotifications (f : list Notification -> list Notification) (st : State)
  : State :=
  {| s_notifications := f (s_notifications st); s_unreadCount := s_unreadCount st;
     s_loading := s_loading st |}.

Definition setUnreadCount (f : Z -> Z) (st : State) : State :=
  {| s_notifications := s_notifications st; s_unreadCount := f (s_unreadCount st);
     s_loading := s_loading st |}.

Definition setLoading (v : bool) (st : State) : State :=
  {| s_notifications := s_notifications st; s_unreadCount := s_unreadCount st;
     s_loading := v |}.

(** The notification built from a document of the snapshot. *)
Definition of_doc (doc : nat * NotificationDoc) : Notification :=
  let notificationData := snd doc in
  {| nid := fst doc;
     type := str_or (Some (n_type notificationData)) "ticket_updated";
     title := str_or (Some (n_title notificationData)) "Notification";
     message := str_or (Some (n_message notificationData)) "You have a new notification";
     ticketId := n_ticketId notificationData;
     createdAt := n_createdAt notificationData;
     read := n_read notificationData || false |}.

(** [allNotifications.sort((a, b) => dateB.getTime() - dateA.getTime())]:
    the sort is stable, so [a] stays before the later [b] unless [b] is
    strictly newer. *)
Fixpoint insert_newest (a : Notification) (sorted : list Notification)
  : list Notification :=
  match sorted with
  | [] => [a]
  | b :: rest =>
      if Z.leb (createdAt b) (createdAt a) then a :: sorted
      else b :: insert_newest a rest
  end.

Definition sort_newest_first (l : list Notification) : list Notification :=
  List.fold_right insert_newest [] l.

(** The listener given to [onSnapshot], on the documents of a snapshot. *)
Definition onSnapshot_next (docs : list (nat * NotificationDoc)) (st : State) : State :=
  let '(allNotifications, unreadCount) :=
    List.fold_left
      (fun '(allNotifications, unreadCount) doc =>
         let notification := of_doc doc in
         (allNotifications ++ [notification],
          if negb (read notification) then unreadCount + 1 else unreadCount))
      docs ([], 0) in
  (* Sort by creation date (newest first) *)
  setLoading false
    (setUnreadCount (fun _ => unreadCount)
       (setNotifications (fun _ => sort_newest_first allNotifications) st)).

(** The error listener given to [onSnapshot]. *)
Definition onSnapshot_error (st : State) : State := setLoading false st.







(** The number of unread notifications among those shown. *)
Definition unread_shown (st : State) : Z :=
  Z.of_nat (length (List.filter (fun notif => negb (read notif)) (s_notifications st))).

End NotificationSystem.

(** ** Sample data for the rest of the client *)

Module Cases.

Definition vote_of (type : VoteType) : VoteDoc := {| v_type := type; v_createdAt := 1100 |}.

(** The sample store with the four vote records behind the counts of the
    printer ticket: three upvotes and one downvote, none by Ann or Bob. *)
Definition counted : Backend :=
  {| db := set_votes {[ ("t1", "cat") := vote_of upvote;
                        ("t1", "dan") := vote_of upvote;
                        ("t1", "eve") := vote_of upvote;
                        ("t1", "fay") := vote_of downvote ]} Sample.store;
     outbox := []; dispatched := [] |}.



(** The sample store without a profile for Ann, whose request is still
    pending. *)
Definition world_unregistered : Backend :=
  {| db := set_users (delete "ann" (users Sample.store)) Sample.store;
     outbox := []; dispatched := [] |}.

(** A space, a no-break space (U+00A0, two bytes in UTF-8) and a tab. *)
Definition blank : string :=
  String " " (String (ascii_of_nat 194) (String (ascii_of_nat 160)
    (String (ascii_of_nat 9) EmptyString))).

(** A server with the enable flag on and no API key. *)
Definition server_without_key : Server :=
  {| env := {| NEXT_PUBLIC_EMAIL_SERVICE_ENABLED := Some "true";
               RESEND_API_KEY := None;
               FROM_EMAIL := None |};
     resend := fun _ => ResendData "mail-1" |}.

(** A list that shows a ticket whose document is gone. *)
Definition gone_ticket : Ticket := {| id := "t2"; data := Sample.printer |}.

Definition list_view_gone : TicketList.State :=
  {| TicketList.s_tickets := [gone_ticket];
     TicketList.s_userVotes := ∅;
     TicketList.s_votingTickets := ∅ |}.

Definition detail_view_gone : TicketDetail.State :=
  {| TicketDetail.s_ticket := Some gone_ticket;
     TicketDetail.s_userVote := None;
     TicketDetail.s_voting := false |}.

(** The ticket list as it is mounted. *)
Definition list_page : TicketListPage.State :=
  {| TicketListPage.s_votes :=
       {| TicketList.s_tickets := []; TicketList.s_userVotes := ∅;
          TicketList.s_votingTickets := ∅ |};
     TicketListPage.s_loading := true;
     TicketListPage.s_lastDoc := None;
     TicketListPage.s_hasMore := true;
     TicketListPage.s_totalItems := 0;
     TicketListPage.s_currentPage := 1;
     TicketListPage.s_showMyTicketsOnly := false |}.

Definition all_reads (ticketId : string) : bool := true.

Definition no_reads (ticketId : string) : bool := false.

(** The detail view as it is mounted, and with a reply typed in. *)
Definition detail_page (typed : string) : TicketDetailPage.State :=
  {| TicketDetailPage.s_view := Sample.detail_view;
     TicketDetailPage.s_replies := [];
     TicketDetailPage.s_newReply := typed;
     TicketDetailPage.s_loading := false;
     TicketDetailPage.s_submitting := false |}.

Definition my_dashboard : SupportAgentDashboardData.State :=
  {| SupportAgentDashboardData.s_dash := Sample.dashboard;
     SupportAgentDashboardData.s_myTickets := [] |}.

(** The printer ticket once Bob has taken it. *)
Definition taken_ticket : Ticket :=
  {| id := "t1"; data := with_assignment "bob" "Bob" "in-progress" Sample.printer |}.

(** A panel that lists Ann's request while the store no longer holds it,
    and a store whose copy is already rejected. *)
Definition world_without_request : Backend :=
  {| db := set_roleUpgradeRequests ∅ Sample.store; outbox := []; dispatched := [] |}.

Definition world_rejected : Backend :=
  {| db := set_roleUpgradeRequests
             {[ "r1" := with_request_status rejected Sample.ann_request ]} Sample.store;
     outbox := []; dispatched := [] |}.




End Cases.

(** ** Shared lemmas *)

Lemma num_or_0 a : num_or a 0 = a.
Proof. unfold num_or. destruct (Z.eqb_spec a 0); congruence. Qed.

Lemma with_counts_id d : with_counts (t_upvotes d) (t_downvotes d) d = d.
Proof. by destruct d. Qed.

Lemma with_counts_twice a b a' b' d :
  with_counts a' b' (with_counts a b d) = with_counts a' b' d.
Proof. reflexivity. Qed.

Lemma find_ticket_id tid l t : find_ticket tid l = Some t → id t = tid ∧ In t l.
Proof.
  unfold find_ticket. intros H. apply find_some in H as [Hin Heq].
  split; [by apply String.eqb_eq | done].
Qed.

Lemma find_ticket_recount tid nu nd l :
  find_ticket tid (List.map (recount tid nu nd) l) =
  recount tid nu nd <$> find_ticket tid l.
Proof.
  unfold find_ticket. induction l as [|t l IH]; [done|]. simpl.
  unfold recount at 1. destruct (String.eqb (id t) tid) eqn:E; simpl.
  - rewrite E. simpl. unfold recount. by rewrite E.
  - by rewrite E.
Qed.

(** What a vote in the ticket list does when it goes through. *)
Lemma handleVote_list_run u now tid type b st ticket d :
  tid ∉ TicketList.s_votingTickets st →
  find_ticket tid (TicketList.s_tickets st) = Some ticket →
  tickets (db b) !! tid = Some d →
  exec (TicketList.handleVote (Some u) now tid type) (b, st) =
  let cur := TicketList.currentVote_of st tid in
  let '(nu, nd) :=
    counts_after cur type (t_upvotes (data ticket)) (t_downvotes (data ticket)) in
  ({| db := {| tickets := <[tid := with_counts nu nd d]> (tickets (db b));
               votes := if bool_decide (cur = Some type)
                        then delete (tid, uid u) (votes (db b))
                        else <[(tid, uid u) := {| v_type := type; v_createdAt := now |}]>
                               (votes (db b));
               users := users (db b);
               roleUpgradeRequests := roleUpgradeRequests (db b);
               notifications := notifications (db b) |};
      outbox := outbox b; dispatched := dispatched b |},
   {| TicketList.s_tickets := List.map (recount tid nu nd) (TicketList.s_tickets st);
      TicketList.s_userVotes :=
        <[tid := if bool_decide (cur = Some type) then None else Some type]>
          (TicketList.s_userVotes st);
      TicketList.s_votingTickets :=
        (TicketList.s_votingTickets st ∪ {[tid]}) ∖ {[tid]} |}).
Proof.
  intros Hv Hf Hd.
  unfold TicketList.handleVote. run_async.
  rewrite bool_decide_eq_false_2 by done.
  rewrite Hf, !num_or_0. unfold counts_after.
  destruct (bool_decide _) eqn:E.
  - unfold deleteDoc_votes, updateDoc_tickets, update_in. run_async.
    destruct type; simpl; rewrite Hd; reflexivity.
  - unfold setDoc_votes, updateDoc_tickets, update_in. run_async.
    destruct (TicketList.currentVote_of st tid) as [[]|], type;
      simpl; rewrite Hd; reflexivity.
Qed.

(** What a vote in the ticket detail view does when it goes through. *)
Lemma handleVote_detail_run u now tid type b st ticket d :
  TicketDetail.s_voting st = false →
  TicketDetail.s_ticket st = Some ticket →
  tickets (db b) !! tid = Some d →
  exec (TicketDetail.handleVote (Some u) now tid type) (b, st) =
  let cur := TicketDetail.s_userVote st in
  let '(nu, nd) :=
    counts_after cur type (t_upvotes (data ticket)) (t_downvotes (data ticket)) in
  ({| db := {| tickets := <[tid := with_counts nu nd d]> (tickets (db b));
               votes := if bool_decide (cur = Some type)
                        then delete (tid, uid u) (votes (db b))
                        else <[(tid, uid u) := {| v_type := type; v_createdAt := now |}]>
                               (votes (db b));
               users := users (db b);
               roleUpgradeRequests := roleUpgradeRequests (db b);
               notifications := notifications (db b) |};
      outbox := outbox b; dispatched := dispatched b |},
   {| TicketDetail.s_ticket :=
        Some {| id := id ticket; data := with_counts nu nd (data ticket) |};
      TicketDetail.s_userVote :=
        if bool_decide (cur = Some type) then None else Some type;
      TicketDetail.s_voting := false |}).
Proof.
  intros Hv Hf Hd.
  unfold TicketDetail.handleVote. run_async.
  rewrite Hf, Hv, !num_or_0. unfold counts_after.
  destruct (bool_decide _) eqn:E.
  - unfold deleteDoc_votes, updateDoc_tickets, update_in. run_async.
    destruct type; simpl; rewrite Hd;
      unfold TicketDetail.setVoting, TicketDetail.setTicket, TicketDetail.setUserVote;
      simpl; rewrite Hf; reflexivity.
  - unfold setDoc_votes, updateDoc_tickets, update_in. run_async.
    destruct (TicketDetail.s_userVote st) as [[]|], type;
      simpl; rewrite Hd;
      unfold TicketDetail.setVoting, TicketDetail.setTicket, TicketDetail.setUserVote;
      simpl; rewrite Hf; reflexivity.
Qed.

Lemma recount_found tid nu nd t :
  id t = tid → recount tid nu nd t = {| id := id t; data := with_counts nu nd (data t) |}.
Proof. intros <-. unfold recount. by rewrite String.eqb_refl. Qed.

Lemma ticket_eta t : {| id := id t; data := data t |} = t.
Proof. by destruct t. Qed.

Lemma voting_released (tid : string) (s : gset string) : tid ∉ (s ∪ {[tid]}) ∖ {[tid]}.
Proof. rewrite not_elem_of_difference. right. by apply elem_of_singleton. Qed.

Lemma voting_restored (tid : string) (s : gset string) :
  tid ∉ s → (s ∪ {[tid]}) ∖ {[tid]} = s.
Proof.
  intros H. apply set_eq. intros x.
  rewrite elem_of_difference, elem_of_union, elem_of_singleton.
  split; [intros [[?|?] ?]; done |].
  intros Hx. split; [by left | by intros ->].
Qed.

(** ** The component's view stays in step with the store *)

(** A vote that goes through leaves the list's copy of the ticket equal
    to the stored document, and the vote it shows equal to the stored
    vote: the hypotheses of C1 and C2 on the view hold again. *)
Lemma handleVote_list_keeps_view u now tid type b st ticket :
  tid ∉ TicketList.s_votingTickets st →
  find_ticket tid (TicketList.s_tickets st) = Some ticket →
  tickets (db b) !! tid = Some (data ticket) →
  TicketList.currentVote_of st tid = (v_type <$> votes (db b) !! (tid, uid u)) →
  let w := exec (TicketList.handleVote (Some u) now tid type) (b, st) in
  (tid ∉ TicketList.s_votingTickets (snd w)) ∧
  (∃ ticket', find_ticket tid (TicketList.s_tickets (snd w)) = Some ticket' ∧
              tickets (db (fst w)) !! tid = Some (data ticket')) ∧
  TicketList.currentVote_of (snd w) tid
    = (v_type <$> votes (db (fst w)) !! (tid, uid u)).
Proof.
  intros Hv Hf Hd Hcur w. subst w.
  destruct (find_ticket_id _ _ _ Hf) as [Hid _].
  rewrite (handleVote_list_run u now tid type b st ticket (data ticket) Hv Hf Hd).
  cbv zeta. destruct (counts_after _ _ _ _) as [nu nd]. simpl.
  split; [apply voting_released|]. split.
  - rewrite find_ticket_recount, Hf. simpl. eexists. split; [reflexivity|].
    rewrite lookup_insert_eq, (recount_found tid nu nd ticket Hid). done.
  - unfold TicketList.currentVote_of at 1. simpl. rewrite lookup_insert_eq.
    destruct (bool_decide _).
    + by rewrite lookup_delete_eq.
    + by rewrite lookup_insert_eq.
Qed.

Lemma handleVote_detail_keeps_view u now tid type b st ticket :
  TicketDetail.s_voting st = false →
  TicketDetail.s_ticket st = Some ticket →
  tickets (db b) !! tid = Some (data ticket) →
  TicketDetail.s_userVote st = (v_type <$> votes (db b) !! (tid, uid u)) →
  let w := exec (TicketDetail.handleVote (Some u) now tid type) (b, st) in
  TicketDetail.s_voting (snd w) = false ∧
  (∃ ticket', TicketDetail.s_ticket (snd w) = Some ticket' ∧
              tickets (db (fst w)) !! tid = Some (data ticket')) ∧
  TicketDetail.s_userVote (snd w) = (v_type <$> votes (db (fst w)) !! (tid, uid u)).
Proof.
  intros Hv Hf Hd Hcur w. subst w.
  rewrite (handleVote_detail_run u now tid type b st ticket (data ticket) Hv Hf Hd).
  cbv zeta. destruct (counts_after _ _ _ _) as [nu nd]. simpl.
  split; [done|]. split.
  - eexists. split; [reflexivity|]. by rewrite lookup_insert_eq.
  - destruct (bool_decide _).
    + by rewrite lookup_delete_eq.
    + by rewrite lookup_insert_eq.
Qed.

(** ** Double toggle *)


Lemma double_toggle_detail u now1 now2 tid type b st ticket :
  TicketDetail.s_voting st = false →
  TicketDetail.s_ticket st = Some ticket →
  tickets (db b) !! tid = Some (data ticket) →
  0 <= count type (data ticket) →
  votes (db b) !! (tid, uid u) = None →
  TicketDetail.s_userVote st = None →
  let w := exec (TicketDetail.handleVote (Some u) now2 tid type)
             (exec (TicketDetail.handleVote (Some u) now1 tid type) (b, st)) in
  votes (db (fst w)) !! (tid, uid u) = None ∧
  tickets (db (fst w)) !! tid = tickets (db b) !! tid ∧
  fst w = b ∧
  snd w = st.
Proof.
  intros Hv Hf Hd Hc Hn Hcur w. subst w.
  rewrite (handleVote_detail_run u now1 tid type b st ticket (data ticket) Hv Hf Hd).
  rewrite Hcur. cbv zeta.
  destruct (counts_after None type _ _) as [nu nd] eqn:E1.
  rewrite bool_decide_eq_false_2 by done.
  erewrite handleVote_detail_run; cycle 1.
  - reflexivity.
  - reflexivity.
  - simpl. apply lookup_insert_eq.
  - simpl. rewrite bool_decide_eq_true_2 by done.
    destruct (counts_after (Some type) type nu nd) as [nu' nd'] eqn:E2. simpl.
    assert (nu' = t_upvotes (data ticket) ∧ nd' = t_downvotes (data ticket)) as [-> ->].
    { unfold counts_after in E1, E2.
      rewrite bool_decide_eq_false_2 in E1 by done.
      rewrite bool_decide_eq_true_2 in E2 by done.
      destruct type; simpl in Hc; inversion E1; subst; inversion E2; subst; split; lia. }
    rewrite !with_counts_twice, !with_counts_id, insert_insert_eq, ticket_eta.
    rewrite (insert_id _ _ _ Hd), (delete_insert_id _ _ _ Hn).
    rewrite Hn, Hd.
    split; [done|]. split; [done|]. split; [by destruct b as [[]]|].
    destruct st; simpl in *; congruence.
Qed.


(** ** Switching a vote *)




(** ** Votes that do nothing *)

Lemma state_eta_list (st : TicketList.State) :
  {| TicketList.s_tickets := TicketList.s_tickets st;
     TicketList.s_userVotes := TicketList.s_userVotes st;
     TicketList.s_votingTickets := TicketList.s_votingTickets st |} = st.
Proof. by destruct st. Qed.

Lemma handleVote_list_unlisted user now tid type b st :
  find_ticket tid (TicketList.s_tickets st) = None →
  TicketList.handleVote user now tid type (b, st) = ((b, st), Returned tt).
Proof.
  intros Hf. unfold TicketList.handleVote. run_async.
  destruct user as [u|]; [|done].
  destruct (bool_decide _) eqn:E; [done|].
  apply bool_decide_eq_false in E.
  rewrite Hf. simpl. unfold TicketList.setVotingTickets. simpl.
  by rewrite (voting_restored _ _ E), state_eta_list.
Qed.

Lemma vote_noop_list user now tid type b st :
  user = None ∨ find_ticket tid (TicketList.s_tickets st) = None →
  TicketList.handleVote user now tid type (b, st) = ((b, st), Returned tt).
Proof.
  intros [-> | Hf]; [done|]. by apply handleVote_list_unlisted.
Qed.

Lemma vote_noop_detail user now tid type b st :
  user = None ∨ TicketDetail.s_ticket st = None →
  TicketDetail.handleVote user now tid type (b, st) = ((b, st), Returned tt).
Proof.
  unfold TicketDetail.handleVote. run_async.
  intros [-> | ->]; [|done]. by destruct (TicketDetail.s_ticket st).
Qed.

(** A vote on a ticket without a document changes no ticket document:
    the update of the counts is turned down. *)
Lemma vote_missing_list user now tid type b st :
  tickets (db b) !! tid = None →
  tickets (db (fst (exec (TicketList.handleVote user now tid type) (b, st))))
  = tickets (db b).
Proof.
  intros Hd. destruct user as [u|]; [|done].
  destruct (decide (tid ∈ TicketList.s_votingTickets st)) as [Hv|Hv].
  { unfold TicketList.handleVote. run_async. by rewrite bool_decide_eq_true_2. }
  destruct (find_ticket tid (TicketList.s_tickets st)) as [ticket|] eqn:Hf; cycle 1.
  { unfold exec. by rewrite handleVote_list_unlisted. }
  unfold TicketList.handleVote. run_async.
  rewrite bool_decide_eq_false_2 by done. rewrite Hf.
  destruct (bool_decide _).
  - unfold deleteDoc_votes, updateDoc_tickets, update_in. run_async.
    destruct type; simpl; rewrite Hd; done.
  - unfold setDoc_votes, updateDoc_tickets, update_in. run_async.
    destruct (TicketList.currentVote_of st tid) as [[]|], type;
      simpl; rewrite Hd; done.
Qed.

Lemma vote_missing_detail user now tid type b st :
  tickets (db b) !! tid = None →
  tickets (db (fst (exec (TicketDetail.handleVote user now tid type) (b, st))))
  = tickets (db b).
Proof.
  intros Hd.
  destruct (TicketDetail.s_ticket st) as [ticket|] eqn:Hf; cycle 1.
  { unfold TicketDetail.handleVote. run_async. by rewrite Hf. }
  destruct user as [u|]; cycle 1.
  { unfold TicketDetail.handleVote. run_async. by rewrite Hf. }
  destruct (TicketDetail.s_voting st) eqn:Hv.
  { unfold TicketDetail.handleVote. run_async. by rewrite Hf, Hv. }
  unfold TicketDetail.handleVote. run_async. rewrite Hf, Hv.
  destruct (bool_decide _).
  - unfold deleteDoc_votes, updateDoc_tickets, update_in. run_async.
    destruct type; simpl; rewrite Hd; done.
  - unfold setDoc_votes, updateDoc_tickets, update_in. run_async.
    destruct (TicketDetail.s_userVote st) as [[]|], type;
      simpl; rewrite Hd; done.
Qed.

(** C8, as amended. In either voting component, a vote by nobody signed
    in, or on a ticket the component does not hold (the list has no ticket
    of that id, the detail view has loaded none), returns leaving the
    store, the mails and the component's state exactly as they were.  A
    vote on a ticket that has no document changes no ticket document,
    hence no count, whatever the component holds; but when the component
    still holds such a ticket, the vote record is written all the
    same. *)
Theorem vote_without_user_or_ticket_is_noop :
  (∀ user now tid type b st,
     (user = None ∨ find_ticket tid (TicketList.s_tickets st) = None →
      TicketList.handleVote user now tid type (b, st) = ((b, st), Returned tt)) ∧
     (tickets (db b) !! tid = None →
      tickets (db (fst (exec (TicketList.handleVote user now tid type) (b, st))))
      = tickets (db b))) ∧
  (∀ user now tid type b st,
     (user = None ∨ TicketDetail.s_ticket st = None →
      TicketDetail.handleVote user now tid type (b, st) = ((b, st), Returned tt)) ∧
     (tickets (db b) !! tid = None →
      tickets (db (fst (exec (TicketDetail.handleVote user now tid type) (b, st))))
      = tickets (db b))).
Proof.
  split; intros user now tid type b st; split.
  - apply vote_noop_list.
  - apply vote_missing_list.
  - apply vote_noop_detail.
  - apply vote_missing_detail.
Qed.

(** ** Counts never go negative *)

Lemma counts_after_nonneg cur type up down nu nd :
  0 <= up → 0 <= down → counts_after cur type up down = (nu, nd) → 0 <= nu ∧ 0 <= nd.
Proof.
  unfold counts_after. intros Hu Hd H.
  destruct (bool_decide _), cur as [[]|], type; inversion H; subst; lia.
Qed.

(** The tickets a vote in the list touches: none, or the voted ticket in
    the store and in the list, with the counts of [counts_after]. *)
Lemma handleVote_list_tickets user now tid type b st :
  let w := exec (TicketList.handleVote user now tid type) (b, st) in
  (tickets (db (fst w)) = tickets (db b) ∧
   TicketList.s_tickets (snd w) = TicketList.s_tickets st) ∨
  (∃ ticket d cur nu nd,
     find_ticket tid (TicketList.s_tickets st) = Some ticket ∧
     counts_after cur type (t_upvotes (data ticket)) (t_downvotes (data ticket))
       = (nu, nd) ∧
     tickets (db (fst w)) = <[tid := with_counts nu nd d]> (tickets (db b)) ∧
     TicketList.s_tickets (snd w) = List.map (recount tid nu nd) (TicketList.s_tickets st)).
Proof.
  intros w. subst w.
  destruct user as [u|]; [|by left].
  destruct (decide (tid ∈ TicketList.s_votingTickets st)) as [Hv|Hv].
  { left. unfold TicketList.handleVote. run_async.
    by rewrite bool_decide_eq_true_2. }
  destruct (find_ticket tid (TicketList.s_tickets st)) as [ticket|] eqn:Hf; cycle 1.
  { left. unfold exec. by rewrite handleVote_list_unlisted. }
  destruct (tickets (db b) !! tid) as [d|] eqn:Hd.
  - right.
    rewrite (handleVote_list_run u now tid type b st ticket d Hv Hf Hd). cbv zeta.
    destruct (counts_after _ _ _ _) as [nu nd] eqn:E.
    exists ticket, d, (TicketList.currentVote_of st tid), nu, nd. done.
  - left. unfold TicketList.handleVote. run_async.
    rewrite bool_decide_eq_false_2 by done. rewrite Hf.
    destruct (bool_decide _).
    + unfold deleteDoc_votes, updateDoc_tickets, update_in. run_async.
      destruct type; simpl; rewrite Hd; done.
    + unfold setDoc_votes, updateDoc_tickets, update_in. run_async.
      destruct (TicketList.currentVote_of st tid) as [[]|], type;
        simpl; rewrite Hd; done.
Qed.

Lemma handleVote_detail_tickets user now tid type b st :
  let w := exec (TicketDetail.handleVote user now tid type) (b, st) in
  (tickets (db (fst w)) = tickets (db b) ∧
   TicketDetail.s_ticket (snd w) = TicketDetail.s_ticket st) ∨
  (∃ ticket d cur nu nd,
     TicketDetail.s_ticket st = Some ticket ∧
     counts_after cur type (t_upvotes (data ticket)) (t_downvotes (data ticket))
       = (nu, nd) ∧
     tickets (db (fst w)) = <[tid := with_counts nu nd d]> (tickets (db b)) ∧
     TicketDetail.s_ticket (snd w)
       = Some {| id := id ticket; data := with_counts nu nd (data ticket) |}).
Proof.
  intros w. subst w.
  destruct (TicketDetail.s_ticket st) as [ticket|] eqn:Hf; cycle 1.
  { left. unfold TicketDetail.handleVote. run_async. by rewrite Hf. }
  destruct user as [u|]; cycle 1.
  { left. unfold TicketDetail.handleVote. run_async. by rewrite Hf. }
  destruct (TicketDetail.s_voting st) eqn:Hv.
  { left. unfold TicketDetail.handleVote. run_async. by rewrite Hf, Hv. }
  destruct (tickets (db b) !! tid) as [d|] eqn:Hd.
  - right.
    rewrite (handleVote_detail_run u now tid type b st ticket d Hv Hf Hd). cbv zeta.
    destruct (counts_after _ _ _ _) as [nu nd] eqn:E.
    exists ticket, d, (TicketDetail.s_userVote st), nu, nd. done.
  - left. unfold TicketDetail.handleVote. run_async.
    rewrite Hf, Hv.
    destruct (bool_decide _).
    + unfold deleteDoc_votes, updateDoc_tickets, update_in. run_async.
      destruct type; simpl; rewrite Hd; done.
    + unfold setDoc_votes, updateDoc_tickets, update_in. run_async.
      destruct (TicketDetail.s_userVote st) as [[]|], type;
        simpl; rewrite Hd; done.
Qed.

Lemma vote_list_nonneg tid user now tid' type b st b' st' :
  exec (TicketList.handleVote user now tid' type) (b, st) = (b', st') →
  match tickets (db b) !! tid with Some d => nonneg_doc d | None => True end →
  nonneg_in_client tid (ListClient user st) →
  match tickets (db b') !! tid with Some d => nonneg_doc d | None => True end ∧
  nonneg_in_client tid (ListClient user st').
Proof.
  intros E Hs Hc.
  pose proof (handleVote_list_tickets user now tid' type b st) as H.
  cbv zeta in H. rewrite E in H. simpl in H, Hc |- *.
  destruct H as [[-> ->] | (ticket & d & cur & nu & nd & Hf & Hn & -> & ->)]; [done|].
  apply find_ticket_id in Hf as [Hid Hin].
  destruct (decide (tid' = tid)) as [->|Hne].
  - assert (0 <= nu ∧ 0 <= nd) as Hnn.
    { destruct (proj1 (List.Forall_forall _ _) Hc ticket Hin Hid) as [Hu Hd].
      exact (counts_after_nonneg _ _ _ _ _ _ Hu Hd Hn). }
    split; [by rewrite lookup_insert_eq|].
    apply Forall_map. eapply Forall_impl; [exact Hc|].
    intros t Ht. unfold recount. simpl. by destruct (String.eqb (id t) tid).
  - split; [by rewrite lookup_insert_ne|].
    apply Forall_map. eapply Forall_impl; [exact Hc|].
    intros t Ht. unfold recount. simpl.
    destruct (String.eqb_spec (id t) tid'); [|done]. simpl. congruence.
Qed.

Lemma vote_detail_nonneg tid user now tid' type b st b' st' :
  exec (TicketDetail.handleVote user now tid' type) (b, st) = (b', st') →
  match tickets (db b) !! tid with Some d => nonneg_doc d | None => True end →
  nonneg_in_client tid (DetailClient user tid' st) →
  match tickets (db b') !! tid with Some d => nonneg_doc d | None => True end ∧
  nonneg_in_client tid (DetailClient user tid' st').
Proof.
  intros E Hs Hc.
  pose proof (handleVote_detail_tickets user now tid' type b st) as H.
  cbv zeta in H. rewrite E in H. simpl in H, Hc |- *.
  destruct H as [[-> ->] | (ticket & d & cur & nu & nd & Hf & Hn & -> & ->)]; [done|].
  destruct (decide (tid' = tid)) as [->|Hne].
  - rewrite Hf in Hc. destruct (Hc eq_refl) as [Hu Hd].
    pose proof (counts_after_nonneg _ _ _ _ _ _ Hu Hd Hn) as Hnn.
    by rewrite lookup_insert_eq.
  - by rewrite lookup_insert_ne.
Qed.

Lemma vote_preserves_nonneg tid sys c :
  ticket_nonneg tid sys → ticket_nonneg tid (vote sys c).
Proof.
  intros [Hs Hc]. unfold vote.
  destruct (clients sys !! who c) as [[user st | user tid' st]|] eqn:Hl; [| |done].
  - destruct (exec _ _) as [b' st'] eqn:E.
    destruct (vote_list_nonneg tid _ _ _ _ _ _ _ _ E Hs) as [Hs' Hc'].
    { by eapply (Forall_lookup_1 _ _ _ _ Hc). }
    split; [done|]. by apply Forall_insert.
  - destruct (exec _ _) as [b' st'] eqn:E.
    destruct (vote_detail_nonneg tid _ _ _ _ _ _ _ _ E Hs) as [Hs' Hc'].
    { by eapply (Forall_lookup_1 _ _ _ _ Hc). }
    split; [done|]. by apply Forall_insert.
Qed.

(** C3. Over one store shared by any number of browsers, each with its
    own signed-in user (or none) and its own ticket list or ticket detail
    view: if a ticket's upvote and downvote counts are non-negative (in
    the store and in the copies the browsers show), they are still
    non-negative after every sequence of votes, of any kinds, by any of the
    browsers, on any tickets. *)
Theorem votes_keep_counts_nonneg tid calls sys :
  ticket_nonneg tid sys → ticket_nonneg tid (run calls sys).
Proof.
  unfold run. revert sys.
  induction calls as [|c calls IH]; intros sys H; simpl; [done|].
  apply IH. by apply vote_preserves_nonneg.
Qed.

(** ** E-mail *)

(** Without an API key the module throws when it is loaded: no request
    is answered by the route, and nothing is handed to the provider. *)
Lemma POST_no_key srv request sent :
  str_truthy (RESEND_API_KEY (env srv)) = false →
  POST srv request sent = (sent, Threw MissingApiKey).
Proof.
  intros Hk. unfold POST, new_Resend. rewrite Hk. reflexivity.
Qed.

(** With an API key the route answers every request. *)
Lemma POST_returns srv request sent :
  str_truthy (RESEND_API_KEY (env srv)) = true →
  ∃ sent' r, POST srv request sent = (sent', Returned r).
Proof.
  intros Hk. unfold POST, new_Resend, request_json, resend_emails_send. rewrite Hk.
  run_async.
  destruct request as [body|]; simpl; [|by eauto].
  destruct (negb (truthy (q_to body)) || negb (truthy (q_subject body))
            || negb (truthy (q_body body))); simpl; [by eauto|].
  destruct (negb (bool_decide _)); simpl; [by eauto|].
  destruct (resend srv _); simpl; by eauto.
Qed.


Section ClientLemmas.
Context {St : Type}.

(** [sendEmail] always returns, records the e-mail and touches neither
    the store nor the component. *)
Lemma sendEmail_run this srv emailData b (st : St) :
  ∃ sent r,
    sendEmail this srv emailData (b, st)
    = (({| db := db b; outbox := sent;
           dispatched := dispatched b ++ [emailData] |}, st), Returned r) ∧
    (isEnabled this = false → sent = outbox b ∧ r = true).
Proof.
  unfold sendEmail, dispatch, fetch_send_email, response_json. run_async.
  destruct (isEnabled this); simpl; [|by eauto].
  destruct (str_truthy (RESEND_API_KEY (env srv))) eqn:Hk.
  - destruct (POST_returns srv (JSON_stringify emailData) (outbox b) Hk)
      as (sent' & r & ->). simpl.
    destruct (json r); simpl; try destruct (ok r); simpl;
      eexists _, _; (split; [reflexivity|done]).
  - rewrite (POST_no_key srv _ _ Hk). simpl.
    eexists _, _; (split; [reflexivity|done]).
Qed.

Lemma sendTicketStatusUpdateNotification_run this srv data b (st : St) :
  ∃ sent r emailData,
    sendTicketStatusUpdateNotification this srv data (b, st)
    = (({| db := db b; outbox := sent;
           dispatched := dispatched b ++ [emailData] |}, st), Returned r) ∧
    e_to emailData = d_userEmail data.
Proof.
  unfold sendTicketStatusUpdateNotification.
  match goal with
  | |- context [sendEmail this srv ?e] =>
      destruct (sendEmail_run this srv e b st) as (sent & r & -> & _);
      by exists sent, r, e
  end.
Qed.

Lemma sendTicketCreatedNotification_run this srv data b (st : St) :
  ∃ sent r emailData,
    sendTicketCreatedNotification this srv data (b, st)
    = (({| db := db b; outbox := sent;
           dispatched := dispatched b ++ [emailData] |}, st), Returned r) ∧
    e_to emailData = "support@company.com".
Proof.
  unfold sendTicketCreatedNotification.
  match goal with
  | |- context [sendEmail this srv ?e] =>
      destruct (sendEmail_run this srv e b st) as (sent & r & -> & _);
      by exists sent, r, e
  end.
Qed.

End ClientLemmas.

(** ** Assignment and status *)

(** What a status update does to a ticket that exists: one write to the
    ticket, and for a listed ticket one notification to its creator and
    one e-mail with an empty recipient. *)
Lemma handleUpdateStatus_run this srv now tid newStatus b st d :
  tickets (db b) !! tid = Some d →
  ∃ b' notes mails,
    exec (SupportAgentDashboard.handleUpdateStatus this srv now tid newStatus) (b, st)
      = (b', SupportAgentDashboard.setLoading true st) ∧
    db b' = set_notifications (notifications (db b) ++ notes)
              (set_tickets (<[tid := with_status newStatus d]> (tickets (db b))) (db b)) ∧
    dispatched b' = dispatched b ++ mails ∧
    match find_ticket tid (SupportAgentDashboard.s_tickets st) with
    | Some ticket =>
        (∃ n, notes = [n] ∧ n_userId n = t_userId (data ticket)) ∧
        (∃ e, mails = [e] ∧ e_to e = EmptyString)
    | None => notes = [] ∧ mails = []
    end.
Proof.
  intros Hd. unfold SupportAgentDashboard.handleUpdateStatus,
    SupportAgentDashboard.fetchTickets, updateDoc_tickets, update_in,
    addDoc_notifications.
  run_async. rewrite Hd. simpl.
  destruct (find_ticket tid (SupportAgentDashboard.s_tickets st)) as [ticket|]; simpl.
  - match goal with
    | |- context [sendTicketStatusUpdateNotification this srv ?data ?s] =>
        destruct (sendTicketStatusUpdateNotification_run this srv data (fst s) (snd s))
          as (sent & r & e & Hrun & Hto)
    end.
    simpl in Hrun. rewrite Hrun. simpl.
    eexists _, [_], [e]. repeat split; eauto.
  - eexists _, [], []. rewrite !app_nil_r. repeat split.
Qed.

(** What an assignment does to a ticket that exists. *)
Lemma handleAssignTicket_run this srv u p now tid b st d :
  tickets (db b) !! tid = Some d →
  ∃ b' notes mails,
    exec (SupportAgentDashboard.handleAssignTicket this srv (Some u) (Some p) now tid)
         (b, st)
      = (b', SupportAgentDashboard.setLoading true st) ∧
    db b' = set_notifications (notifications (db b) ++ notes)
              (set_tickets
                 (<[tid := with_assignment (uid u) (p_name p) "in-progress" d]>
                    (tickets (db b))) (db b)) ∧
    dispatched b' = dispatched b ++ mails ∧
    match find_ticket tid (SupportAgentDashboard.s_tickets st) with
    | Some ticket =>
        (∃ n, notes = [n] ∧ n_userId n = t_userId (data ticket)) ∧
        (∃ e, mails = [e] ∧ e_to e = EmptyString)
    | None => notes = [] ∧ mails = []
    end.
Proof.
  intros Hd. unfold SupportAgentDashboard.handleAssignTicket,
    SupportAgentDashboard.fetchTickets, updateDoc_tickets, update_in,
    addDoc_notifications.
  run_async. rewrite Hd. simpl.
  destruct (find_ticket tid (SupportAgentDashboard.s_tickets st)) as [ticket|]; simpl.
  - match goal with
    | |- context [sendTicketStatusUpdateNotification this srv ?data ?s] =>
        destruct (sendTicketStatusUpdateNotification_run this srv data (fst s) (snd s))
          as (sent & r & e & Hrun & Hto)
    end.
    simpl in Hrun. rewrite Hrun. simpl.
    eexists _, [_], [e]. repeat split; eauto.
  - eexists _, [], []. rewrite !app_nil_r. repeat split.
Qed.

(** C5. For a ticket that exists, assign-to-self by agent [u] with profile
    [p] sets the assignee to [u] (id and display name) and the status to
    in-progress; a later update-status to resolved, whatever the dashboard
    lists by then, changes the status and no other field of the ticket,
    so the assignee is still [u] and the counts and creator fields are
    as they were; no other ticket changes. *)
Theorem assign_then_resolve this srv u p now1 now2 tid b st st' d :
  tickets (db b) !! tid = Some d →
  let w1 := exec (SupportAgentDashboard.handleAssignTicket this srv (Some u) (Some p)
                    now1 tid) (b, st) in
  let w2 := exec (SupportAgentDashboard.handleUpdateStatus this srv now2 tid "resolved")
                 (fst w1, st') in
  ∃ d1 d2,
    tickets (db (fst w1)) !! tid = Some d1 ∧
    t_assignedTo d1 = Some (uid u) ∧
    t_assignedToName d1 = Some (p_name p) ∧
    t_status d1 = "in-progress" ∧
    tickets (db (fst w2)) !! tid = Some d2 ∧
    t_status d2 = "resolved" ∧
    t_assignedTo d2 = Some (uid u) ∧
    t_assignedToName d2 = Some (p_name p) ∧
    same_but_status d1 d2 ∧
    ∀ tid', tid' ≠ tid →
      tickets (db (fst w2)) !! tid' = tickets (db (fst w1)) !! tid'.
Proof.
  intros Hd w1 w2. subst w1 w2.
  destruct (handleAssignTicket_run this srv u p now1 tid b st d Hd)
    as (b1 & notes1 & mails1 & -> & Hdb1 & _).
  simpl fst.
  assert (tickets (db b1) !! tid
          = Some (with_assignment (uid u) (p_name p) "in-progress" d)) as Hd1.
  { rewrite Hdb1. simpl. apply lookup_insert_eq. }
  destruct (handleUpdateStatus_run this srv now2 tid "resolved" b1 st' _ Hd1)
    as (b2 & notes2 & mails2 & -> & Hdb2 & _).
  simpl fst. rewrite Hdb2. simpl.
  eexists _, _. rewrite Hd1, lookup_insert_eq.
  split; [reflexivity|]. do 3 (split; [reflexivity|]).
  split; [reflexivity|]. do 3 (split; [reflexivity|]).
  split; [by repeat split|].
  intros tid' Hne. by rewrite lookup_insert_ne.
Qed.

(** ** Role upgrade requests *)

Lemma handleRoleRequest_approve requestId b st request profile :
  List.find (fun r => String.eqb (AdminPanel.rid r) requestId)
            (AdminPanel.s_roleRequests st) = Some request →
  roleUpgradeRequests (db b) !! requestId = Some (AdminPanel.rdata request) →
  users (db b) !! r_userId (AdminPanel.rdata request) = Some profile →
  db (fst (exec (AdminPanel.handleRoleRequest requestId AdminPanel.approve) (b, st)))
  = set_roleUpgradeRequests
      (<[requestId := with_request_status approved (AdminPanel.rdata request)]>
         (roleUpgradeRequests (db b)))
      (set_users
         (<[r_userId (AdminPanel.rdata request) :=
              with_role (r_requestedRole (AdminPanel.rdata request)) profile]>
            (users (db b)))
         (db b)).
Proof.
  intros Hf Hr Hu. unfold AdminPanel.handleRoleRequest, AdminPanel.fetchData,
    updateDoc_users, updateDoc_roleUpgradeRequests, update_in.
  run_async. rewrite Hf. simpl. rewrite Hu. simpl. rewrite Hr. simpl. done.
Qed.

Lemma handleRoleRequest_reject requestId b st request :
  List.find (fun r => String.eqb (AdminPanel.rid r) requestId)
            (AdminPanel.s_roleRequests st) = Some request →
  roleUpgradeRequests (db b) !! requestId = Some (AdminPanel.rdata request) →
  db (fst (exec (AdminPanel.handleRoleRequest requestId AdminPanel.reject) (b, st)))
  = set_roleUpgradeRequests
      (<[requestId := with_request_status rejected (AdminPanel.rdata request)]>
         (roleUpgradeRequests (db b)))
      (db b).
Proof.
  intros Hf Hr. unfold AdminPanel.handleRoleRequest, AdminPanel.fetchData,
    updateDoc_users, updateDoc_roleUpgradeRequests, update_in.
  run_async. rewrite Hf. simpl. rewrite Hr. simpl. done.
Qed.

(** C6, as amended. For a pending role upgrade request that the admin
    panel lists as the store holds it, and whose target has a profile
    document: approving sets the request's status to approved and the
    target profile's role to the requested role; rejecting sets the status
    to rejected and leaves every profile, so the target's role,
    unchanged. *)
Theorem role_request_resolution requestId b st request profile :
  List.find (fun r => String.eqb (AdminPanel.rid r) requestId)
            (AdminPanel.s_roleRequests st) = Some request →
  roleUpgradeRequests (db b) !! requestId = Some (AdminPanel.rdata request) →
  r_status (AdminPanel.rdata request) = pending →
  users (db b) !! r_userId (AdminPanel.rdata request) = Some profile →
  let target := r_userId (AdminPanel.rdata request) in
  let wa := exec (AdminPanel.handleRoleRequest requestId AdminPanel.approve) (b, st) in
  let wr := exec (AdminPanel.handleRoleRequest requestId AdminPanel.reject) (b, st) in
  (r_status <$> roleUpgradeRequests (db (fst wa)) !! requestId = Some approved ∧
   u_role <$> users (db (fst wa)) !! target
     = Some (Some (r_requestedRole (AdminPanel.rdata request)))) ∧
  (r_status <$> roleUpgradeRequests (db (fst wr)) !! requestId = Some rejected ∧
   users (db (fst wr)) = users (db b) ∧
   u_role <$> users (db (fst wr)) !! target = Some (u_role profile)).
Proof.
  intros Hf Hr _ Hu target wa wr. subst target wa wr.
  rewrite (handleRoleRequest_approve _ _ _ _ _ Hf Hr Hu).
  rewrite (handleRoleRequest_reject _ _ _ _ Hf Hr). simpl.
  rewrite !lookup_insert_eq, Hu. done.
Qed.

(** ** Ticket creation *)

(** Every character counts for one or two in [length], so only the empty
    string has length 0. *)
Lemma js_length_pos s : s ≠ EmptyString → (1 <= js_length s)%nat.
Proof.
  destruct s as [|a r1]; [done|]. intros _. unfold js_length. cbn [chars].
  repeat case_match; cbn [List.map fst];
    match goal with
    | |- (1 <= list_sum (?x :: ?l))%nat => change (1 <= x + list_sum l)%nat
    end;
    unfold units; case_match; lia.
Qed.

Lemma questionSchema_rejects values :
  (js_length (AskQuestionForm.f_title values) < 5)%nat ∨
  (js_length (AskQuestionForm.f_description values) < 10)%nat ∨
  AskQuestionForm.f_category values = EmptyString →
  ∃ errors, AskQuestionForm.questionSchema values = inl errors ∧
            errors ≠ AskQuestionForm.no_errors.
Proof.
  intros H. unfold AskQuestionForm.questionSchema, AskQuestionForm.min_length.
  cbn [AskQuestionForm.err_title AskQuestionForm.err_description
       AskQuestionForm.err_category].
  destruct H as [H | [H | H]].
  - apply Nat.ltb_lt in H. rewrite H. by eexists.
  - apply Nat.ltb_lt in H. rewrite H.
    destruct (Nat.ltb _ 5); by eexists.
  - rewrite H. change (Nat.ltb (js_length EmptyString) 1) with true.
    destruct (Nat.ltb (js_length (AskQuestionForm.f_title values)) 5),
      (Nat.ltb (js_length (AskQuestionForm.f_description values)) 10); by eexists.
Qed.

Lemma questionSchema_accepts values :
  (5 <= js_length (AskQuestionForm.f_title values))%nat →
  (10 <= js_length (AskQuestionForm.f_description values))%nat →
  AskQuestionForm.f_category values ≠ EmptyString →
  AskQuestionForm.questionSchema values = inr values.
Proof.
  intros Ht Hd Hc. unfold AskQuestionForm.questionSchema, AskQuestionForm.min_length.
  cbn [AskQuestionForm.err_title AskQuestionForm.err_description
       AskQuestionForm.err_category].
  rewrite (proj2 (Nat.ltb_ge _ 5) Ht), (proj2 (Nat.ltb_ge _ 10) Hd).
  by rewrite (proj2 (Nat.ltb_ge _ 1) (js_length_pos _ Hc)).
Qed.

Lemma addDoc_notifications_all_run l b st :
  ∃ b', AskQuestionForm.addDoc_notifications_all l (b, st) = ((b', st), Returned tt) ∧
        tickets (db b') = tickets (db b).
Proof.
  revert b. induction l as [|n l IH]; intros b; simpl; [by eexists|].
  unfold addDoc_notifications. run_async.
  destruct (IH (with_db
    (fun fs => set_notifications (notifications fs ++ [n]) fs) b)) as (b' & -> & Ht).
  by eexists.
Qed.

(** A submission by a signed-in user writes the ticket and then touches
    no ticket. *)
Lemma onSubmit_run this srv u profile now newId data b st :
  ∃ d,
    tickets (db (fst (exec (AskQuestionForm.onSubmit this srv (Some u) profile now
                              newId data) (b, st))))
      = <[newId := d]> (tickets (db b)) ∧
    t_title d = AskQuestionForm.f_title data ∧
    t_description d = AskQuestionForm.f_description data ∧
    t_category d = AskQuestionForm.f_category data ∧
    t_userId d = uid u ∧
    t_status d = "open" ∧ t_replyCount d = 0 ∧ t_upvotes d = 0 ∧ t_downvotes d = 0.
Proof.
  unfold AskQuestionForm.onSubmit, addDoc_tickets, AskQuestionForm.getDocs_users_role_in.
  run_async.
  match goal with
  | |- context [sendTicketCreatedNotification this srv ?data ?s] =>
      destruct (sendTicketCreatedNotification_run this srv data (fst s) (snd s))
        as (sent & r & e & Hrun & Hto)
  end.
  simpl in Hrun. rewrite Hrun. simpl.
  match goal with
  | |- context [AskQuestionForm.addDoc_notifications_all ?l (?b', ?st')] =>
      destruct (addDoc_notifications_all_run l b' st') as (b'' & -> & Ht)
  end.
  simpl. eexists. split; [exact Ht|]. repeat split.
Qed.

(** C7. Submitting the ask-question form with a title shorter than 5
    characters, a description shorter than 10 characters or an empty
    category reports a field error and leaves the store and the mails
    untouched; submitted by a signed-in user with a title of at least 5
    characters, a description of at least 10 and a non-empty category, it
    stores the ticket under the generated id with status open and zero
    upvotes, downvotes and replies.  The characters are counted as the
    schema counts them, by the [length] of the JavaScript string. *)
Theorem ticket_creation_validates_then_persists :
  (∀ this srv user profile now newId b st,
     (js_length (AskQuestionForm.f_title (AskQuestionForm.s_values st)) < 5)%nat ∨
     (js_length (AskQuestionForm.f_description (AskQuestionForm.s_values st)) < 10)%nat ∨
     AskQuestionForm.f_category (AskQuestionForm.s_values st) = EmptyString →
     let w := exec (AskQuestionForm.handleSubmit this srv user profile now newId)
                (b, st) in
     fst w = b ∧
     AskQuestionForm.s_errors (snd w) ≠ AskQuestionForm.no_errors) ∧
  (∀ this srv u profile now newId b st,
     (5 <= js_length (AskQuestionForm.f_title (AskQuestionForm.s_values st)))%nat →
     (10 <= js_length
              (AskQuestionForm.f_description (AskQuestionForm.s_values st)))%nat →
     AskQuestionForm.f_category (AskQuestionForm.s_values st) ≠ EmptyString →
     let w := exec (AskQuestionForm.handleSubmit this srv (Some u) profile now newId)
                (b, st) in
     ∃ d, tickets (db (fst w)) !! newId = Some d ∧
          t_title d = AskQuestionForm.f_title (AskQuestionForm.s_values st) ∧
          t_description d = AskQuestionForm.f_description (AskQuestionForm.s_values st) ∧
          t_category d = AskQuestionForm.f_category (AskQuestionForm.s_values st) ∧
          t_userId d = uid u ∧
          t_status d = "open" ∧ t_upvotes d = 0 ∧ t_downvotes d = 0 ∧
          t_replyCount d = 0).
Proof.
  split.
  - intros this srv user profile now newId b st H w. subst w.
    destruct (questionSchema_rejects _ H) as (errors & Hq & Hne).
    unfold AskQuestionForm.handleSubmit. run_async. rewrite Hq. simpl. done.
  - intros this srv u profile now newId b st Ht Hd Hc w. subst w.
    pose proof (questionSchema_accepts _ Ht Hd Hc) as Hq.
    destruct (onSubmit_run this srv u profile now newId (AskQuestionForm.s_values st) b
                (AskQuestionForm.setErrors AskQuestionForm.no_errors st))
      as (d & Hrun & H1 & H2 & H3 & H4 & H5 & H6 & H7 & H8).
    exists d. split; [|done].
    unfold AskQuestionForm.handleSubmit. unfold exec at 1. unfold bind at 1.
    unfold render at 1. rewrite Hq. unfold bind at 1. unfold setState at 1.
    unfold modify at 1. unfold exec in Hrun. rewrite Hrun. apply lookup_insert_eq.
Qed.

(** ** The disabled e-mail service *)

Lemma POST_off_complete srv body sent :
  str_truthy (RESEND_API_KEY (env srv)) = true →
  flag_off (env srv) →
  truthy (q_to body) = true → truthy (q_subject body) = true →
  truthy (q_body body) = true →
  POST srv (Some body) sent
  = (sent, Returned {| json := SuccessJson
                                 "Email service disabled - would send in production" None;
                        status := 200 |}).
Proof.
  intros Hk Hoff H1 H2 H3. unfold POST, new_Resend, request_json. rewrite Hk. run_async.
  rewrite H1, H2, H3. simpl. by rewrite bool_decide_eq_false_2.
Qed.

Lemma POST_incomplete srv body sent :
  str_truthy (RESEND_API_KEY (env srv)) = true →
  truthy (q_to body) = false ∨ truthy (q_subject body) = false ∨
  truthy (q_body body) = false →
  POST srv (Some body) sent
  = (sent, Returned {| json := ErrorJson "Missing required fields: to, subject, body";
                        status := 400 |}).
Proof.
  intros Hk H. unfold POST, new_Resend, request_json. rewrite Hk. run_async.
  destruct H as [-> | [-> | ->]]; simpl; [done| |].
  - by destruct (truthy (q_to body)).
  - by destruct (truthy (q_to body)), (truthy (q_subject body)).
Qed.

Lemma POST_unreadable srv sent :
  str_truthy (RESEND_API_KEY (env srv)) = true →
  POST srv None sent
  = (sent, Returned {| json := ErrorJson "Failed to send email"; status := 500 |}).
Proof.
  intros Hk. unfold POST, new_Resend, request_json. rewrite Hk. reflexivity.
Qed.


(** ** Loading the profile *)

(** C10. For a signed-in user, [loadProfile] always leaves a profile, and
    its role is end-user whenever the read fails, the user document is
    absent, or the document has no role. *)
Theorem profile_role_defaults_to_end_user online u b st :
  let w := exec (useUserProfile.loadProfile online (Some u)) (b, st) in
  ∃ p, useUserProfile.s_profile (snd w) = Some p ∧
       (online = false ∨
        users (db b) !! uid u = None ∨
        (∃ d, users (db b) !! uid u = Some d ∧ u_role d = None) →
        p_role p = "end-user").
Proof.
  intros w. subst w.
  unfold useUserProfile.loadProfile, useUserProfile.getDoc_users. run_async.
  destruct online; simpl.
  - destruct (users (db b) !! uid u) as [d|] eqn:Hd; simpl.
    + eexists. split; [reflexivity|]. simpl.
      intros [? | [? | (d' & [= <-] & Hr)]]; [done..|]. by rewrite Hr.
    + eexists. split; [reflexivity|]. done.
  - eexists. split; [reflexivity|]. done.
Qed.

(** ** Notification e-mails *)

(** C4, at a failing input. Ann created the printer ticket and her profile
    has the address ann@example.com. With the e-mail service switched on,
    the e-mail of a status change and the e-mail of an assignment are both
    addressed to the empty string, and the route hands neither to the mail
    provider; the e-mail of a ticket creation is addressed to
    support@company.com. *)
Theorem status_and_assignment_mails_lack_recipient :
  let this := new_EmailService Sample.env_on in
  let changed :=
    exec (SupportAgentDashboard.handleUpdateStatus this Sample.server_on 3000
            "t1" "resolved") (Sample.world, Sample.dashboard) in
  let assigned :=
    exec (SupportAgentDashboard.handleAssignTicket this Sample.server_on
            (Some Sample.bob) (Some Sample.bob_profile) 3000 "t1")
         (Sample.world, Sample.dashboard) in
  let created :=
    exec (AskQuestionForm.handleSubmit this Sample.server_on (Some Sample.ann) None
            3000 "t2")
         (Sample.world, Sample.form "VPN down" "Cannot connect to the VPN" "technical") in
  t_userId <$> tickets (db Sample.world) !! "t1" = Some "ann" ∧
  u_email <$> users (db Sample.world) !! "ann" = Some (Some "ann@example.com") ∧
  e_to <$> dispatched (fst changed) = [EmptyString] ∧
  outbox (fst changed) = [] ∧
  e_to <$> dispatched (fst assigned) = [EmptyString] ∧
  outbox (fst assigned) = [] ∧
  e_to <$> dispatched (fst created) = ["support@company.com"] ∧
  m_to <$> outbox (fst created) = [[JsString "support@company.com"]].
Proof. vm_compute. repeat split. Qed.


(** ** Where the statements above need their conditions *)



(** C6, as stated, fails. Ann's request is pending and listed, but she has
    no profile: approving it changes nothing, and the request is still
    pending. *)
Lemma approval_without_profile_stays_pending :
  r_status <$> roleUpgradeRequests (db Cases.world_unregistered) !! "r1" = Some pending ∧
  r_userId <$> roleUpgradeRequests (db Cases.world_unregistered) !! "r1" = Some "ann" ∧
  users (db Cases.world_unregistered) !! "ann" = None ∧
  exec (AdminPanel.handleRoleRequest "r1" AdminPanel.approve)
    (Cases.world_unregistered, Sample.panel)
  = (Cases.world_unregistered, Sample.panel) ∧
  r_status <$>
    roleUpgradeRequests
      (db (fst (exec (AdminPanel.handleRoleRequest "r1" AdminPanel.approve)
                  (Cases.world_unregistered, Sample.panel))))
      !! "r1" = Some pending.
Proof. repeat split; vm_compute; reflexivity. Qed.

(** C8, as stated, fails. The ticket t2 has no document, but Bob's list and
    his detail view still hold it: his upvote creates a vote record. *)
Lemma vote_on_missing_document_writes_record :
  tickets (db Sample.world) !! "t2" = None ∧
  votes (db Sample.world) !! ("t2", "bob") = None ∧
  votes (db (fst (exec (TicketList.handleVote (Some Sample.bob) 2000 "t2" upvote)
                    (Sample.world, Cases.list_view_gone))))
    !! ("t2", "bob") = Some {| v_type := upvote; v_createdAt := 2000 |} ∧
  votes (db (fst (exec (TicketDetail.handleVote (Some Sample.bob) 2000 "t2" upvote)
                    (Sample.world, Cases.detail_view_gone))))
    !! ("t2", "bob") = Some {| v_type := upvote; v_createdAt := 2000 |}.
Proof. vm_compute. repeat split. Qed.

(** ** Instances *)



Lemma votes_keep_counts_nonneg_witness :
  ticket_nonneg "t1" Sample.system ∧
  ticket_nonneg "t1" (run Sample.clicks Sample.system).
Proof.
  assert (ticket_nonneg "t1" Sample.system) as H.
  { split.
    - vm_compute. split; discriminate.
    - repeat constructor; simpl; intros; vm_compute; discriminate. }
  split; [exact H|].
  apply (votes_keep_counts_nonneg "t1" Sample.clicks Sample.system H).
Defined.

Lemma vote_without_user_or_ticket_is_noop_witness :
  TicketList.handleVote None 2000 "t1" upvote (Sample.world, Sample.list_view)
    = ((Sample.world, Sample.list_view), Returned tt) ∧
  TicketList.handleVote (Some Sample.bob) 2000 "t9" upvote (Sample.world, Sample.list_view)
    = ((Sample.world, Sample.list_view), Returned tt) ∧
  tickets (db (fst (exec (TicketList.handleVote (Some Sample.bob) 2000 "t2" upvote)
                         (Sample.world, Cases.list_view_gone))))
    = tickets (db Sample.world) ∧
  TicketDetail.handleVote None 2000 "t1" upvote (Sample.world, Sample.detail_view)
    = ((Sample.world, Sample.detail_view), Returned tt) ∧
  TicketDetail.handleVote (Some Sample.bob) 2000 "t9" upvote
      (Sample.world, Sample.detail_view_missing)
    = ((Sample.world, Sample.detail_view_missing), Returned tt) ∧
  tickets (db (fst (exec (TicketDetail.handleVote (Some Sample.bob) 2000 "t2" upvote)
                         (Sample.world, Cases.detail_view_gone))))
    = tickets (db Sample.world).
Proof.
  split; [|split; [|split; [|split; [|split]]]].
  - apply (proj1 (proj1 vote_without_user_or_ticket_is_noop _ _ _ _ _ _)). by left.
  - apply (proj1 (proj1 vote_without_user_or_ticket_is_noop _ _ _ _ _ _)). by right.
  - apply (proj2 (proj1 vote_without_user_or_ticket_is_noop _ _ _ _ _ _)). reflexivity.
  - apply (proj1 (proj2 vote_without_user_or_ticket_is_noop _ _ _ _ _ _)). by left.
  - apply (proj1 (proj2 vote_without_user_or_ticket_is_noop _ _ _ _ _ _)). by right.
  - apply (proj2 (proj2 vote_without_user_or_ticket_is_noop _ _ _ _ _ _)). reflexivity.
Defined.

Lemma assign_then_resolve_witness :
  tickets (db Sample.world) !! "t1" = Some Sample.printer ∧
  let this := new_EmailService Sample.env_on in
  let w1 := exec (SupportAgentDashboard.handleAssignTicket this Sample.server_on
                    (Some Sample.bob) (Some Sample.bob_profile) 3000 "t1")
                 (Sample.world, Sample.dashboard) in
  let w2 := exec (SupportAgentDashboard.handleUpdateStatus this Sample.server_on 3001
                    "t1" "resolved") (fst w1, Sample.dashboard) in
  ∃ d1 d2,
    tickets (db (fst w1)) !! "t1" = Some d1 ∧
    t_assignedTo d1 = Some "bob" ∧
    t_assignedToName d1 = Some "Bob" ∧
    t_status d1 = "in-progress" ∧
    tickets (db (fst w2)) !! "t1" = Some d2 ∧
    t_status d2 = "resolved" ∧
    t_assignedTo d2 = Some "bob" ∧
    t_assignedToName d2 = Some "Bob" ∧
    same_but_status d1 d2 ∧
    ∀ tid', tid' ≠ "t1" →
      tickets (db (fst w2)) !! tid' = tickets (db (fst w1)) !! tid'.
Proof.
  split; [reflexivity|].
  apply (assign_then_resolve (new_EmailService Sample.env_on) Sample.server_on
           Sample.bob Sample.bob_profile 3000 3001 "t1" Sample.world
           Sample.dashboard Sample.dashboard Sample.printer).
  reflexivity.
Defined.

Lemma role_request_resolution_witness :
  let wa := exec (AdminPanel.handleRoleRequest "r1" AdminPanel.approve)
              (Sample.world, Sample.panel) in
  let wr := exec (AdminPanel.handleRoleRequest "r1" AdminPanel.reject)
              (Sample.world, Sample.panel) in
  (r_status <$> roleUpgradeRequests (db (fst wa)) !! "r1" = Some approved ∧
   u_role <$> users (db (fst wa)) !! "ann" = Some (Some "support-agent")) ∧
  (r_status <$> roleUpgradeRequests (db (fst wr)) !! "r1" = Some rejected ∧
   users (db (fst wr)) = users (db Sample.world) ∧
   u_role <$> users (db (fst wr)) !! "ann" = Some None).
Proof.
  apply (role_request_resolution "r1" Sample.world Sample.panel
           {| AdminPanel.rid := "r1"; AdminPanel.rdata := Sample.ann_request |}
           {| u_name := Some "Ann"; u_email := Some "ann@example.com";
              u_role := None; u_categoryInterest := None; u_language := None |});
    reflexivity.
Defined.

Lemma ticket_creation_validates_then_persists_witness :
  (let this := new_EmailService Sample.env_on in
   let w := exec (AskQuestionForm.handleSubmit this Sample.server_on (Some Sample.ann)
                    None 3000 "t2")
              (Sample.world, Sample.form "äöü!" "Cannot connect to the VPN" "technical") in
   fst w = Sample.world ∧
   AskQuestionForm.s_errors (snd w) ≠ AskQuestionForm.no_errors) ∧
  (let this := new_EmailService Sample.env_on in
   let w := exec (AskQuestionForm.handleSubmit this Sample.server_on (Some Sample.ann)
                    None 3000 "t2")
              (Sample.world, Sample.form "VPN 1" "VPN breaks" "technical") in
   ∃ d, tickets (db (fst w)) !! "t2" = Some d ∧
        t_title d = "VPN 1" ∧
        t_description d = "VPN breaks" ∧
        t_category d = "technical" ∧
        t_userId d = "ann" ∧
        t_status d = "open" ∧ t_upvotes d = 0 ∧ t_downvotes d = 0 ∧
        t_replyCount d = 0).
Proof.
  split.
  - apply (proj1 ticket_creation_validates_then_persists
             (new_EmailService Sample.env_on) Sample.server_on (Some Sample.ann) None
             3000 "t2" Sample.world
             (Sample.form "äöü!" "Cannot connect to the VPN" "technical")).
    left. vm_compute. lia.
  - apply (proj2 ticket_creation_validates_then_persists
             (new_EmailService Sample.env_on) Sample.server_on Sample.ann None
             3000 "t2" Sample.world
             (Sample.form "VPN 1" "VPN breaks" "technical")).
    + vm_compute. lia.
    + vm_compute. lia.
    + discriminate.
Defined.


Lemma profile_role_defaults_to_end_user_witness :
  ∃ p, useUserProfile.s_profile
         (snd (exec (useUserProfile.loadProfile true (Some Sample.ann))
                    (Sample.world, Sample.profile_view))) = Some p ∧
       p_role p = "end-user".
Proof.
  destruct (profile_role_defaults_to_end_user true Sample.ann Sample.world
              Sample.profile_view) as (p & Hp & Hrole).
  exists p. split; [exact Hp|].
  apply Hrole. right. right. eexists. split; reflexivity.
Defined.

(** * Properties of the rest of the client *)

(** ** Pagination *)

Lemma numbers_pages l : Pagination.numbers (Pagination.Page <$> l) = l.
Proof.
  unfold Pagination.numbers. induction l as [|x l IH]; [done|].
  csimpl. by rewrite IH.
Qed.

Lemma numbers_app l1 l2 :
  Pagination.numbers (l1 ++ l2) = Pagination.numbers l1 ++ Pagination.numbers l2.
Proof. apply omap_app. Qed.

Lemma filter_all {A} (P : A → Prop) `{∀ x, Decision (P x)} (l : list A) :
  Forall P l → filter P l = l.
Proof.
  induction 1 as [|x l Hx _ IH]; [done|]. by rewrite filter_cons_True, IH.
Qed.

Lemma filter_none {A} (P : A → Prop) `{∀ x, Decision (P x)} (l : list A) :
  Forall (fun x => ¬ P x) l → filter P l = [].
Proof.
  induction 1 as [|x l Hx _ IH]; [done|]. by rewrite filter_cons_False, IH.
Qed.

(** The numbers of the page list, as a selection from 1..t. *)
Lemma getPageNumbers_numbers c t :
  1 <= c <= t →
  Pagination.numbers (Pagination.getPageNumbers c t)
  = filter (fun n => t <= 5 ∨ n = 1 ∨ n = t ∨ c - 2 <= n <= c + 2) (seqZ 1 t).
Proof.
  intros Hc. unfold Pagination.getPageNumbers, Pagination.push_range.
  destruct (Z.leb_spec t 5) as [Ht|Ht].
  { rewrite numbers_pages. replace (t - 1 + 1) with t by lia.
    symmetry. apply filter_all. apply Forall_seqZ. auto. }
  set (start := Z.max 1 (c - 2)). set (end_ := Z.min t (c + 2)).
  assert (seqZ 1 t = seqZ 1 (start - 1) ++ seqZ start (end_ - start + 1)
                     ++ seqZ (end_ + 1) (t - end_)) as ->.
  { rewrite <- (Z.add_simpl_r t (start - 1)) at 1.
    replace (t + (start - 1) - (start - 1))
      with ((start - 1) + ((end_ - start + 1) + (t - end_))) by lia.
    rewrite seqZ_app by lia. rewrite seqZ_app by lia.
    do 2 f_equal; f_equal; lia. }
  rewrite !filter_app, !numbers_app, numbers_pages.
  f_equal; [|f_equal].
  - destruct (Z.ltb_spec 1 start) as [Hs|Hs].
    + rewrite (seqZ_cons 1) by lia. rewrite filter_cons_True by auto.
      rewrite filter_none.
      * by destruct (Z.ltb 2 start).
      * apply Forall_seqZ. intros n Hn. lia.
    + rewrite seqZ_nil by lia. done.
  - symmetry. apply filter_all. apply Forall_seqZ. intros n Hn. lia.
  - destruct (Z.ltb_spec end_ t) as [He|He].
    + replace (t - end_) with ((t - end_ - 1) + 1) by lia.
      rewrite seqZ_app by lia. rewrite filter_app.
      rewrite filter_none.
      * rewrite (seqZ_cons _ 1) by lia. rewrite seqZ_nil by lia.
        replace (end_ + 1 + (t - end_ - 1)) with t by lia.
        rewrite filter_cons_True by auto. rewrite filter_nil.
        rewrite numbers_app. by destruct (Z.ltb end_ (t - 1)).
      * apply Forall_seqZ. intros n Hn. lia.
    + rewrite seqZ_nil by lia. done.
Qed.

Lemma elem_of_numbers n l : n ∈ Pagination.numbers l ↔ Pagination.Page n ∈ l.
Proof.
  unfold Pagination.numbers. rewrite list_elem_of_omap. split.
  - intros ([m|] & Hin & Heq); [|done]. by injection Heq as ->.
  - intros Hin. by exists (Pagination.Page n).
Qed.

Lemma StronglySorted_seqZ m n : StronglySorted Z.lt (seqZ m n).
Proof.
  destruct (Z.le_gt_cases n 0) as [Hn|Hn].
  { rewrite seqZ_nil by done. constructor. }
  rewrite <- (Z2Nat.id n) by lia. generalize (Z.to_nat n) as k. clear.
  intros k. revert m. induction k as [|k IH]; intros m.
  - rewrite seqZ_nil by done. constructor.
  - rewrite seqZ_cons by lia. constructor.
    + replace (Z.pred (Z.of_nat (S k))) with (Z.of_nat k) by lia. apply IH.
    + apply Forall_seqZ. lia.
Qed.

Lemma StronglySorted_filter_keep {A} (R : A → A → Prop) (P : A → Prop)
    `{∀ x, Decision (P x)} (l : list A) :
  StronglySorted R l → StronglySorted R (filter P l).
Proof.
  induction 1 as [|x l Hs IH Hx]; [constructor|].
  rewrite filter_cons. destruct (decide (P x)); [|done].
  constructor; [done|].
  rewrite Forall_forall in Hx |- *. intros y Hy.
  apply list_elem_of_filter in Hy as [_ Hy]. auto.
Qed.

(** For a current page between 1 and the number of pages, a page is
    listed exactly when it is one of the pages 1..t and is the first, the
    last or within two of the current page (every page when there are at
    most five); the listed numbers are strictly increasing, so no page is
    listed twice. *)
Lemma page_numbers_listed c t :
  1 <= c <= t →
  (∀ n, Pagination.Page n ∈ Pagination.getPageNumbers c t ↔
        1 <= n <= t ∧ (t <= 5 ∨ n = 1 ∨ n = t ∨ c - 2 <= n <= c + 2)) ∧
  StronglySorted Z.lt (Pagination.numbers (Pagination.getPageNumbers c t)).
Proof.
  intros Hc. split.
  - intros n. rewrite <- elem_of_numbers, (getPageNumbers_numbers c t Hc).
    rewrite list_elem_of_filter, elem_of_seqZ. split; intros [? ?]; split; auto; lia.
  - rewrite (getPageNumbers_numbers c t Hc).
    apply StronglySorted_filter_keep, StronglySorted_seqZ.
Qed.

Lemma Dots_not_page (l : list Z) : Pagination.Dots ∉ Pagination.Page <$> l.
Proof. rewrite list_elem_of_fmap. by intros (? & ? & ?). Qed.

Lemma Dots_in_getPageNumbers c t :
  5 < t →
  (Pagination.Dots ∈ Pagination.getPageNumbers c t ↔
   2 < Z.max 1 (c - 2) ∨ Z.min t (c + 2) < t - 1).
Proof.
  intros Ht. unfold Pagination.getPageNumbers, Pagination.push_range.
  rewrite (proj2 (Z.leb_gt t 5) Ht). cbv zeta.
  pose proof (Dots_not_page (seqZ (Z.max 1 (c - 2))
                (Z.min t (c + 2) - Z.max 1 (c - 2) + 1))) as Hmid.
  rewrite !elem_of_app.
  destruct (Z.ltb_spec 1 (Z.max 1 (c - 2))) as [H1|H1];
    destruct (Z.ltb_spec 2 (Z.max 1 (c - 2))) as [H2|H2];
    destruct (Z.ltb_spec (Z.min t (c + 2)) t) as [H3|H3];
    destruct (Z.ltb_spec (Z.min t (c + 2)) (t - 1)) as [H4|H4];
    simpl; rewrite ?elem_of_cons, ?elem_of_nil; split;
    try (intros _; (by left; right; left) || (by right; right; left)
                   || (by left; left) || (left; lia) || (right; lia));
    try (intros [H|H]; lia).
  all: intros H; exfalso; revert H Hmid; clear; intuition congruence.
Qed.

(** For a current page between 1 and the number of pages, the page
    list holds the three dots exactly when some page of 1..t is not
    listed: the dots never stand for nothing, and pages are never left
    out silently. *)
Lemma dots_mean_hidden_pages c t :
  1 <= c <= t →
  (Pagination.Dots ∈ Pagination.getPageNumbers c t ↔
   ∃ n, 1 <= n <= t ∧ Pagination.Page n ∉ Pagination.getPageNumbers c t).
Proof.
  intros Hc.
  assert (∀ n, Pagination.Page n ∈ Pagination.getPageNumbers c t ↔
               1 <= n <= t ∧ (t <= 5 ∨ n = 1 ∨ n = t ∨ c - 2 <= n <= c + 2)) as Hin.
  { intros n. rewrite <- elem_of_numbers, (getPageNumbers_numbers c t Hc).
    rewrite list_elem_of_filter, elem_of_seqZ. split; intros [? ?]; split; auto; lia. }
  destruct (Z.le_gt_cases t 5) as [Ht|Ht].
  - split.
    + unfold Pagination.getPageNumbers. rewrite (proj2 (Z.leb_le t 5) Ht).
      intros H. by apply Dots_not_page in H.
    + intros (n & Hn & Hno). exfalso. apply Hno, Hin. lia.
  - rewrite (Dots_in_getPageNumbers c t) by lia. split.
    + intros [H|H].
      * exists 2. split; [lia|]. rewrite Hin. lia.
      * exists (t - 1). split; [lia|]. rewrite Hin. lia.
    + intros (n & Hn & Hno). rewrite Hin in Hno. lia.
Qed.

(** X1. For a current page between 1 and the number of pages, the page
    list of [getPageNumbers] holds a page exactly when it is one of the
    pages 1..t and is the first, the last or within two of the current
    page (every page when there are at most five); the listed numbers are
    strictly increasing, so no page is listed twice; and the list holds
    the three dots exactly when some page of 1..t is not listed, so the
    dots never stand for nothing and no page is left out silently. *)
Theorem page_list_shows_pages_and_gaps c t :
  1 <= c <= t →
  (∀ n, Pagination.Page n ∈ Pagination.getPageNumbers c t ↔
        1 <= n <= t ∧ (t <= 5 ∨ n = 1 ∨ n = t ∨ c - 2 <= n <= c + 2)) ∧
  StronglySorted Z.lt (Pagination.numbers (Pagination.getPageNumbers c t)) ∧
  (Pagination.Dots ∈ Pagination.getPageNumbers c t ↔
   ∃ n, 1 <= n <= t ∧ Pagination.Page n ∉ Pagination.getPageNumbers c t).
Proof.
  intros H. destruct (page_numbers_listed c t H) as [Hpages Hsorted].
  split; [exact Hpages|]. split; [exact Hsorted|].
  exact (dots_mean_hidden_pages c t H).
Qed.

(** For a current page between 1 and the number of pages, every page
    an enabled button asks for (previous, a numbered entry, next) is a
    page between 1 and the number of pages. *)
Lemma requested_pages_exist c t n :
  1 <= c <= t → n ∈ Pagination.requests c t → 1 <= n <= t.
Proof.
  intros Hc. unfold Pagination.requests. rewrite !elem_of_app.
  intros [H|[H|H]].
  - destruct (Z.eqb_spec c 1); [by apply elem_of_nil in H|].
    apply list_elem_of_singleton in H. lia.
  - rewrite (getPageNumbers_numbers c t Hc) in H.
    apply list_elem_of_filter in H as [_ H]. apply elem_of_seqZ in H. lia.
  - destruct (Z.eqb_spec c t); [by apply elem_of_nil in H|].
    apply list_elem_of_singleton in H. lia.
Qed.

(** On a page that has tickets (a positive page size, a page number
    from 1 whose first ticket exists), the range shown by "Showing a to b
    of n" is a real one: it starts at 1 or above, ends at n or below, is
    not empty, holds at most a page, and holds a full page unless it is
    the last. *)
Lemma shown_range_is_a_page c per total :
  0 < per → 1 <= c → (c - 1) * per < total →
  let a := Pagination.startItem c per in
  let b := Pagination.endItem c per total in
  1 <= a ∧ a <= b ∧ b <= total ∧ b - a + 1 <= per ∧
  (c * per <= total → b - a + 1 = per).
Proof.
  intros Hper Hc Hpage a b. subst a b.
  unfold Pagination.startItem, Pagination.endItem. nia.
Qed.

(** X2. What [Pagination] asks for and what it announces stay in range.
    For a current page between 1 and the number of pages, every page an
    enabled button asks for (previous, a numbered entry, next) is a page
    between 1 and the number of pages.  On a page that has tickets (a
    positive page size, a page number from 1 whose first ticket exists),
    the range of "Showing a to b of n" starts at 1 or above, ends at n or
    below, is not empty, holds at most a page, and holds a full page
    unless it is the last. *)
Theorem pagination_stays_in_range :
  (∀ c t n, 1 <= c <= t → n ∈ Pagination.requests c t → 1 <= n <= t) ∧
  (∀ c per total,
     0 < per → 1 <= c → (c - 1) * per < total →
     let a := Pagination.startItem c per in
     let b := Pagination.endItem c per total in
     1 <= a ∧ a <= b ∧ b <= total ∧ b - a + 1 <= per ∧
     (c * per <= total → b - a + 1 = per)).
Proof.
  split.
  - exact requested_pages_exist.
  - exact shown_range_is_a_page.
Qed.

(** ** The e-mail route and its client *)

Lemma complete_dec body : {complete body} + {¬ complete body}.
Proof.
  unfold complete.
  destruct (truthy (q_to body)), (truthy (q_subject body)), (truthy (q_body body));
    first [by left | right; by intros (? & ? & ?)].
Qed.

Lemma live_dec srv : {live srv} + {¬ live srv}.
Proof.
  unfold live.
  destruct (decide (NEXT_PUBLIC_EMAIL_SERVICE_ENABLED (env srv) = Some "true"));
    destruct (str_truthy (RESEND_API_KEY (env srv)));
    first [by left | right; by intros (? & ?)].
Qed.

Lemma POST_live srv body sent :
  complete body → live srv →
  POST srv (Some body) sent
  = (sent ++ [mail_of srv body],
     Returned match resend srv (mail_of srv body) with
              | ResendData data =>
                  {| json := SuccessJson "Email sent successfully" (Some data);
                     status := 200 |}
              | _ => {| json := ErrorJson "Failed to send email"; status := 500 |}
              end).
Proof.
  intros (H1 & H2 & H3) (He & Hk).
  unfold POST, new_Resend, request_json, resend_emails_send. rewrite Hk.
  run_async. rewrite H1, H2, H3. simpl.
  rewrite (bool_decide_eq_true_2 _ He). simpl.
  fold (mail_of srv body). by destruct (resend srv (mail_of srv body)).
Qed.

Lemma has_key_dec srv : {has_key srv} + {str_truthy (RESEND_API_KEY (env srv)) = false}.
Proof. unfold has_key. destruct (str_truthy _); [by left|by right]. Qed.

(** The body of an answer of the route is always JSON. *)
Lemma POST_json srv request sent sent' r :
  POST srv request sent = (sent', Returned r) → json r ≠ ErrorPage.
Proof.
  unfold POST, new_Resend, request_json, resend_emails_send.
  destruct (str_truthy (RESEND_API_KEY (env srv))); [|done]. run_async.
  destruct request as [body|]; simpl; [|by intros [= _ <-]].
  destruct (negb (truthy (q_to body)) || negb (truthy (q_subject body))
            || negb (truthy (q_body body))); simpl; [by intros [= _ <-]|].
  destruct (negb (bool_decide _)); simpl; [by intros [= _ <-]|].
  destruct (resend srv _); simpl; by intros [= _ <-].
Qed.

Lemma not_complete body :
  ¬ complete body →
  truthy (q_to body) = false ∨ truthy (q_subject body) = false ∨
  truthy (q_body body) = false.
Proof.
  unfold complete. intros H.
  destruct (truthy (q_to body)); [|by left].
  destruct (truthy (q_subject body)); [|by right; left].
  destruct (truthy (q_body body)); [|by right; right].
  exfalso. by apply H.
Qed.

(** The route hands a mail to the provider exactly when the request
    can be read, has a truthy [to], [subject] and [body], the enable flag
    is the string [true] and an API key is set; it then hands over one
    mail, addressed to the request's [to] alone, with the request's
    subject, text and HTML and the configured or default sender. In
    every other case the provider is not contacted. *)
Lemma route_contacts_provider srv request sent :
  (∀ body, request = Some body → complete body → live srv →
     fst (POST srv request sent) = sent ++ [mail_of srv body]) ∧
  ((∀ body, request = Some body → ¬ (complete body ∧ live srv)) →
     fst (POST srv request sent) = sent).
Proof.
  split.
  - intros body -> Hc Hl. by rewrite POST_live.
  - intros Hno. destruct (has_key_dec srv) as [Hk|Hk]; [|by rewrite POST_no_key].
    destruct request as [body|]; [|by rewrite POST_unreadable].
    destruct (complete_dec body) as [Hc|Hc].
    + assert (flag_off (env srv)) as Hoff.
      { intros He. apply (Hno body); [done|]. split; [done|]. by split. }
      destruct Hc as (H1 & H2 & H3). by rewrite POST_off_complete.
    + by rewrite (POST_incomplete srv body sent Hk (not_complete body Hc)).
Qed.

(** Without an API key the route answers nothing: the module throws when
    it is loaded.  With one, the route answers every request, and with a
    success status (a [response.ok] answer) exactly when the request is
    complete and either the enable flag is off or the provider accepts
    the mail; an incomplete request, an unreadable body, a provider error
    and a provider failure all get an error status. *)
Lemma route_answers_ok srv request sent :
  (str_truthy (RESEND_API_KEY (env srv)) = false →
   snd (POST srv request sent) = Threw MissingApiKey) ∧
  (has_key srv →
   ∃ r, snd (POST srv request sent) = Returned r ∧
        (ok r = true ↔
         ∃ body, request = Some body ∧ complete body ∧
                 (flag_off (env srv) ∨ accepted srv (mail_of srv body)))).
Proof.
  split; [intros Hk; by rewrite POST_no_key|]. intros Hk.
  destruct request as [body|]; cycle 1.
  { rewrite (POST_unreadable srv sent Hk). eexists. split; [reflexivity|].
    split; [done|]. by intros (body & ? & _). }
  destruct (complete_dec body) as [Hc|Hc]; cycle 1.
  { rewrite (POST_incomplete srv body sent Hk (not_complete body Hc)).
    eexists. split; [reflexivity|].
    split; [done|]. intros (body' & [= <-] & Hc' & _). done. }
  destruct (decide (NEXT_PUBLIC_EMAIL_SERVICE_ENABLED (env srv) = Some "true"))
    as [He|He].
  - rewrite (POST_live srv body sent Hc (conj He Hk)).
    eexists. split; [reflexivity|]. split.
    + intros Hok. exists body. split; [done|]. split; [done|]. right.
      unfold accepted. destruct (resend srv (mail_of srv body)); [by eauto|done..].
    + intros (body' & [= <-] & _ & [Hno | (data & ->)]); done.
  - destruct Hc as (H1 & H2 & H3).
    rewrite (POST_off_complete srv body sent Hk He H1 H2 H3).
    eexists. split; [reflexivity|].
    split; [|done]. intros _. exists body. split; [done|]. split; [done|]. by left.
Qed.

(** X3. The route hands a mail to the provider exactly when the request
    can be read, has a truthy [to], [subject] and [body], the enable flag
    is the string [true] and an API key is set; it then hands over one
    mail, addressed to the request's [to] alone, with the request's
    subject, text and HTML and the configured or default sender, and in
    every other case the provider is not contacted.  On a server without
    an API key the module throws when it is loaded and the route answers
    no request.  On a server with an API key it answers every request,
    and with a success status exactly when the request is complete and
    either the enable flag is off or the provider accepts the mail: an
    incomplete request, an unreadable body, a provider error and a
    provider failure all get an error status. *)
Theorem route_contract srv request sent :
  (∀ body, request = Some body → complete body → live srv →
     fst (POST srv request sent) = sent ++ [mail_of srv body]) ∧
  ((∀ body, request = Some body → ¬ (complete body ∧ live srv)) →
     fst (POST srv request sent) = sent) ∧
  (str_truthy (RESEND_API_KEY (env srv)) = false →
   snd (POST srv request sent) = Threw MissingApiKey) ∧
  (has_key srv →
   ∃ r, snd (POST srv request sent) = Returned r ∧
        (ok r = true ↔
         ∃ body, request = Some body ∧ complete body ∧
                 (flag_off (env srv) ∨ accepted srv (mail_of srv body)))).
Proof.
  destruct (route_contacts_provider srv request sent) as [Hlive Hnot].
  destruct (route_answers_ok srv request sent) as [Hnone Hkey].
  split; [exact Hlive|]. split; [exact Hnot|]. split; [exact Hnone|exact Hkey].
Qed.

Lemma sendEmail_disabled {St : Type} this srv emailData b (st : St) :
  isEnabled this = false →
  sendEmail this srv emailData (b, st)
  = (({| db := db b; outbox := outbox b;
         dispatched := dispatched b ++ [emailData] |}, st), Returned true).
Proof.
  intros H. unfold sendEmail, dispatch. run_async. by rewrite H.
Qed.

Lemma sendEmail_enabled {St : Type} this srv emailData b (st : St) :
  isEnabled this = true →
  sendEmail this srv emailData (b, st)
  = match POST srv (JSON_stringify emailData) (outbox b) with
    | (sent, Returned response) =>
        (({| db := db b; outbox := sent;
             dispatched := dispatched b ++ [emailData] |}, st),
         Returned (ok response))
    | (sent, Threw _) =>
        (({| db := db b; outbox := sent;
             dispatched := dispatched b ++ [emailData] |}, st), Returned false)
    end.
Proof.
  intros H. unfold sendEmail, dispatch, fetch_send_email, response_json. run_async.
  rewrite H. simpl.
  destruct (POST srv (JSON_stringify emailData) (outbox b)) as [sent [response|e]] eqn:E;
    simpl; [|done].
  apply POST_json in E. destruct (json response); [| |done]; by destruct (ok response).
Qed.

(** X4. [sendEmail] never throws and never touches the store or the
    component. It returns [true] exactly when the client is disabled, or
    the server has an API key, the e-mail's request is complete and either
    the enable flag of the server is off or the provider accepts the mail;
    against a server without an API key an enabled client returns
    [false]. The mail provider is handed one mail, built from the e-mail,
    exactly when the client is enabled, the request is complete and the
    server is set up to send; otherwise nothing is handed over. *)
Theorem sendEmail_end_to_end (St : Type) this srv emailData b (st : St) body :
  JSON_stringify emailData = Some body →
  ∃ r sent,
    sendEmail this srv emailData (b, st)
    = (({| db := db b; outbox := sent;
           dispatched := dispatched b ++ [emailData] |}, st), Returned r) ∧
    (r = true ↔
     isEnabled this = false ∨
     (has_key srv ∧ complete body ∧
      (flag_off (env srv) ∨ accepted srv (mail_of srv body)))) ∧
    (isEnabled this = true ∧ complete body ∧ live srv →
     sent = outbox b ++ [mail_of srv body]) ∧
    (¬ (isEnabled this = true ∧ complete body ∧ live srv) → sent = outbox b).
Proof.
  intros Hbody. destruct (isEnabled this) eqn:He.
  - rewrite (sendEmail_enabled this srv emailData b st He), Hbody.
    destruct (has_key_dec srv) as [Hk|Hk]; cycle 1.
    { rewrite (POST_no_key srv _ _ Hk).
      eexists _, _. split; [reflexivity|]. split; [|split].
      - split; [done|]. unfold has_key. intros [?|[? _]]; congruence.
      - intros (_ & _ & _ & ?). congruence.
      - done. }
    destruct (complete_dec body) as [Hc|Hc]; cycle 1.
    { rewrite (POST_incomplete srv body _ Hk (not_complete body Hc)).
      eexists _, _. split; [reflexivity|]. simpl. split; [|split].
      - split; [done|]. intros [?|(_ & ? & _)]; done.
      - intros (_ & ? & _). done.
      - done. }
    destruct (decide (NEXT_PUBLIC_EMAIL_SERVICE_ENABLED (env srv) = Some "true"))
      as [Hf|Hf].
    + rewrite (POST_live srv body _ Hc (conj Hf Hk)).
      eexists _, _. split; [reflexivity|]. split; [|split].
      * unfold accepted.
        destruct (resend srv (mail_of srv body)) as [data| |]; simpl.
        -- split; [|done]. intros _. right. split; [done|]. split; [done|].
           right. by eexists.
        -- split; [done|]. intros [?|(_ & _ & [?|[? ?]])]; done.
        -- split; [done|]. intros [?|(_ & _ & [?|[? ?]])]; done.
      * done.
      * intros Hno. exfalso. apply Hno. split; [done|]. split; [done|]. by split.
    + destruct Hc as (H1 & H2 & H3).
      rewrite (POST_off_complete srv body (outbox b) Hk Hf H1 H2 H3).
      eexists _, _. split; [reflexivity|]. simpl. split; [|split].
      * split; [|done]. intros _. right. split; [done|]. split; [done|]. by left.
      * intros (_ & _ & ? & _). done.
      * done.
  - rewrite (sendEmail_disabled this srv emailData b st He).
    eexists _, _. split; [reflexivity|]. split; [|split].
    + split; [|done]. intros _. by left.
    + intros (? & _). done.
    + done.
Qed.

(** An e-mail without a recipient is never handed to the provider. *)
Lemma sendEmail_no_recipient {St : Type} this srv emailData b (st : St) :
  e_to emailData = EmptyString →
  ∃ r, sendEmail this srv emailData (b, st)
       = (({| db := db b; outbox := outbox b;
              dispatched := dispatched b ++ [emailData] |}, st), Returned r).
Proof.
  intros Hto. destruct (isEnabled this) eqn:He.
  - rewrite (sendEmail_enabled this srv emailData b st He).
    destruct (has_key_dec srv) as [Hk|Hk]; [|rewrite POST_no_key; by eauto].
    unfold JSON_stringify. rewrite POST_incomplete; [by eexists|done|].
    left. simpl. by rewrite Hto.
  - rewrite (sendEmail_disabled this srv emailData b st He). by eexists.
Qed.

Lemma sendTicketStatusUpdateNotification_no_recipient {St : Type} this srv data b
    (st : St) :
  d_userEmail data = EmptyString →
  ∃ r emailData,
    sendTicketStatusUpdateNotification this srv data (b, st)
    = (({| db := db b; outbox := outbox b;
           dispatched := dispatched b ++ [emailData] |}, st), Returned r).
Proof.
  intros Hto. unfold sendTicketStatusUpdateNotification.
  match goal with
  | |- context [sendEmail this srv ?e] =>
      destruct (sendEmail_no_recipient this srv e b st Hto) as (r & ->);
      by exists r, e
  end.
Qed.

(** X5. Whatever the e-mail configuration and the mail provider, a status
    update and an assignment never hand a mail to the provider: the mail
    they build has no recipient and the route turns it down. *)
Theorem status_mails_never_reach_provider this srv user profile now tid newStatus b st :
  outbox (fst (exec (SupportAgentDashboard.handleUpdateStatus this srv now tid newStatus)
                    (b, st))) = outbox b ∧
  outbox (fst (exec (SupportAgentDashboard.handleAssignTicket this srv user profile now
                       tid) (b, st))) = outbox b.
Proof.
  split.
  - unfold SupportAgentDashboard.handleUpdateStatus, SupportAgentDashboard.fetchTickets,
      updateDoc_tickets, update_in, addDoc_notifications.
    run_async. destruct (tickets (db b) !! tid) as [d|]; simpl; [|done].
    destruct (find_ticket tid (SupportAgentDashboard.s_tickets st)) as [ticket|];
      simpl; [|done].
    match goal with
    | |- context [sendTicketStatusUpdateNotification this srv ?data ?s] =>
        destruct (sendTicketStatusUpdateNotification_no_recipient this srv data
                    (fst s) (snd s) eq_refl) as (r & e & Hrun)
    end.
    simpl in Hrun. rewrite Hrun. done.
  - unfold SupportAgentDashboard.handleAssignTicket, SupportAgentDashboard.fetchTickets,
      updateDoc_tickets, update_in, addDoc_notifications.
    run_async. destruct user as [u|]; [|done]. destruct profile as [p|]; [|done].
    simpl. destruct (tickets (db b) !! tid) as [d|]; simpl; [|done].
    destruct (find_ticket tid (SupportAgentDashboard.s_tickets st)) as [ticket|];
      simpl; [|done].
    match goal with
    | |- context [sendTicketStatusUpdateNotification this srv ?data ?s] =>
        destruct (sendTicketStatusUpdateNotification_no_recipient this srv data
                    (fst s) (snd s) eq_refl) as (r & e & Hrun)
    end.
    simpl in Hrun. rewrite Hrun. done.
Qed.

Lemma addDoc_notifications_all_outbox l b st :
  outbox (fst (fst (AskQuestionForm.addDoc_notifications_all l (b, st)))) = outbox b.
Proof.
  revert b. induction l as [|n l IH]; intros b; simpl; [done|].
  unfold addDoc_notifications. run_async.
  destruct (addDoc_notifications_all_run l
              (with_db (fun fs => set_notifications (notifications fs ++ [n]) fs) b) st)
    as (b' & Hrun & _).
  specialize (IH (with_db (fun fs => set_notifications (notifications fs ++ [n]) fs) b)).
  rewrite Hrun in IH |- *. done.
Qed.

Lemma sendTicketCreatedNotification_live {St : Type} this srv data b (st : St) :
  isEnabled this = true → live srv →
  ∃ r mail emailData,
    sendTicketCreatedNotification this srv data (b, st)
    = (({| db := db b; outbox := outbox b ++ [mail];
           dispatched := dispatched b ++ [emailData] |}, st), Returned r) ∧
    m_to mail = [JsString "support@company.com"] ∧
    m_subject mail = JsString ("New Ticket Created: " +:+ d_ticketTitle data).
Proof.
  intros He Hl. unfold sendTicketCreatedNotification.
  match goal with
  | |- context [sendEmail this srv ?e] =>
      rewrite (sendEmail_enabled this srv e b st He); set (emailData := e)
  end.
  unfold JSON_stringify.
  match goal with
  | |- context [POST srv (Some ?body)] =>
      rewrite (POST_live srv body (outbox b)); [|by repeat split|done];
      exists (ok match resend srv (mail_of srv body) with
                 | ResendData data0 =>
                     {| json := SuccessJson "Email sent successfully" (Some data0);
                        status := 200 |}
                 | _ => {| json := ErrorJson "Failed to send email"; status := 500 |}
                 end), (mail_of srv body), emailData
  end.
  done.
Qed.

(** X6. With the e-mail client enabled and the server set up to send, a
    ticket submitted by a signed-in user hands exactly one mail to the
    provider, addressed to support@company.com alone and with the subject
    "New Ticket Created: " followed by the title; and whatever the
    provider answers (acceptance, error or failure), the ticket is stored
    and the form is left. *)
Theorem created_ticket_mail_goes_to_support this srv u profile now newId data b st :
  isEnabled this = true → live srv →
  let w := exec (AskQuestionForm.onSubmit this srv (Some u) profile now newId data)
             (b, st) in
  (∃ mail, outbox (fst w) = outbox b ++ [mail] ∧
           m_to mail = [JsString "support@company.com"] ∧
           m_subject mail
             = JsString ("New Ticket Created: " +:+ AskQuestionForm.f_title data)) ∧
  is_Some (tickets (db (fst w)) !! newId) ∧
  AskQuestionForm.s_left (snd w) = true ∧
  AskQuestionForm.s_submitting (snd w) = false.
Proof.
  intros He Hl w. subst w.
  unfold AskQuestionForm.onSubmit, addDoc_tickets, AskQuestionForm.getDocs_users_role_in.
  run_async.
  match goal with
  | |- context [sendTicketCreatedNotification this srv ?data ?s] =>
      destruct (sendTicketCreatedNotification_live this srv data (fst s) (snd s) He Hl)
        as (r & mail & e & Hrun & Hto & Hsub)
  end.
  simpl in Hrun. rewrite Hrun. simpl.
  match goal with
  | |- context [AskQuestionForm.addDoc_notifications_all ?l (?b', ?st')] =>
      destruct (addDoc_notifications_all_run l b' st') as (b'' & Hall & Ht);
      pose proof (addDoc_notifications_all_outbox l b' st') as Ho;
      rewrite Hall in Ho |- *
  end.
  simpl in Ho |- *. split; [|split; [|done]].
  - exists mail. by rewrite Ho.
  - rewrite Ht. simpl. rewrite lookup_insert_eq. by eexists.
Qed.

(** ** Votes *)

Lemma size_delete_present {K A} `{Countable K} (m : gmap K A) k x :
  m !! k = Some x → size m = S (size (delete k m)).
Proof.
  intros Hk. rewrite <- (insert_delete_id m k x Hk) at 1.
  apply map_size_insert_None, lookup_delete_eq.
Qed.

(** The number of records of a kind on a ticket after a record is
    written: what the written record adds balances what the overwritten
    one took away. *)
Lemma voters_insert type tid fs voter v :
  let old := match votes fs !! (tid, voter) with
             | Some vo => bool_decide (v_type vo = type)
             | None => false
             end in
  (size (voters type tid (set_votes (<[(tid, voter) := v]> (votes fs)) fs))
   + (if old then 1 else 0)
   = size (voters type tid fs) + (if bool_decide (v_type v = type) then 1 else 0))%nat.
Proof.
  intros old. subst old. unfold voters. simpl.
  set (P := fun kv : string * string * VoteDoc =>
              fst (fst kv) = tid ∧ v_type (snd kv) = type).
  rewrite map_filter_insert.
  assert (filter P (votes fs) !! (tid, voter)
          = match votes fs !! (tid, voter) with
            | Some vo => if bool_decide (v_type vo = type) then Some vo else None
            | None => None
            end) as Hold.
  { destruct (votes fs !! (tid, voter)) as [vo|] eqn:Hk.
    - destruct (bool_decide (v_type vo = type)) eqn:Hb.
      + apply bool_decide_eq_true in Hb. by apply map_lookup_filter_Some_2.
      + apply bool_decide_eq_false in Hb. apply map_lookup_filter_None_2.
        right. intros vo' Hk' [_ Hp]. simpl in Hp. congruence.
    - apply map_lookup_filter_None_2. by left. }
  destruct (decide (P (tid, voter, v))) as [[_ Hv]|Hv]; simpl in Hv.
  - rewrite (bool_decide_eq_true_2 _ Hv), map_size_insert, Hold.
    destruct (votes fs !! (tid, voter)) as [vo|]; [|simpl; lia].
    destruct (bool_decide (v_type vo = type)); simpl; lia.
  - rewrite bool_decide_eq_false_2 by (intros Hv'; apply Hv; by split).
    rewrite map_filter_delete, map_size_delete, Hold.
    destruct (votes fs !! (tid, voter)) as [vo|] eqn:Hk; [|simpl; lia].
    destruct (bool_decide (v_type vo = type)) eqn:Hb; [|simpl; lia].
    rewrite (size_delete_present _ _ _ Hold). simpl. lia.
Qed.

Lemma voters_delete type tid fs voter :
  let old := match votes fs !! (tid, voter) with
             | Some vo => bool_decide (v_type vo = type)
             | None => false
             end in
  (size (voters type tid (set_votes (delete (tid, voter) (votes fs)) fs))
   + (if old then 1 else 0)
   = size (voters type tid fs))%nat.
Proof.
  intros old. subst old. unfold voters. simpl.
  set (P := fun kv : string * string * VoteDoc =>
              fst (fst kv) = tid ∧ v_type (snd kv) = type).
  rewrite map_filter_delete.
  destruct (votes fs !! (tid, voter)) as [vo|] eqn:Hk.
  - destruct (bool_decide (v_type vo = type)) eqn:Hb.
    + apply bool_decide_eq_true in Hb.
      assert (filter P (votes fs) !! (tid, voter) = Some vo) as Hin
        by (by apply map_lookup_filter_Some_2).
      rewrite (size_delete_present _ _ _ Hin). lia.
    + apply bool_decide_eq_false in Hb.
      rewrite map_size_delete_None; [lia|].
      apply map_lookup_filter_None_2. right. intros vo' Hk' [_ Hp]. simpl in Hp.
      congruence.
  - rewrite map_size_delete_None; [lia|]. apply map_lookup_filter_None_2. by left.
Qed.

(** The counts [handleVote] computes from counts that match the records
    are the numbers of records after its write to the votes. *)
Lemma counts_after_match cur type fs tid voter now :
  cur = (v_type <$> votes fs !! (tid, voter)) →
  let votes' :=
    if bool_decide (cur = Some type)
    then delete (tid, voter) (votes fs)
    else <[(tid, voter) := {| v_type := type; v_createdAt := now |}]> (votes fs) in
  counts_after cur type (tally upvote tid fs) (tally downvote tid fs)
  = (tally upvote tid (set_votes votes' fs), tally downvote tid (set_votes votes' fs)).
Proof.
  intros Hcur votes'. subst votes'. unfold counts_after, tally.
  destruct (bool_decide (cur = Some type)) eqn:Hb.
  - apply bool_decide_eq_true in Hb.
    pose proof (voters_delete upvote tid fs voter) as Hu.
    pose proof (voters_delete downvote tid fs voter) as Hd.
    cbv zeta in Hu, Hd.
    destruct (votes fs !! (tid, voter)) as [vo|]; simpl in Hcur; [|congruence].
    assert (v_type vo = type) as Hvo by congruence.
    destruct type, (v_type vo); try done; simpl in Hu, Hd; f_equal; lia.
  - apply bool_decide_eq_false in Hb.
    pose proof (voters_insert upvote tid fs voter
                  {| v_type := type; v_createdAt := now |}) as Hu.
    pose proof (voters_insert downvote tid fs voter
                  {| v_type := type; v_createdAt := now |}) as Hd.
    cbv zeta in Hu, Hd. simpl in Hu, Hd.
    destruct (votes fs !! (tid, voter)) as [vo|]; simpl in Hcur; subst cur.
    + destruct type, (v_type vo); try done; simpl in Hu, Hd; f_equal; lia.
    + destruct type; simpl in Hu, Hd; f_equal; lia.
Qed.

Lemma counts_match_list u now tid type b st ticket :
  tid ∉ TicketList.s_votingTickets st →
  find_ticket tid (TicketList.s_tickets st) = Some ticket →
  tickets (db b) !! tid = Some (data ticket) →
  TicketList.currentVote_of st tid = (v_type <$> votes (db b) !! (tid, uid u)) →
  counts_match tid (db b) →
  counts_match tid (db (fst (exec (TicketList.handleVote (Some u) now tid type) (b, st)))).
Proof.
  intros Hv Hf Hd Hcur Hm.
  rewrite (handleVote_list_run u now tid type b st ticket (data ticket) Hv Hf Hd).
  cbv zeta. unfold counts_match in Hm. rewrite Hd in Hm. destruct Hm as [-> ->].
  rewrite (counts_after_match _ type (db b) tid (uid u) now Hcur). cbv zeta.
  unfold counts_match. simpl. rewrite lookup_insert_eq. simpl. done.
Qed.

Lemma counts_match_detail u now tid type b st ticket :
  TicketDetail.s_voting st = false →
  TicketDetail.s_ticket st = Some ticket →
  tickets (db b) !! tid = Some (data ticket) →
  TicketDetail.s_userVote st = (v_type <$> votes (db b) !! (tid, uid u)) →
  counts_match tid (db b) →
  counts_match tid
    (db (fst (exec (TicketDetail.handleVote (Some u) now tid type) (b, st)))).
Proof.
  intros Hv Hf Hd Hcur Hm.
  rewrite (handleVote_detail_run u now tid type b st ticket (data ticket) Hv Hf Hd).
  cbv zeta. unfold counts_match in Hm. rewrite Hd in Hm. destruct Hm as [-> ->].
  rewrite (counts_after_match _ type (db b) tid (uid u) now Hcur). cbv zeta.
  unfold counts_match. simpl. rewrite lookup_insert_eq. simpl. done.
Qed.

(** X7. In either voting component, when the component's view of the
    ticket and of the voter's vote is up to date and the ticket's stored
    counts are the numbers of its upvote and downvote records, they still
    are after a vote of either kind (first vote, toggle-off or switch):
    the floor at 0 never bites and no record goes uncounted. *)
Theorem vote_keeps_counts_matching_records :
  (∀ u now tid type b st ticket,
     tid ∉ TicketList.s_votingTickets st →
     find_ticket tid (TicketList.s_tickets st) = Some ticket →
     tickets (db b) !! tid = Some (data ticket) →
     TicketList.currentVote_of st tid = (v_type <$> votes (db b) !! (tid, uid u)) →
     counts_match tid (db b) →
     counts_match tid
       (db (fst (exec (TicketList.handleVote (Some u) now tid type) (b, st))))) ∧
  (∀ u now tid type b st ticket,
     TicketDetail.s_voting st = false →
     TicketDetail.s_ticket st = Some ticket →
     tickets (db b) !! tid = Some (data ticket) →
     TicketDetail.s_userVote st = (v_type <$> votes (db b) !! (tid, uid u)) →
     counts_match tid (db b) →
     counts_match tid
       (db (fst (exec (TicketDetail.handleVote (Some u) now tid type) (b, st))))).
Proof.
  split; intros.
  - by eapply counts_match_list.
  - by eapply counts_match_detail.
Qed.

(** The shapes a vote in the list can leave the votes and the shown
    votes in: untouched, or the voter's record on the ticket written or
    deleted. *)
Lemma handleVote_list_votes user now tid type b st :
  let w := exec (TicketList.handleVote user now tid type) (b, st) in
  (votes (db (fst w)) = votes (db b) ∧
   TicketList.s_userVotes (snd w) = TicketList.s_userVotes st) ∨
  (∃ u v shown, user = Some u ∧
     (votes (db (fst w)) = <[(tid, uid u) := v]> (votes (db b)) ∨
      votes (db (fst w)) = delete (tid, uid u) (votes (db b))) ∧
     TicketList.s_userVotes (snd w) = <[tid := shown]> (TicketList.s_userVotes st)).
Proof.
  intros w. subst w.
  destruct user as [u|]; [|by left].
  destruct (decide (tid ∈ TicketList.s_votingTickets st)) as [Hv|Hv].
  { left. unfold TicketList.handleVote. run_async. by rewrite bool_decide_eq_true_2. }
  destruct (find_ticket tid (TicketList.s_tickets st)) as [ticket|] eqn:Hf; cycle 1.
  { left. unfold exec. by rewrite handleVote_list_unlisted. }
  right. exists u.
  destruct (tickets (db b) !! tid) as [d|] eqn:Hd.
  - rewrite (handleVote_list_run u now tid type b st ticket d Hv Hf Hd). cbv zeta.
    destruct (counts_after _ _ _ _) as [nu nd]. simpl.
    destruct (bool_decide _).
    + exists {| v_type := type; v_createdAt := now |}, None. auto.
    + exists {| v_type := type; v_createdAt := now |}, (Some type). auto.
  - unfold TicketList.handleVote. run_async.
    rewrite bool_decide_eq_false_2 by done. rewrite Hf.
    destruct (bool_decide _).
    + unfold deleteDoc_votes, updateDoc_tickets, update_in. run_async.
      exists {| v_type := type; v_createdAt := now |}, None.
      destruct type; simpl; rewrite Hd; simpl; auto.
    + unfold setDoc_votes, updateDoc_tickets, update_in. run_async.
      exists {| v_type := type; v_createdAt := now |}, (Some type).
      destruct (TicketList.currentVote_of st tid) as [[]|], type;
        simpl; rewrite Hd; simpl; auto.
Qed.

Lemma handleVote_detail_votes user now tid type b st :
  let w := exec (TicketDetail.handleVote user now tid type) (b, st) in
  votes (db (fst w)) = votes (db b) ∨
  (∃ u v, user = Some u ∧
     (votes (db (fst w)) = <[(tid, uid u) := v]> (votes (db b)) ∨
      votes (db (fst w)) = delete (tid, uid u) (votes (db b)))).
Proof.
  intros w. subst w.
  destruct (TicketDetail.s_ticket st) as [ticket|] eqn:Hf; cycle 1.
  { left. unfold TicketDetail.handleVote. run_async. by rewrite Hf. }
  destruct user as [u|]; cycle 1.
  { left. unfold TicketDetail.handleVote. run_async. by rewrite Hf. }
  destruct (TicketDetail.s_voting st) eqn:Hv.
  { left. unfold TicketDetail.handleVote. run_async. by rewrite Hf, Hv. }
  right. exists u.
  destruct (tickets (db b) !! tid) as [d|] eqn:Hd.
  - rewrite (handleVote_detail_run u now tid type b st ticket d Hv Hf Hd). cbv zeta.
    destruct (counts_after _ _ _ _) as [nu nd]. simpl.
    destruct (bool_decide _);
      exists {| v_type := type; v_createdAt := now |}; auto.
  - unfold TicketDetail.handleVote. run_async. rewrite Hf, Hv.
    destruct (bool_decide _).
    + unfold deleteDoc_votes, updateDoc_tickets, update_in. run_async.
      exists {| v_type := type; v_createdAt := now |}.
      destruct type; simpl; rewrite Hd; simpl; auto.
    + unfold setDoc_votes, updateDoc_tickets, update_in. run_async.
      exists {| v_type := type; v_createdAt := now |}.
      destruct (TicketDetail.s_userVote st) as [[]|], type;
        simpl; rewrite Hd; simpl; auto.
Qed.

(** Nothing but votes and tickets is written by a vote. *)
Lemma handleVote_list_rest user now tid type b st :
  let w := exec (TicketList.handleVote user now tid type) (b, st) in
  users (db (fst w)) = users (db b) ∧
  roleUpgradeRequests (db (fst w)) = roleUpgradeRequests (db b) ∧
  notifications (db (fst w)) = notifications (db b) ∧
  outbox (fst w) = outbox b ∧ dispatched (fst w) = dispatched b.
Proof.
  intros w. subst w.
  destruct user as [u|]; [|done].
  destruct (decide (tid ∈ TicketList.s_votingTickets st)) as [Hv|Hv].
  { unfold TicketList.handleVote. run_async. by rewrite bool_decide_eq_true_2. }
  destruct (find_ticket tid (TicketList.s_tickets st)) as [ticket|] eqn:Hf; cycle 1.
  { unfold exec. by rewrite handleVote_list_unlisted. }
  destruct (tickets (db b) !! tid) as [d|] eqn:Hd.
  - rewrite (handleVote_list_run u now tid type b st ticket d Hv Hf Hd). cbv zeta.
    by destruct (counts_after _ _ _ _) as [nu nd].
  - unfold TicketList.handleVote. run_async.
    rewrite bool_decide_eq_false_2 by done. rewrite Hf.
    destruct (bool_decide _).
    + unfold deleteDoc_votes, updateDoc_tickets, update_in. run_async.
      destruct type; simpl; rewrite Hd; done.
    + unfold setDoc_votes, updateDoc_tickets, update_in. run_async.
      destruct (TicketList.currentVote_of st tid) as [[]|], type;
        simpl; rewrite Hd; done.
Qed.

Lemma handleVote_detail_rest user now tid type b st :
  let w := exec (TicketDetail.handleVote user now tid type) (b, st) in
  users (db (fst w)) = users (db b) ∧
  roleUpgradeRequests (db (fst w)) = roleUpgradeRequests (db b) ∧
  notifications (db (fst w)) = notifications (db b) ∧
  outbox (fst w) = outbox b ∧ dispatched (fst w) = dispatched b.
Proof.
  intros w. subst w.
  destruct (TicketDetail.s_ticket st) as [ticket|] eqn:Hf; cycle 1.
  { unfold TicketDetail.handleVote. run_async. by rewrite Hf. }
  destruct user as [u|]; cycle 1.
  { unfold TicketDetail.handleVote. run_async. by rewrite Hf. }
  destruct (TicketDetail.s_voting st) eqn:Hv.
  { unfold TicketDetail.handleVote. run_async. by rewrite Hf, Hv. }
  destruct (tickets (db b) !! tid) as [d|] eqn:Hd.
  - rewrite (handleVote_detail_run u now tid type b st ticket d Hv Hf Hd). cbv zeta.
    by destruct (counts_after _ _ _ _) as [nu nd].
  - unfold TicketDetail.handleVote. run_async. rewrite Hf, Hv.
    destruct (bool_decide _).
    + unfold deleteDoc_votes, updateDoc_tickets, update_in. run_async.
      destruct type; simpl; rewrite Hd; done.
    + unfold setDoc_votes, updateDoc_tickets, update_in. run_async.
      destruct (TicketDetail.s_userVote st) as [[]|], type;
        simpl; rewrite Hd; done.
Qed.

(** X8. Whatever its outcome, a vote in either component leaves alone
    every vote record but the acting voter's on the voted ticket, every
    ticket document but the voted one, and all users, role requests,
    notifications and mails; in the list it also leaves the vote shown
    for every other ticket. *)
Theorem vote_touches_only_its_own :
  (∀ user now tid type b st,
     let w := exec (TicketList.handleVote user now tid type) (b, st) in
     (∀ k, (∀ u, user = Some u → k ≠ (tid, uid u)) →
           votes (db (fst w)) !! k = votes (db b) !! k) ∧
     (∀ t, t ≠ tid → tickets (db (fst w)) !! t = tickets (db b) !! t) ∧
     (∀ t, t ≠ tid →
           TicketList.currentVote_of (snd w) t = TicketList.currentVote_of st t) ∧
     users (db (fst w)) = users (db b) ∧
     roleUpgradeRequests (db (fst w)) = roleUpgradeRequests (db b) ∧
     notifications (db (fst w)) = notifications (db b) ∧
     outbox (fst w) = outbox b ∧ dispatched (fst w) = dispatched b) ∧
  (∀ user now tid type b st,
     let w := exec (TicketDetail.handleVote user now tid type) (b, st) in
     (∀ k, (∀ u, user = Some u → k ≠ (tid, uid u)) →
           votes (db (fst w)) !! k = votes (db b) !! k) ∧
     (∀ t, t ≠ tid → tickets (db (fst w)) !! t = tickets (db b) !! t) ∧
     users (db (fst w)) = users (db b) ∧
     roleUpgradeRequests (db (fst w)) = roleUpgradeRequests (db b) ∧
     notifications (db (fst w)) = notifications (db b) ∧
     outbox (fst w) = outbox b ∧ dispatched (fst w) = dispatched b).
Proof.
  split.
  - intros user now tid type b st w.
    pose proof (handleVote_list_votes user now tid type b st) as Hvotes.
    pose proof (handleVote_list_tickets user now tid type b st) as Htickets.
    pose proof (handleVote_list_rest user now tid type b st) as Hrest.
    cbv zeta in Hvotes, Htickets, Hrest. fold w in Hvotes, Htickets, Hrest.
    split; [|split; [|split; [|exact Hrest]]].
    + intros k Hk.
      destruct Hvotes as [[-> _] | (u & v & shown & -> & [-> | ->] & _)]; [done| |].
      * rewrite lookup_insert_ne; [done|]. intros <-. by apply (Hk u).
      * rewrite lookup_delete_ne; [done|]. intros <-. by apply (Hk u).
    + intros t Ht.
      destruct Htickets as [[-> _] | (ticket & d & cur & nu & nd & _ & _ & -> & _)];
        [done|]. by rewrite lookup_insert_ne.
    + intros t Ht. unfold TicketList.currentVote_of.
      destruct Hvotes as [[_ ->] | (u & v & shown & _ & _ & ->)]; [done|].
      by rewrite lookup_insert_ne.
  - intros user now tid type b st w.
    pose proof (handleVote_detail_votes user now tid type b st) as Hvotes.
    pose proof (handleVote_detail_tickets user now tid type b st) as Htickets.
    pose proof (handleVote_detail_rest user now tid type b st) as Hrest.
    cbv zeta in Hvotes, Htickets, Hrest. fold w in Hvotes, Htickets, Hrest.
    split; [|split; [|exact Hrest]].
    + intros k Hk.
      destruct Hvotes as [-> | (u & v & -> & [-> | ->])]; [done| |].
      * rewrite lookup_insert_ne; [done|]. intros <-. by apply (Hk u).
      * rewrite lookup_delete_ne; [done|]. intros <-. by apply (Hk u).
    + intros t Ht.
      destruct Htickets as [[-> _] | (ticket & d & cur & nu & nd & _ & _ & -> & _)];
        [done|]. by rewrite lookup_insert_ne.
Qed.

(** X9. In either voting component, a vote that goes through on a
    ticket whose view is up to date leaves the view up to date: the
    component's copy of the ticket is the stored document, the vote it
    shows is the voter's stored vote, and no vote is in flight. *)
Theorem vote_keeps_view_current :
  (∀ u now tid type b st ticket,
     tid ∉ TicketList.s_votingTickets st →
     find_ticket tid (TicketList.s_tickets st) = Some ticket →
     tickets (db b) !! tid = Some (data ticket) →
     TicketList.currentVote_of st tid = (v_type <$> votes (db b) !! (tid, uid u)) →
     let w := exec (TicketList.handleVote (Some u) now tid type) (b, st) in
     (tid ∉ TicketList.s_votingTickets (snd w)) ∧
     (∃ ticket', find_ticket tid (TicketList.s_tickets (snd w)) = Some ticket' ∧
                 tickets (db (fst w)) !! tid = Some (data ticket')) ∧
     TicketList.currentVote_of (snd w) tid
       = (v_type <$> votes (db (fst w)) !! (tid, uid u))) ∧
  (∀ u now tid type b st ticket,
     TicketDetail.s_voting st = false →
     TicketDetail.s_ticket st = Some ticket →
     tickets (db b) !! tid = Some (data ticket) →
     TicketDetail.s_userVote st = (v_type <$> votes (db b) !! (tid, uid u)) →
     let w := exec (TicketDetail.handleVote (Some u) now tid type) (b, st) in
     TicketDetail.s_voting (snd w) = false ∧
     (∃ ticket', TicketDetail.s_ticket (snd w) = Some ticket' ∧
                 tickets (db (fst w)) !! tid = Some (data ticket')) ∧
     TicketDetail.s_userVote (snd w)
       = (v_type <$> votes (db (fst w)) !! (tid, uid u))).
Proof.
  split; intros.
  - by eapply handleVote_list_keeps_view.
  - by eapply handleVote_detail_keeps_view.
Qed.

Lemma count_with_counts type nu nd d :
  count type (with_counts nu nd d) = match type with upvote => nu | downvote => nd end.
Proof. by destruct type. Qed.

Lemma lost_update_list u1 u2 now1 now2 tid type b st1 st2 t1 t2 :
  uid u1 ≠ uid u2 →
  tid ∉ TicketList.s_votingTickets st1 →
  find_ticket tid (TicketList.s_tickets st1) = Some t1 →
  tickets (db b) !! tid = Some (data t1) →
  TicketList.currentVote_of st1 tid = None →
  tid ∉ TicketList.s_votingTickets st2 →
  find_ticket tid (TicketList.s_tickets st2) = Some t2 →
  tickets (db b) !! tid = Some (data t2) →
  TicketList.currentVote_of st2 tid = None →
  let w1 := exec (TicketList.handleVote (Some u1) now1 tid type) (b, st1) in
  let w2 := exec (TicketList.handleVote (Some u2) now2 tid type) (fst w1, st2) in
  votes (db (fst w2)) !! (tid, uid u1) = Some {| v_type := type; v_createdAt := now1 |} ∧
  votes (db (fst w2)) !! (tid, uid u2) = Some {| v_type := type; v_createdAt := now2 |} ∧
  (count type <$> tickets (db (fst w2)) !! tid) = Some (count type (data t1) + 1).
Proof.
  intros Hne Hv1 Hf1 Hd1 Hc1 Hv2 Hf2 Hd2 Hc2 w1 w2. subst w1 w2.
  assert (data t2 = data t1) as Heq by congruence.
  rewrite (handleVote_list_run u1 now1 tid type b st1 t1 (data t1) Hv1 Hf1 Hd1).
  rewrite Hc1. cbv zeta. unfold counts_after at 1.
  rewrite !bool_decide_eq_false_2 by done.
  destruct type; simpl.
  - erewrite handleVote_list_run; [|exact Hv2|exact Hf2|apply lookup_insert_eq].
    rewrite Hc2. cbv zeta. unfold counts_after.
    rewrite !bool_decide_eq_false_2 by done. simpl.
    rewrite lookup_insert_ne by congruence.
    rewrite !lookup_insert_eq. simpl. by rewrite Heq.
  - erewrite handleVote_list_run; [|exact Hv2|exact Hf2|apply lookup_insert_eq].
    rewrite Hc2. cbv zeta. unfold counts_after.
    rewrite !bool_decide_eq_false_2 by done. simpl.
    rewrite lookup_insert_ne by congruence.
    rewrite !lookup_insert_eq. simpl. by rewrite Heq.
Qed.

Lemma lost_update_detail u1 u2 now1 now2 tid type b st1 st2 t1 t2 :
  uid u1 ≠ uid u2 →
  TicketDetail.s_voting st1 = false →
  TicketDetail.s_ticket st1 = Some t1 →
  tickets (db b) !! tid = Some (data t1) →
  TicketDetail.s_userVote st1 = None →
  TicketDetail.s_voting st2 = false →
  TicketDetail.s_ticket st2 = Some t2 →
  tickets (db b) !! tid = Some (data t2) →
  TicketDetail.s_userVote st2 = None →
  let w1 := exec (TicketDetail.handleVote (Some u1) now1 tid type) (b, st1) in
  let w2 := exec (TicketDetail.handleVote (Some u2) now2 tid type) (fst w1, st2) in
  votes (db (fst w2)) !! (tid, uid u1) = Some {| v_type := type; v_createdAt := now1 |} ∧
  votes (db (fst w2)) !! (tid, uid u2) = Some {| v_type := type; v_createdAt := now2 |} ∧
  (count type <$> tickets (db (fst w2)) !! tid) = Some (count type (data t1) + 1).
Proof.
  intros Hne Hv1 Hf1 Hd1 Hc1 Hv2 Hf2 Hd2 Hc2 w1 w2. subst w1 w2.
  assert (data t2 = data t1) as Heq by congruence.
  rewrite (handleVote_detail_run u1 now1 tid type b st1 t1 (data t1) Hv1 Hf1 Hd1).
  rewrite Hc1. cbv zeta. unfold counts_after at 1.
  rewrite !bool_decide_eq_false_2 by done.
  destruct type; simpl.
  - erewrite handleVote_detail_run; [|exact Hv2|exact Hf2|apply lookup_insert_eq].
    rewrite Hc2. cbv zeta. unfold counts_after.
    rewrite !bool_decide_eq_false_2 by done. simpl.
    rewrite lookup_insert_ne by congruence.
    rewrite !lookup_insert_eq. simpl. by rewrite Heq.
  - erewrite handleVote_detail_run; [|exact Hv2|exact Hf2|apply lookup_insert_eq].
    rewrite Hc2. cbv zeta. unfold counts_after.
    rewrite !bool_decide_eq_false_2 by done. simpl.
    rewrite lookup_insert_ne by congruence.
    rewrite !lookup_insert_eq. simpl. by rewrite Heq.
Qed.

(** X10. Two voters who both loaded a ticket before either voted, and
    then each cast a first vote of the same kind from their own component,
    leave two vote records but a count that went up by one only: the
    second vote is computed from the count the second component loaded
    and overwrites the first one's. *)
Theorem two_first_votes_count_once :
  (∀ u1 u2 now1 now2 tid type b st1 st2 t1 t2,
     uid u1 ≠ uid u2 →
     tid ∉ TicketList.s_votingTickets st1 →
     find_ticket tid (TicketList.s_tickets st1) = Some t1 →
     tickets (db b) !! tid = Some (data t1) →
     TicketList.currentVote_of st1 tid = None →
     tid ∉ TicketList.s_votingTickets st2 →
     find_ticket tid (TicketList.s_tickets st2) = Some t2 →
     tickets (db b) !! tid = Some (data t2) →
     TicketList.currentVote_of st2 tid = None →
     let w1 := exec (TicketList.handleVote (Some u1) now1 tid type) (b, st1) in
     let w2 := exec (TicketList.handleVote (Some u2) now2 tid type) (fst w1, st2) in
     votes (db (fst w2)) !! (tid, uid u1)
       = Some {| v_type := type; v_createdAt := now1 |} ∧
     votes (db (fst w2)) !! (tid, uid u2)
       = Some {| v_type := type; v_createdAt := now2 |} ∧
     (count type <$> tickets (db (fst w2)) !! tid) = Some (count type (data t1) + 1)) ∧
  (∀ u1 u2 now1 now2 tid type b st1 st2 t1 t2,
     uid u1 ≠ uid u2 →
     TicketDetail.s_voting st1 = false →
     TicketDetail.s_ticket st1 = Some t1 →
     tickets (db b) !! tid = Some (data t1) →
     TicketDetail.s_userVote st1 = None →
     TicketDetail.s_voting st2 = false →
     TicketDetail.s_ticket st2 = Some t2 →
     tickets (db b) !! tid = Some (data t2) →
     TicketDetail.s_userVote st2 = None →
     let w1 := exec (TicketDetail.handleVote (Some u1) now1 tid type) (b, st1) in
     let w2 := exec (TicketDetail.handleVote (Some u2) now2 tid type) (fst w1, st2) in
     votes (db (fst w2)) !! (tid, uid u1)
       = Some {| v_type := type; v_createdAt := now1 |} ∧
     votes (db (fst w2)) !! (tid, uid u2)
       = Some {| v_type := type; v_createdAt := now2 |} ∧
     (count type <$> tickets (db (fst w2)) !! tid) = Some (count type (data t1) + 1)).
Proof.
  split; intros.
  - by eapply lost_update_list.
  - by eapply lost_update_detail.
Qed.

Lemma state_eta_detail (st : TicketDetail.State) :
  {| TicketDetail.s_ticket := TicketDetail.s_ticket st;
     TicketDetail.s_userVote := TicketDetail.s_userVote st;
     TicketDetail.s_voting := TicketDetail.s_voting st |} = st.
Proof. by destruct st. Qed.

(** What a vote does when the write of the counts is turned down. *)
Lemma handleVote_list_rejected u now tid type b st ticket :
  tid ∉ TicketList.s_votingTickets st →
  find_ticket tid (TicketList.s_tickets st) = Some ticket →
  tickets (db b) !! tid = None →
  TicketList.handleVote (Some u) now tid type (b, st) =
  let cur := TicketList.currentVote_of st tid in
  (({| db := set_votes
               (if bool_decide (cur = Some type)
                then delete (tid, uid u) (votes (db b))
                else <[(tid, uid u) := {| v_type := type; v_createdAt := now |}]>
                       (votes (db b)))
               (db b);
       outbox := outbox b; dispatched := dispatched b |},
    {| TicketList.s_tickets := TicketList.s_tickets st;
       TicketList.s_userVotes :=
         <[tid := if bool_decide (cur = Some type) then None else Some type]>
           (TicketList.s_userVotes st);
       TicketList.s_votingTickets := TicketList.s_votingTickets st |}),
   Returned tt).
Proof.
  intros Hv Hf Hd. unfold TicketList.handleVote. run_async.
  rewrite bool_decide_eq_false_2 by done. rewrite Hf.
  destruct (bool_decide _).
  - unfold deleteDoc_votes, updateDoc_tickets, update_in. run_async.
    destruct type; simpl; rewrite Hd; simpl;
      unfold TicketList.setVotingTickets, TicketList.setUserVotes; simpl;
      by rewrite (voting_restored _ _ Hv).
  - unfold setDoc_votes, updateDoc_tickets, update_in. run_async.
    destruct (TicketList.currentVote_of st tid) as [[]|], type;
      simpl; rewrite Hd; simpl;
      unfold TicketList.setVotingTickets, TicketList.setUserVotes; simpl;
      by rewrite (voting_restored _ _ Hv).
Qed.

Lemma handleVote_detail_rejected u now tid type b st ticket :
  TicketDetail.s_voting st = false →
  TicketDetail.s_ticket st = Some ticket →
  tickets (db b) !! tid = None →
  TicketDetail.handleVote (Some u) now tid type (b, st) =
  let cur := TicketDetail.s_userVote st in
  (({| db := set_votes
               (if bool_decide (cur = Some type)
                then delete (tid, uid u) (votes (db b))
                else <[(tid, uid u) := {| v_type := type; v_createdAt := now |}]>
                       (votes (db b)))
               (db b);
       outbox := outbox b; dispatched := dispatched b |},
    {| TicketDetail.s_ticket := Some ticket;
       TicketDetail.s_userVote :=
         if bool_decide (cur = Some type) then None else Some type;
       TicketDetail.s_voting := false |}),
   Returned tt).
Proof.
  intros Hv Hf Hd. unfold TicketDetail.handleVote. run_async. rewrite Hf, Hv.
  destruct (bool_decide _).
  - unfold deleteDoc_votes, updateDoc_tickets, update_in. run_async.
    destruct type; simpl; rewrite Hd; simpl;
      unfold TicketDetail.setVoting, TicketDetail.setUserVote; simpl;
      by rewrite Hf.
  - unfold setDoc_votes, updateDoc_tickets, update_in. run_async.
    destruct (TicketDetail.s_userVote st) as [[]|], type;
      simpl; rewrite Hd; simpl;
      unfold TicketDetail.setVoting, TicketDetail.setUserVote; simpl;
      by rewrite Hf.
Qed.

(** X11. When the write of the counts is turned down (the ticket is shown
    by the component but has no document), a vote in either component
    still returns normally, and the write to the vote record that came
    first stays: the voter's record is created (or deleted, for a
    toggle-off) and the component shows the new vote, while no count
    changes in the store or in the component. *)
Theorem rejected_count_update_keeps_vote_write :
  (∀ u now tid type b st ticket,
     tid ∉ TicketList.s_votingTickets st →
     find_ticket tid (TicketList.s_tickets st) = Some ticket →
     tickets (db b) !! tid = None →
     TicketList.currentVote_of st tid ≠ Some type →
     ∃ b' st',
       TicketList.handleVote (Some u) now tid type (b, st) = ((b', st'), Returned tt) ∧
       votes (db b') !! (tid, uid u) = Some {| v_type := type; v_createdAt := now |} ∧
       TicketList.currentVote_of st' tid = Some type ∧
       tickets (db b') = tickets (db b) ∧
       TicketList.s_tickets st' = TicketList.s_tickets st) ∧
  (∀ u now tid type b st ticket,
     TicketDetail.s_voting st = false →
     TicketDetail.s_ticket st = Some ticket →
     tickets (db b) !! tid = None →
     TicketDetail.s_userVote st ≠ Some type →
     ∃ b' st',
       TicketDetail.handleVote (Some u) now tid type (b, st) = ((b', st'), Returned tt) ∧
       votes (db b') !! (tid, uid u) = Some {| v_type := type; v_createdAt := now |} ∧
       TicketDetail.s_userVote st' = Some type ∧
       tickets (db b') = tickets (db b) ∧
       TicketDetail.s_ticket st' = TicketDetail.s_ticket st).
Proof.
  split.
  - intros u now tid type b st ticket Hv Hf Hd Hcur.
    rewrite (handleVote_list_rejected u now tid type b st ticket Hv Hf Hd). cbv zeta.
    rewrite !bool_decide_eq_false_2 by done.
    eexists _, _. split; [reflexivity|]. simpl.
    unfold TicketList.currentVote_of. simpl. by rewrite !lookup_insert_eq.
  - intros u now tid type b st ticket Hv Hf Hd Hcur.
    rewrite (handleVote_detail_rejected u now tid type b st ticket Hv Hf Hd). cbv zeta.
    rewrite !bool_decide_eq_false_2 by done.
    eexists _, _. split; [reflexivity|]. simpl. by rewrite lookup_insert_eq.
Qed.

(** X12. Whatever its outcome, a vote releases the in-flight mark it
    took: the set of tickets with a vote in flight (in the list) and the
    voting flag (in the detail view) are, when the handler returns, what
    they were when it was called. *)
Theorem vote_releases_its_mark :
  (∀ user now tid type b st,
     TicketList.s_votingTickets
       (snd (exec (TicketList.handleVote user now tid type) (b, st)))
     = TicketList.s_votingTickets st) ∧
  (∀ user now tid type b st,
     TicketDetail.s_voting
       (snd (exec (TicketDetail.handleVote user now tid type) (b, st)))
     = TicketDetail.s_voting st).
Proof.
  split.
  - intros user now tid type b st.
    destruct user as [u|]; [|done].
    destruct (decide (tid ∈ TicketList.s_votingTickets st)) as [Hv|Hv].
    { unfold TicketList.handleVote. run_async. by rewrite bool_decide_eq_true_2. }
    destruct (find_ticket tid (TicketList.s_tickets st)) as [ticket|] eqn:Hf; cycle 1.
    { unfold exec. by rewrite handleVote_list_unlisted. }
    destruct (tickets (db b) !! tid) as [d|] eqn:Hd.
    + rewrite (handleVote_list_run u now tid type b st ticket d Hv Hf Hd). cbv zeta.
      destruct (counts_after _ _ _ _) as [nu nd]. simpl. by apply voting_restored.
    + unfold exec. by rewrite (handleVote_list_rejected u now tid type b st ticket).
  - intros user now tid type b st.
    destruct (TicketDetail.s_ticket st) as [ticket|] eqn:Hf; cycle 1.
    { unfold TicketDetail.handleVote. run_async. by rewrite Hf. }
    destruct user as [u|]; cycle 1.
    { unfold TicketDetail.handleVote. run_async. by rewrite Hf. }
    destruct (TicketDetail.s_voting st) eqn:Hv.
    { unfold TicketDetail.handleVote. run_async. by rewrite Hf, Hv. }
    destruct (tickets (db b) !! tid) as [d|] eqn:Hd.
    + rewrite (handleVote_detail_run u now tid type b st ticket d Hv Hf Hd). cbv zeta.
      by destruct (counts_after _ _ _ _) as [nu nd].
    + unfold exec. by rewrite (handleVote_detail_rejected u now tid type b st ticket).
Qed.

(** ** Loading the ticket list *)

Lemma fetched_votes_fold (reachable : string → bool) fs u ids (acc : gmap string (option VoteType)) tid :
  List.fold_left
    (fun (acc : gmap string (option VoteType)) ticketId =>
       <[ticketId :=
           if reachable ticketId
           then match votes fs !! (ticketId, uid u) with
                | Some voteData => Some (v_type voteData)
                | None => None
                end
           else None]> acc)
    ids acc !! tid =
  if decide (tid ∈ ids)
  then Some (if reachable tid then v_type <$> votes fs !! (tid, uid u) else None)
  else acc !! tid.
Proof.
  revert acc. induction ids as [|i ids IH]; intros acc; cbn [List.fold_left].
  - destruct (decide (tid ∈ [])) as [Hin|_]; [|done]. by apply elem_of_nil in Hin.
  - rewrite IH. destruct (decide (tid ∈ ids)) as [Hin|Hin].
    + destruct (decide (tid ∈ i :: ids)) as [_|Hn]; [done|].
      exfalso. apply Hn, elem_of_cons. by right.
    + destruct (decide (tid = i)) as [->|Hne].
      * destruct (decide (i ∈ i :: ids)) as [_|Hn].
        -- rewrite lookup_insert_eq. by destruct (votes fs !! _).
        -- exfalso. apply Hn, elem_of_cons. by left.
      * destruct (decide (tid ∈ i :: ids)) as [Hc|_].
        -- apply elem_of_cons in Hc as [?|?]; done.
        -- by rewrite lookup_insert_ne.
Qed.

Lemma fetched_votes_lookup (reachable : string → bool) fs u ids tid :
  TicketListPage.fetched_votes reachable fs u ids !! tid =
  if decide (tid ∈ ids)
  then Some (if reachable tid then v_type <$> votes fs !! (tid, uid u) else None)
  else None.
Proof.
  unfold TicketListPage.fetched_votes. rewrite fetched_votes_fold.
  by destruct (decide _).
Qed.

Lemma fetchTickets_reset_run reachable u docs b st :
  exec (TicketListPage.fetchTickets reachable (Some u) (Some docs) true) (b, st) =
  let shown :=
    if TicketListPage.s_showMyTicketsOnly st
    then List.filter (fun ticket => String.eqb (t_userId (data ticket)) (uid u)) docs
    else docs in
  (b,
   {| TicketListPage.s_votes :=
        {| TicketList.s_tickets := shown;
           TicketList.s_userVotes :=
             TicketListPage.fetched_votes reachable (db b) u (List.map id shown)
             ∪ TicketList.s_userVotes (TicketListPage.s_votes st);
           TicketList.s_votingTickets :=
             TicketList.s_votingTickets (TicketListPage.s_votes st) |};
      TicketListPage.s_loading := false;
      TicketListPage.s_lastDoc := last docs;
      TicketListPage.s_hasMore :=
        Z.eqb (Z.of_nat (length docs)) TicketListPage.itemsPerPage;
      TicketListPage.s_totalItems := Z.of_nat (length shown);
      TicketListPage.s_currentPage := TicketListPage.s_currentPage st;
      TicketListPage.s_showMyTicketsOnly := TicketListPage.s_showMyTicketsOnly st |}).
Proof. reflexivity. Qed.

Lemma fetchTickets_reset_total reachable user docs b st :
  let w := exec (TicketListPage.fetchTickets reachable user (Some docs) true) (b, st) in
  fst w = b ∧
  TicketListPage.s_loading (snd w) = false ∧
  TicketListPage.s_currentPage (snd w) = TicketListPage.s_currentPage st ∧
  0 <= TicketListPage.s_totalItems (snd w) <= Z.of_nat (length docs).
Proof.
  unfold TicketListPage.fetchTickets. run_async.
  destruct user as [u|]; simpl; (split; [done|split; [done|split; [done|]]]).
  - destruct (TicketListPage.s_showMyTicketsOnly st); [|lia].
    pose proof (List.filter_length_le
      (fun ticket => String.eqb (t_userId (data ticket)) (uid u)) docs). lia.
  - destruct (TicketListPage.s_showMyTicketsOnly st); lia.
Qed.

Lemma Math_ceil_div_small n : 0 <= n <= 10 → Math_ceil_div n 10 <= 1.
Proof.
  intros H. unfold Math_ceil_div.
  assert (-1 <= (- n) / 10) by (apply Z.div_le_lower_bound; lia). lia.
Qed.

Lemma on_votes_run {A} (m : Async (Backend * TicketList.State) A) b st :
  exec (TicketListPage.on_votes m) (b, st) =
  (fst (exec m (b, TicketListPage.s_votes st)),
   TicketListPage.setVotes (fun _ => snd (exec m (b, TicketListPage.s_votes st))) st).
Proof.
  unfold exec, TicketListPage.on_votes.
  by destruct (m (b, TicketListPage.s_votes st)) as [[b' v'] c].
Qed.

Lemma elem_of_map_id tid (l : list Ticket) t : In t l → id t = tid → tid ∈ List.map id l.
Proof.
  intros Hin <-. apply list_elem_of_In, in_map, Hin.
Qed.

(** X13. Whatever page is asked for, once the list has been fetched again
    the current page is 1 and, the query being limited to ten documents,
    the total page count passed to [Pagination] is at most 1, so the page
    navigation is not rendered; the store is not written. *)
Theorem page_change_hides_navigation reachable user docs page b st :
  Z.of_nat (length docs) <= TicketListPage.itemsPerPage →
  let w := exec (TicketListPage.handlePageChange reachable user (Some docs) page) (b, st) in
  fst w = b ∧
  TicketListPage.s_currentPage (snd w) = 1 ∧
  TicketListPage.s_loading (snd w) = false ∧
  Pagination.rendered (TicketListPage.totalPages (snd w)) = false.
Proof.
  intros Hlen w. subst w.
  unfold TicketListPage.handlePageChange.
  set (st1 := TicketListPage.setLastDoc None
                (TicketListPage.setCurrentPage 1
                   (TicketListPage.setCurrentPage page st))).
  assert (Hrun : exec (TicketListPage.handlePageChange reachable user (Some docs) page) (b, st)
                 = exec (TicketListPage.fetchTickets reachable user (Some docs) true) (b, st1)).
  { unfold TicketListPage.handlePageChange, exec, bind, setState, modify. simpl. reflexivity. }
  unfold TicketListPage.handlePageChange in Hrun. rewrite Hrun.
  destruct (fetchTickets_reset_total reachable user docs b st1) as (Hb & Hl & Hp & Ht).
  split; [done|]. split; [by rewrite Hp|]. split; [done|].
  unfold Pagination.rendered, TicketListPage.totalPages.
  apply negb_false_iff, Z.leb_le, Math_ceil_div_small.
  unfold TicketListPage.itemsPerPage in *. lia.
Qed.

(** X14. A completed fetch with a signed-in user and successful reads
    leaves the list current: every listed ticket is one of the fetched
    ones, carries its stored document when the answer did, is shown with
    the user's stored vote, and with the option for own tickets set it is
    the user's; the tickets being voted on stay marked. *)
Theorem loaded_list_is_current reachable u docs b st tid ticket :
  (∀ t, In t docs → tickets (db b) !! id t = Some (data t)) →
  (∀ i, reachable i = true) →
  let w := exec (TicketListPage.fetchTickets reachable (Some u) (Some docs) true) (b, st) in
  let view := TicketListPage.s_votes (snd w) in
  find_ticket tid (TicketList.s_tickets view) = Some ticket →
  In ticket docs ∧
  tickets (db (fst w)) !! tid = Some (data ticket) ∧
  TicketList.currentVote_of view tid = (v_type <$> votes (db (fst w)) !! (tid, uid u)) ∧
  (TicketListPage.s_showMyTicketsOnly st = true → t_userId (data ticket) = uid u) ∧
  TicketList.s_votingTickets view = TicketList.s_votingTickets (TicketListPage.s_votes st).
Proof.
  intros Hdocs Hreach w view. subst view w.
  rewrite fetchTickets_reset_run. cbv zeta. simpl.
  set (shown := if TicketListPage.s_showMyTicketsOnly st then _ else docs).
  intros Hf. destruct (find_ticket_id _ _ _ Hf) as [Hid Hin].
  assert (Hsub : In ticket docs ∧
                 (TicketListPage.s_showMyTicketsOnly st = true →
                  t_userId (data ticket) = uid u)).
  { subst shown. destruct (TicketListPage.s_showMyTicketsOnly st).
    - apply filter_In in Hin as [Hin Hu]. split; [done|].
      intros _. by apply String.eqb_eq.
    - split; [done|]. discriminate. }
  destruct Hsub as [Hd Hmine].
  split; [done|]. split; [by rewrite <- Hid; apply Hdocs|].
  split; [|split; [done|done]].
  unfold TicketList.currentVote_of. simpl.
  rewrite lookup_union_l'.
  - rewrite fetched_votes_lookup.
    rewrite decide_True by (eapply elem_of_map_id; eauto).
    by rewrite Hreach.
  - rewrite fetched_votes_lookup.
    rewrite decide_True by (eapply elem_of_map_id; eauto). done.
Qed.

(** X15. Clicking the vote a user already holds takes it back only if the
    list could read that vote: after a fetch whose vote read succeeded the
    click removes the record and lowers the count (never below 0); after a
    fetch whose vote read failed the list shows no vote, and the same click
    writes the record again and raises the count by one more. *)
Theorem repeated_vote_counts_twice_after_failed_read
    reachable u now docs b st tid ticket v :
  tid ∉ TicketList.s_votingTickets (TicketListPage.s_votes st) →
  TicketListPage.s_showMyTicketsOnly st = false →
  find_ticket tid docs = Some ticket →
  tickets (db b) !! tid = Some (data ticket) →
  votes (db b) !! (tid, uid u) = Some v →
  let w := exec
    (TicketListPage.fetchTickets reachable (Some u) (Some docs) true;;;
     TicketListPage.on_votes (TicketList.handleVote (Some u) now tid (v_type v)))%async
    (b, st) in
  (reachable tid = true →
     votes (db (fst w)) !! (tid, uid u) = None ∧
     (count (v_type v) <$> tickets (db (fst w)) !! tid)
       = Some (Z.max 0 (count (v_type v) (data ticket) - 1))) ∧
  (reachable tid = false →
     votes (db (fst w)) !! (tid, uid u)
       = Some {| v_type := v_type v; v_createdAt := now |} ∧
     (count (v_type v) <$> tickets (db (fst w)) !! tid)
       = Some (count (v_type v) (data ticket) + 1)).
Proof.
  intros Hv Hall Hf Hd Hvote w.
  assert (Hw : w = exec (TicketListPage.on_votes
                           (TicketList.handleVote (Some u) now tid (v_type v)))
                        (exec (TicketListPage.fetchTickets reachable (Some u) (Some docs) true)
                              (b, st))).
  { subst w. unfold exec at 1 3, bind.
    rewrite (surjective_pairing (TicketListPage.fetchTickets _ _ _ _ _)).
    change (fst (TicketListPage.fetchTickets reachable (Some u) (Some docs) true (b, st)))
      with (exec (TicketListPage.fetchTickets reachable (Some u) (Some docs) true) (b, st)).
    rewrite fetchTickets_reset_run. reflexivity. }
  clearbody w. subst w.
  rewrite fetchTickets_reset_run. cbv zeta. rewrite Hall.
  rewrite on_votes_run. cbn [TicketListPage.s_votes fst snd].
  destruct (find_ticket_id _ _ _ Hf) as [Hid Hin].
  erewrite handleVote_list_run; [|exact Hv|exact Hf|exact Hd].
  cbv zeta.
  assert (Hcur : TicketList.currentVote_of
            {| TicketList.s_tickets := docs;
               TicketList.s_userVotes :=
                 TicketListPage.fetched_votes reachable (db b) u (List.map id docs)
                 ∪ TicketList.s_userVotes (TicketListPage.s_votes st);
               TicketList.s_votingTickets :=
                 TicketList.s_votingTickets (TicketListPage.s_votes st) |} tid
          = if reachable tid then Some (v_type v) else None).
  { unfold TicketList.currentVote_of. simpl.
    rewrite (lookup_union_Some_l _ _ _
      (if reachable tid then Some (v_type v) else None)); [done|].
    rewrite fetched_votes_lookup.
    rewrite decide_True by (eapply elem_of_map_id; eauto).
    by rewrite Hvote. }
  rewrite Hcur. clear Hcur.
  split; intros Hr; rewrite Hr; unfold counts_after.
  - rewrite bool_decide_eq_true_2 by done.
    destruct (v_type v); simpl; rewrite lookup_delete_eq, lookup_insert_eq; done.
  - rewrite bool_decide_eq_false_2 by done.
    destruct (v_type v); simpl; rewrite !lookup_insert_eq; done.
Qed.

(** ** Opening a ticket and replying *)

Lemma on_view_run {A} (m : Async (Backend * TicketDetail.State) A) b log st :
  exec (TicketDetailPage.on_view m) (b, (log, st)) =
  (fst (exec m (b, TicketDetailPage.s_view st)),
   (log, TicketDetailPage.setView
           (fun _ => snd (exec m (b, TicketDetailPage.s_view st))) st)).
Proof.
  unfold exec, TicketDetailPage.on_view.
  by destruct (m (b, TicketDetailPage.s_view st)) as [[b' v'] c].
Qed.

Lemma useEffect_run snapshot u tid b log st :
  TicketDetailPage.useEffect true true snapshot (Some u) tid (b, (log, st)) =
  ((b, (log,
    {| TicketDetailPage.s_view :=
         {| TicketDetail.s_ticket :=
              match tickets (db b) !! tid with
              | Some d => Some {| id := tid; data := d |}
              | None => TicketDetail.s_ticket (TicketDetailPage.s_view st)
              end;
            TicketDetail.s_userVote := v_type <$> votes (db b) !! (tid, uid u);
            TicketDetail.s_voting := TicketDetail.s_voting (TicketDetailPage.s_view st) |};
       TicketDetailPage.s_replies :=
         match snapshot with
         | Some docs => docs
         | None => TicketDetailPage.s_replies st
         end;
       TicketDetailPage.s_newReply := TicketDetailPage.s_newReply st;
       TicketDetailPage.s_loading := false;
       TicketDetailPage.s_submitting := TicketDetailPage.s_submitting st |})),
   Returned tt).
Proof.
  unfold TicketDetailPage.useEffect, TicketDetailPage.fetchTicketAndReplies,
    TicketDetailPage.fetchUserVote, TicketDetailPage.getDoc_tickets,
    TicketDetailPage.getDoc_votes, TicketDetailPage.getDocs_replies,
    TicketDetailPage.setPage.
  run_async.
  destruct (tickets (db b) !! tid) as [d|], snapshot as [docs|],
    (votes (db b) !! (tid, uid u)) as [v|]; reflexivity.
Qed.

(** X16. Opening a ticket with successful reads writes nothing and leaves
    the view current: the stored ticket under the opened id and the user's
    stored vote are shown, the busy flag is off, and the replies are those
    of the answer (the earlier ones if that query failed).  If no ticket
    is stored under the id, the ticket shown before stays. *)
Theorem opened_ticket_is_current snapshot u tid b log st :
  let w := exec (TicketDetailPage.useEffect true true snapshot (Some u) tid)
                (b, (log, st)) in
  let page := snd (snd w) in
  fst w = b ∧ fst (snd w) = log ∧
  TicketDetail.s_ticket (TicketDetailPage.s_view page)
    = match tickets (db b) !! tid with
      | Some d => Some {| id := tid; data := d |}
      | None => TicketDetail.s_ticket (TicketDetailPage.s_view st)
      end ∧
  TicketDetail.s_userVote (TicketDetailPage.s_view page)
    = (v_type <$> votes (db b) !! (tid, uid u)) ∧
  TicketDetailPage.s_loading page = false ∧
  TicketDetailPage.s_replies page = default (TicketDetailPage.s_replies st) snapshot.
Proof.
  intros w page. subst page w. unfold exec. rewrite useEffect_run. simpl.
  by destruct snapshot.
Qed.

(** X17. A user who opens a stored ticket they have not voted on and then
    votes twice the same way finds the store exactly as before and the
    ticket shown with its stored counts and no vote, whatever ticket the
    component showed earlier and even if the replies could not be read. *)
Theorem open_then_double_vote_restores u now1 now2 tid type snapshot d b log st :
  TicketDetail.s_voting (TicketDetailPage.s_view st) = false →
  tickets (db b) !! tid = Some d →
  0 <= count type d →
  votes (db b) !! (tid, uid u) = None →
  let w :=
    exec (TicketDetailPage.on_view (TicketDetail.handleVote (Some u) now2 tid type))
      (exec (TicketDetailPage.on_view (TicketDetail.handleVote (Some u) now1 tid type))
         (exec (TicketDetailPage.useEffect true true snapshot (Some u) tid)
               (b, (log, st)))) in
  fst w = b ∧
  TicketDetailPage.s_view (snd (snd w))
    = {| TicketDetail.s_ticket := Some {| id := tid; data := d |};
         TicketDetail.s_userVote := None;
         TicketDetail.s_voting := false |}.
Proof.
  intros Hv Hd Hc Hn w. subst w.
  set (v0 := {| TicketDetail.s_ticket := Some {| id := tid; data := d |};
                TicketDetail.s_userVote := None;
                TicketDetail.s_voting := false |}).
  destruct (double_toggle_detail u now1 now2 tid type b v0 {| id := tid; data := d |})
    as (_ & _ & Hb & Hs); try done.
  assert (E : ∃ page, TicketDetailPage.s_view page = v0 ∧
                exec (TicketDetailPage.useEffect true true snapshot (Some u) tid)
                     (b, (log, st)) = (b, (log, page))).
  { eexists. split; [|unfold exec; rewrite useEffect_run; reflexivity].
    simpl. by rewrite Hd, Hn, Hv. }
  destruct E as (page & Hpage & ->).
  rewrite !on_view_run. cbn [TicketDetailPage.s_view TicketDetailPage.setView fst snd].
  rewrite Hpage, <- surjective_pairing. split; [exact Hb|exact Hs].
Qed.

Lemma sendTicketReplyNotification_no_recipient {St : Type} this srv data replyFrom b
    (st : St) :
  d_userEmail data = EmptyString →
  ∃ r emailData,
    e_to emailData = EmptyString ∧
    sendTicketReplyNotification this srv data replyFrom (b, st)
    = (({| db := db b; outbox := outbox b;
           dispatched := dispatched b ++ [emailData] |}, st), Returned r).
Proof.
  intros Hto. unfold sendTicketReplyNotification.
  match goal with
  | |- context [sendEmail this srv ?e] =>
      destruct (sendEmail_no_recipient this srv e b st Hto) as (r & ->);
      by exists r, e
  end.
Qed.

(** A reply that is blank once trimmed, a reply without a signed-in
    user and a reply while no ticket is shown are dropped: nothing is
    stored, no mail is built and the component's state is untouched. *)
Lemma blank_reply_is_dropped this srv user profile userRole now tid b log st :
  trim (TicketDetailPage.s_newReply st) = EmptyString ∨ user = None ∨
  TicketDetail.s_ticket (TicketDetailPage.s_view st) = None →
  TicketDetailPage.handleSubmitReply this srv user profile userRole now tid (b, (log, st))
  = ((b, (log, st)), Returned tt).
Proof.
  intros H. unfold TicketDetailPage.handleSubmitReply, TicketDetailPage.renderPage.
  run_async.
  destruct (String.eqb_spec (trim (TicketDetailPage.s_newReply st)) EmptyString)
    as [_|Hne]; [done|].
  destruct H as [H|[->|H]]; [done| |].
  - done.
  - rewrite H. by destruct user.
Qed.

(** A reply with text, sent by a signed-in user on a shown ticket, is
    stored exactly once under the opened ticket, with the text as typed
    (not trimmed), and no document of the store changes, so the ticket's
    reply count stays as it was.  No mail is ever handed to the provider:
    only a reply from support builds one, and it has no recipient.  The
    typed text is cleared, a refresh has started and the submit flag is
    off again. *)
Lemma reply_is_stored_and_mails_nobody
    this srv u profile userRole now tid ticket b log st :
  trim (TicketDetailPage.s_newReply st) ≠ EmptyString →
  TicketDetail.s_ticket (TicketDetailPage.s_view st) = Some ticket →
  let w := exec (TicketDetailPage.handleSubmitReply this srv (Some u) profile userRole
                   now tid) (b, (log, st)) in
  fst (snd w) = log ++ [(tid, {| TicketDetailPage.rp_content := TicketDetailPage.s_newReply st;
                                 TicketDetailPage.rp_userId := uid u;
                                 TicketDetailPage.rp_userName :=
                                   str_or (p_name <$> profile) "User";
                                 TicketDetailPage.rp_createdAt := now |})] ∧
  db (fst w) = db b ∧
  outbox (fst w) = outbox b ∧
  (if TicketDetailPage.from_support userRole
   then ∃ mail, dispatched (fst w) = dispatched b ++ [mail] ∧ e_to mail = EmptyString
   else dispatched (fst w) = dispatched b) ∧
  snd (snd w) = {| TicketDetailPage.s_view := TicketDetailPage.s_view st;
                   TicketDetailPage.s_replies := TicketDetailPage.s_replies st;
                   TicketDetailPage.s_newReply := EmptyString;
                   TicketDetailPage.s_loading := true;
                   TicketDetailPage.s_submitting := false |}.
Proof.
  intros Hne Ht w. subst w.
  unfold TicketDetailPage.handleSubmitReply, TicketDetailPage.renderPage,
    TicketDetailPage.addDoc_replies, TicketDetailPage.setPage.
  run_async. rewrite Ht.
  destruct (String.eqb_spec (trim (TicketDetailPage.s_newReply st)) EmptyString)
    as [E|_]; [done|].
  simpl. destruct (TicketDetailPage.from_support userRole).
  - match goal with
    | |- context [@sendTicketReplyNotification ?St0 this srv ?data ?from ?s] =>
        destruct (sendTicketReplyNotification_no_recipient this srv data from
                    (fst s) (snd s) eq_refl) as (r & mail & Hto & E);
        set (sent := @sendTicketReplyNotification St0 this srv data from s) in *
    end.
    change (sent = (({| db := db b; outbox := outbox b;
                        dispatched := dispatched b ++ [mail] |},
                     (log ++ [(tid, {| TicketDetailPage.rp_content :=
                                         TicketDetailPage.s_newReply st;
                                       TicketDetailPage.rp_userId := uid u;
                                       TicketDetailPage.rp_userName :=
                                         str_or (p_name <$> profile) "User";
                                       TicketDetailPage.rp_createdAt := now |})],
                      TicketDetailPage.setSubmitting true st)), Returned r)) in E.
    clearbody sent. subst sent. simpl.
    split; [done|]. split; [done|]. split; [done|]. split; [by exists mail|done].
  - simpl. split; [done|]. split; [done|]. split; [done|]. split; done.
Qed.

(** X18. A reply that is blank once trimmed, a reply without a signed-in
    user and a reply while no ticket is shown are dropped: nothing is
    stored, no mail is built and the component's state is untouched.  A
    reply with text, sent by a signed-in user on a shown ticket, is stored
    exactly once under the opened ticket, with the text as typed (not
    trimmed), and no document of the store changes, so the ticket's reply
    count stays as it was; no mail is handed to the provider, since only a
    reply from support builds one and it has no recipient; the typed text
    is cleared, a refresh has started and the submit flag is off again. *)
Theorem reply_is_dropped_or_stored :
  (∀ this srv user profile userRole now tid b log st,
     trim (TicketDetailPage.s_newReply st) = EmptyString ∨ user = None ∨
     TicketDetail.s_ticket (TicketDetailPage.s_view st) = None →
     TicketDetailPage.handleSubmitReply this srv user profile userRole now tid
       (b, (log, st))
     = ((b, (log, st)), Returned tt)) ∧
  (∀ this srv u profile userRole now tid ticket b log st,
     trim (TicketDetailPage.s_newReply st) ≠ EmptyString →
     TicketDetail.s_ticket (TicketDetailPage.s_view st) = Some ticket →
     let w := exec (TicketDetailPage.handleSubmitReply this srv (Some u) profile userRole
                      now tid) (b, (log, st)) in
     fst (snd w)
       = log ++ [(tid, {| TicketDetailPage.rp_content := TicketDetailPage.s_newReply st;
                          TicketDetailPage.rp_userId := uid u;
                          TicketDetailPage.rp_userName :=
                            str_or (p_name <$> profile) "User";
                          TicketDetailPage.rp_createdAt := now |})] ∧
     db (fst w) = db b ∧
     outbox (fst w) = outbox b ∧
     (if TicketDetailPage.from_support userRole
      then ∃ mail, dispatched (fst w) = dispatched b ++ [mail] ∧ e_to mail = EmptyString
      else dispatched (fst w) = dispatched b) ∧
     snd (snd w) = {| TicketDetailPage.s_view := TicketDetailPage.s_view st;
                      TicketDetailPage.s_replies := TicketDetailPage.s_replies st;
                      TicketDetailPage.s_newReply := EmptyString;
                      TicketDetailPage.s_loading := true;
                      TicketDetailPage.s_submitting := false |}).
Proof.
  split.
  - exact blank_reply_is_dropped.
  - exact reply_is_stored_and_mails_nobody.
Qed.

(** ** The admin panel's requests *)

Lemma find_by_key {A} (key : A → string) (l : list A) k x :
  NoDup (List.map key l) →
  List.find (fun y => String.eqb (key y) k) l = Some x ↔ In x l ∧ key x = k.
Proof.
  intros Hnd. split.
  - intros H. apply find_some in H as [Hin Hk]. by apply String.eqb_eq in Hk.
  - intros [Hin Hk]. induction l as [|y l IH]; [done|]. simpl.
    apply NoDup_cons in Hnd as [Hy Hnd]. destruct Hin as [->|Hin].
    + by rewrite Hk, String.eqb_refl.
    + destruct (String.eqb_spec (key y) k) as [E|_]; [|by apply IH].
      exfalso. apply Hy. rewrite E, <- Hk. apply list_elem_of_In, in_map, Hin.
Qed.

Lemma find_pending fs requestId request :
  List.find (fun r => String.eqb (AdminPanel.rid r) requestId)
            (AdminPanelData.pending_requests fs) = Some request
  ↔ AdminPanel.rid request = requestId ∧
    roleUpgradeRequests fs !! requestId = Some (AdminPanel.rdata request) ∧
    r_status (AdminPanel.rdata request) = pending.
Proof.
  unfold AdminPanelData.pending_requests.
  rewrite (find_by_key AdminPanel.rid).
  - rewrite in_map_iff. split.
    + intros [([k d] & <- & Hin) Hk]. simpl in *. subst k.
      apply filter_In in Hin as [Hin Hp]. simpl in Hp.
      apply list_elem_of_In, elem_of_map_to_list in Hin.
      split; [done|]. split; [done|]. by destruct (r_status d).
    + intros (Hk & Hs & Hp). split; [|done].
      exists (requestId, AdminPanel.rdata request). split.
      * destruct request. simpl in *. by subst.
      * apply filter_In. split.
        -- by apply list_elem_of_In, elem_of_map_to_list.
        -- simpl. by rewrite Hp.
  - rewrite List.map_map. simpl.
    assert (Hnd := NoDup_fst_map_to_list (roleUpgradeRequests fs)).
    revert Hnd. generalize (map_to_list (roleUpgradeRequests fs)).
    intros l Hnd. induction l as [|[k d] l IH]; simpl; [constructor|].
    apply NoDup_cons in Hnd as [Hk Hnd].
    destruct (r_status d); simpl; try by apply IH.
    apply NoDup_cons. split; [|by apply IH].
    intros Hin. apply Hk. apply list_elem_of_In in Hin.
    apply in_map_iff in Hin as ([k' d'] & <- & Hin).
    apply filter_In in Hin as [Hin _].
    apply list_elem_of_In. apply (in_map fst) in Hin. exact Hin.
Qed.

Lemma handleRoleRequest_unlisted requestId action b st :
  List.find (fun r => String.eqb (AdminPanel.rid r) requestId)
            (AdminPanel.s_roleRequests st) = None →
  AdminPanel.handleRoleRequest requestId action (b, st) = ((b, st), Returned tt).
Proof.
  intros Hf. unfold AdminPanel.handleRoleRequest. run_async. by rewrite Hf.
Qed.

Lemma fetchData_run b st :
  exec (AdminPanelData.fetchData true) (b, st)
  = (b, {| AdminPanel.s_roleRequests := AdminPanelData.pending_requests (db b);
           AdminPanel.s_loading := false |}).
Proof. reflexivity. Qed.

(** X19. A refresh of the admin panel writes nothing and switches the
    loading flag off; a refresh whose reads succeed lists under an id
    exactly the stored request of that id when it is pending, and a
    refresh whose read fails keeps the earlier list. *)
Theorem refreshed_panel_lists_pending_requests b st :
  (let w := exec (AdminPanelData.fetchData true) (b, st) in
   fst w = b ∧ AdminPanel.s_loading (snd w) = false ∧
   ∀ requestId request,
     List.find (fun r => String.eqb (AdminPanel.rid r) requestId)
               (AdminPanel.s_roleRequests (snd w)) = Some request
     ↔ AdminPanel.rid request = requestId ∧
       roleUpgradeRequests (db b) !! requestId = Some (AdminPanel.rdata request) ∧
       r_status (AdminPanel.rdata request) = pending) ∧
  exec (AdminPanelData.fetchData false) (b, st) = (b, AdminPanel.setLoading false st).
Proof.
  split; [|reflexivity].
  rewrite fetchData_run. simpl. split; [done|]. split; [done|].
  intros requestId request. apply find_pending.
Qed.

(** X20. A request that was approved or rejected cannot be resolved a
    second time from a refreshed panel: after the refresh it is no longer
    listed, and either action on it leaves the store as the first
    resolution left it. *)
Theorem resolved_request_is_settled requestId action1 action2 b st request profile :
  List.find (fun r => String.eqb (AdminPanel.rid r) requestId)
            (AdminPanel.s_roleRequests st) = Some request →
  roleUpgradeRequests (db b) !! requestId = Some (AdminPanel.rdata request) →
  users (db b) !! r_userId (AdminPanel.rdata request) = Some profile →
  let w1 := exec (AdminPanel.handleRoleRequest requestId action1) (b, st) in
  let w2 := exec (AdminPanelData.fetchData true) w1 in
  let w3 := exec (AdminPanel.handleRoleRequest requestId action2) w2 in
  (r_status <$> roleUpgradeRequests (db (fst w1)) !! requestId)
    = Some (match action1 with
            | AdminPanel.approve => approved
            | AdminPanel.reject => rejected
            end) ∧
  List.find (fun r => String.eqb (AdminPanel.rid r) requestId)
            (AdminPanel.s_roleRequests (snd w2)) = None ∧
  fst w3 = fst w1.
Proof.
  intros Hf Hr Hu w1 w2 w3.
  assert (Hs : (r_status <$> roleUpgradeRequests (db (fst w1)) !! requestId)
               = Some (match action1 with
                       | AdminPanel.approve => approved
                       | AdminPanel.reject => rejected
                       end)).
  { subst w1. destruct action1.
    - rewrite (handleRoleRequest_approve _ _ _ _ _ Hf Hr Hu). simpl.
      by rewrite lookup_insert_eq.
    - rewrite (handleRoleRequest_reject _ _ _ _ Hf Hr). simpl.
      by rewrite lookup_insert_eq. }
  assert (Hnone : List.find (fun r => String.eqb (AdminPanel.rid r) requestId)
                    (AdminPanel.s_roleRequests (snd w2)) = None).
  { subst w2. destruct w1 as [b1 st1]. rewrite fetchData_run. simpl in *.
    match goal with |- ?found = None => destruct found as [r|] eqn:E; [|done] end.
    apply find_pending in E as (_ & Hst & Hp).
    rewrite Hst in Hs. simpl in Hs. rewrite Hp in Hs. by destruct action1. }
  split; [done|]. split; [done|].
  subst w3. destruct w2 as [b2 st2] eqn:E2. simpl in Hnone.
  unfold exec at 1. rewrite (handleRoleRequest_unlisted _ _ _ _ Hnone). simpl.
  subst w2. destruct w1 as [b1 st1]. rewrite fetchData_run in E2. by inversion E2.
Qed.

(** Approval is two writes and not one: when the target profile does
    not exist nothing is written and the request stays as it was; when the
    profile exists but the request document is gone, the role is granted
    all the same and no request is marked.  In both cases the panel is not
    refreshed. *)
Lemma approval_is_not_atomic requestId b st request :
  List.find (fun r => String.eqb (AdminPanel.rid r) requestId)
            (AdminPanel.s_roleRequests st) = Some request →
  let w := exec (AdminPanel.handleRoleRequest requestId AdminPanel.approve) (b, st) in
  (users (db b) !! r_userId (AdminPanel.rdata request) = None → w = (b, st)) ∧
  (∀ profile,
     users (db b) !! r_userId (AdminPanel.rdata request) = Some profile →
     roleUpgradeRequests (db b) !! requestId = None →
     users (db (fst w))
       = <[r_userId (AdminPanel.rdata request) :=
             with_role (r_requestedRole (AdminPanel.rdata request)) profile]>
           (users (db b)) ∧
     roleUpgradeRequests (db (fst w)) = roleUpgradeRequests (db b) ∧
     snd w = st).
Proof.
  intros Hf w. subst w.
  unfold AdminPanel.handleRoleRequest, AdminPanel.fetchData, updateDoc_users,
    updateDoc_roleUpgradeRequests, update_in.
  run_async. rewrite Hf. simpl. split.
  - intros Hu. by rewrite Hu.
  - intros profile Hu Hr. rewrite Hu. simpl. by rewrite Hr.
Qed.

(** The handler trusts the panel's copy of a request and never looks
    at the stored status: from a panel that still lists a request, approval
    grants the role named in the listed copy to the user named there and
    marks the stored request approved, whatever status the store held,
    rejected included. *)
Lemma stale_panel_still_approves requestId b st request stored profile :
  List.find (fun r => String.eqb (AdminPanel.rid r) requestId)
            (AdminPanel.s_roleRequests st) = Some request →
  roleUpgradeRequests (db b) !! requestId = Some stored →
  users (db b) !! r_userId (AdminPanel.rdata request) = Some profile →
  let w := exec (AdminPanel.handleRoleRequest requestId AdminPanel.approve) (b, st) in
  users (db (fst w)) !! r_userId (AdminPanel.rdata request)
    = Some (with_role (r_requestedRole (AdminPanel.rdata request)) profile) ∧
  roleUpgradeRequests (db (fst w)) !! requestId
    = Some (with_request_status approved stored) ∧
  AdminPanel.s_loading (snd w) = true.
Proof.
  intros Hf Hr Hu w. subst w.
  unfold AdminPanel.handleRoleRequest, AdminPanel.fetchData, updateDoc_users,
    updateDoc_roleUpgradeRequests, update_in.
  run_async. rewrite Hf. simpl. rewrite Hu. simpl. rewrite Hr. simpl.
  by rewrite !lookup_insert_eq.
Qed.

(** X21. Approval is two writes that check nothing.  When the target
    profile does not exist nothing is written and the request stays as it
    was; when the profile exists but the request document is gone, the
    role is granted all the same and no request is marked; in both cases
    the panel is not refreshed.  And the stored status is never looked at:
    from a panel that still lists a request, approval grants the role
    named in the listed copy to the user named there and marks the stored
    request approved, whatever status the store held, rejected included. *)
Theorem approval_is_two_unchecked_writes requestId b st request :
  List.find (fun r => String.eqb (AdminPanel.rid r) requestId)
            (AdminPanel.s_roleRequests st) = Some request →
  let w := exec (AdminPanel.handleRoleRequest requestId AdminPanel.approve) (b, st) in
  let target := r_userId (AdminPanel.rdata request) in
  let granted := with_role (r_requestedRole (AdminPanel.rdata request)) in
  (users (db b) !! target = None → w = (b, st)) ∧
  (∀ profile,
     users (db b) !! target = Some profile →
     roleUpgradeRequests (db b) !! requestId = None →
     users (db (fst w)) = <[target := granted profile]> (users (db b)) ∧
     roleUpgradeRequests (db (fst w)) = roleUpgradeRequests (db b) ∧
     snd w = st) ∧
  (∀ profile stored,
     users (db b) !! target = Some profile →
     roleUpgradeRequests (db b) !! requestId = Some stored →
     users (db (fst w)) !! target = Some (granted profile) ∧
     roleUpgradeRequests (db (fst w)) !! requestId
       = Some (with_request_status approved stored) ∧
     AdminPanel.s_loading (snd w) = true).
Proof.
  intros Hf w target granted.
  destruct (approval_is_not_atomic requestId b st request Hf) as [Hnone Hgone].
  split; [exact Hnone|]. split; [exact Hgone|].
  intros profile stored Hu Hr.
  exact (stale_panel_still_approves requestId b st request stored profile Hf Hr Hu).
Qed.

(** ** The support dashboard's lists *)

Lemma on_dash_run {A} (m : Async (Backend * SupportAgentDashboard.State) A) b st :
  exec (SupportAgentDashboardData.on_dash m) (b, st) =
  (fst (exec m (b, SupportAgentDashboardData.s_dash st)),
   SupportAgentDashboardData.setDash
     (fun _ => snd (exec m (b, SupportAgentDashboardData.s_dash st))) st).
Proof.
  unfold exec, SupportAgentDashboardData.on_dash.
  by destruct (m (b, SupportAgentDashboardData.s_dash st)) as [[b' v'] c].
Qed.

Lemma fetchTickets_dash_run user docs b st :
  exec (SupportAgentDashboardData.fetchTickets user (Some docs)) (b, st)
  = (b, {| SupportAgentDashboardData.s_dash :=
             {| SupportAgentDashboard.s_tickets := docs;
                SupportAgentDashboard.s_loading := false |};
           SupportAgentDashboardData.s_myTickets :=
             List.filter (SupportAgentDashboardData.assigned_to user) docs |}).
Proof. reflexivity. Qed.

(** X22. A ticket an agent assigns to themselves shows up among their own
    tickets at the next load that returns it as stored: in progress,
    carrying the agent's id and name, offering the status select and, the
    agent's id not being empty, no assign button.  The load itself writes
    nothing. *)
Theorem assigned_ticket_joins_my_tickets this srv u p now tid d docs b st :
  tickets (db b) !! tid = Some d →
  uid u ≠ EmptyString →
  let w1 := exec (SupportAgentDashboardData.on_dash
                    (SupportAgentDashboard.handleAssignTicket this srv (Some u) (Some p)
                       now tid)) (b, st) in
  (∀ t, In t docs → tickets (db (fst w1)) !! id t = Some (data t)) →
  (∃ t, In t docs ∧ id t = tid) →
  let w2 := exec (SupportAgentDashboardData.fetchTickets (Some u) (Some docs)) w1 in
  let mine := {| id := tid;
                 data := with_assignment (uid u) (p_name p) "in-progress" d |} in
  fst w2 = fst w1 ∧
  In mine (SupportAgentDashboardData.s_myTickets (snd w2)) ∧
  SupportAgentDashboardData.offers_status (Some u) mine = true ∧
  SupportAgentDashboardData.offers_assign mine = false.
Proof.
  intros Hd Hu w1 Hdocs (t & Hin & Hid) w2 mine.
  assert (Hoff : SupportAgentDashboardData.offers_status (Some u) mine = true).
  { unfold SupportAgentDashboardData.offers_status,
      SupportAgentDashboardData.assigned_to. simpl. by apply bool_decide_eq_true_2. }
  assert (Hstored : tickets (db (fst w1)) !! tid = Some (data mine)).
  { subst w1. rewrite on_dash_run. cbn [fst].
    destruct (handleAssignTicket_run this srv u p now tid b
                (SupportAgentDashboardData.s_dash st) d Hd)
      as (b1 & notes & mails & -> & Hdb & _).
    cbn [fst]. rewrite Hdb. simpl. apply lookup_insert_eq. }
  assert (Ht : t = mine).
  { specialize (Hdocs t Hin). rewrite Hid, Hstored in Hdocs.
    destruct t as [i dt]. simpl in *. subst i. by inversion Hdocs. }
  subst w2. destruct w1 as [b1 st1]. rewrite fetchTickets_dash_run. cbn [fst snd].
  split; [done|]. split; [|split; [done|]].
  - simpl. apply filter_In. split; [by rewrite <- Ht|exact Hoff].
  - unfold SupportAgentDashboardData.offers_assign, str_truthy. simpl.
    destruct (String.eqb_spec (uid u) EmptyString); done.
Qed.

(** X23. For a viewer who is not signed in, [user?.uid] is undefined and
    equals a missing assignee: the load puts exactly the unassigned
    tickets under the viewer's own tickets, and each of them offers both
    the assign button and the status select.  For a signed-in agent with a
    non-empty id no ticket offers both. *)
Theorem signed_out_viewer_owns_unassigned_tickets docs b st t :
  let w := exec (SupportAgentDashboardData.fetchTickets None (Some docs)) (b, st) in
  (In t (SupportAgentDashboardData.s_myTickets (snd w))
   ↔ In t docs ∧ t_assignedTo (data t) = None) ∧
  (t_assignedTo (data t) = None →
   SupportAgentDashboardData.offers_assign t = true ∧
   SupportAgentDashboardData.offers_status None t = true) ∧
  (∀ u, uid u ≠ EmptyString →
        SupportAgentDashboardData.offers_assign t = true →
        SupportAgentDashboardData.offers_status (Some u) t = false).
Proof.
  intros w. subst w. rewrite fetchTickets_dash_run. cbn [snd].
  split; [|split].
  - simpl. rewrite filter_In.
    unfold SupportAgentDashboardData.assigned_to. simpl.
    by rewrite bool_decide_eq_true.
  - intros Hn. unfold SupportAgentDashboardData.offers_assign,
      SupportAgentDashboardData.offers_status, SupportAgentDashboardData.assigned_to.
    rewrite Hn. done.
  - intros u Hu. unfold SupportAgentDashboardData.offers_assign,
      SupportAgentDashboardData.offers_status, SupportAgentDashboardData.assigned_to,
      str_truthy.
    simpl. destruct (t_assignedTo (data t)) as [a|]; [|done].
    destruct (String.eqb_spec a EmptyString) as [->|]; [|done].
    intros _. apply bool_decide_eq_false_2. intros E. inversion E. by apply Hu.
Qed.

(** X24. A status update or an assignment for a ticket the store does not
    hold changes nothing at all, even when the dashboard still lists the
    ticket: the rejected write skips the notification, the mail and the
    refresh.  An assignment without a signed-in user or a loaded profile
    does nothing either. *)
Theorem update_of_missing_ticket_changes_nothing
    this srv user profile now tid newStatus b st :
  (tickets (db b) !! tid = None →
   exec (SupportAgentDashboard.handleUpdateStatus this srv now tid newStatus) (b, st)
     = (b, st) ∧
   exec (SupportAgentDashboard.handleAssignTicket this srv user profile now tid) (b, st)
     = (b, st)) ∧
  (user = None ∨ profile = None →
   exec (SupportAgentDashboard.handleAssignTicket this srv user profile now tid) (b, st)
     = (b, st)).
Proof.
  split.
  - intros Hd. split.
    + unfold SupportAgentDashboard.handleUpdateStatus, updateDoc_tickets, update_in.
      run_async. by rewrite Hd.
    + unfold SupportAgentDashboard.handleAssignTicket, updateDoc_tickets, update_in.
      destruct user as [u|], profile as [p|]; run_async; try done. by rewrite Hd.
  - intros [->| ->]; unfold SupportAgentDashboard.handleAssignTicket.
    + done.
    + by destruct user.
Qed.

(** ** Notifications of a new ticket *)

Lemma addDoc_notifications_all_log l b st :
  ∃ b', AskQuestionForm.addDoc_notifications_all l (b, st) = ((b', st), Returned tt) ∧
        notifications (db b') = notifications (db b) ++ l.
Proof.
  revert b. induction l as [|n l IH]; intros b; simpl.
  - eexists. split; [reflexivity|]. by rewrite app_nil_r.
  - unfold addDoc_notifications. run_async.
    destruct (IH (with_db
      (fun fs => set_notifications (notifications fs ++ [n]) fs) b)) as (b' & -> & Hn).
    eexists. split; [reflexivity|]. rewrite Hn. simpl. by rewrite <- app_assoc.
Qed.

Lemma onSubmit_notifications this srv u profile now newId data b st :
  notifications (db (fst (exec (AskQuestionForm.onSubmit this srv (Some u) profile now
                                  newId data) (b, st))))
  = notifications (db b) ++
    List.map (fun '(supportId, _) =>
                {| n_userId := supportId;
                   n_type := "ticket_created";
                   n_title := "New Ticket Created";
                   n_message := "New ticket " +:+ dq +:+ AskQuestionForm.f_title data +:+ dq
                                +:+ " created by " +:+ interpolate (p_name <$> profile);
                   n_ticketId := newId;
                   n_createdAt := now;
                   n_read := false |})
      (List.filter
         (fun '(_, d) =>
            match u_role d with
            | Some r => bool_decide (r ∈ ["support-agent"; "admin"])
            | None => false
            end)
         (map_to_list (users (db b)))).
Proof.
  unfold AskQuestionForm.onSubmit, addDoc_tickets, AskQuestionForm.getDocs_users_role_in.
  run_async.
  match goal with
  | |- context [sendTicketCreatedNotification this srv ?data ?s] =>
      destruct (sendTicketCreatedNotification_run this srv data (fst s) (snd s))
        as (sent & r & e & Hrun & Hto)
  end.
  simpl in Hrun. rewrite Hrun. simpl.
  match goal with
  | |- context [AskQuestionForm.addDoc_notifications_all ?l (?b', ?st')] =>
      destruct (addDoc_notifications_all_log l b' st') as (b'' & -> & Hn)
  end.
  simpl. exact Hn.
Qed.

(** X25. A ticket submitted by a signed-in user adds, after the
    notifications already stored, exactly one unread notification for
    every user whose stored role is support-agent or admin (the submitter
    included, if they are one) and none for anybody else, each pointing at
    the new ticket; users without a stored role get none.  Without a loaded
    profile the message names its author as undefined. *)
Theorem new_ticket_notifies_support_staff this srv u profile now newId data b st :
  let w := exec (AskQuestionForm.onSubmit this srv (Some u) profile now newId data)
                (b, st) in
  ∃ added,
    notifications (db (fst w)) = notifications (db b) ++ added ∧
    NoDup (n_userId <$> added) ∧
    (∀ i, i ∈ (n_userId <$> added)
          ↔ ∃ d, users (db b) !! i = Some d ∧
                 (u_role d = Some "support-agent" ∨ u_role d = Some "admin")) ∧
    Forall (fun n =>
              n_ticketId n = newId ∧ n_read n = false ∧ n_type n = "ticket_created" ∧
              n_message n
                = "New ticket " +:+ dq +:+ AskQuestionForm.f_title data +:+ dq
                  +:+ " created by "
                  +:+ match profile with
                      | Some p => p_name p
                      | None => "undefined"
                      end) added.
Proof.
  intros w. subst w. rewrite onSubmit_notifications.
  eexists. split; [reflexivity|].
  assert (Hnd := NoDup_fst_map_to_list (users (db b))).
  assert (Hel := fun i d => elem_of_map_to_list (users (db b)) i d).
  revert Hnd Hel. generalize (map_to_list (users (db b))). intros l Hnd Hel.
  set (staff := fun '((_, d) : string * UserDoc) =>
                  match u_role d with
                  | Some r => bool_decide (r ∈ ["support-agent"; "admin"])
                  | None => false
                  end).
  assert (Hids : ∀ (f : string * UserDoc → NotificationDoc),
            (∀ kd, n_userId (f kd) = fst kd) →
            n_userId <$> List.map f (List.filter staff l)
            = fst <$> List.filter staff l).
  { intros f Hf. induction (List.filter staff l) as [|kd l' IH]; [done|].
    cbn. f_equal; [apply Hf|exact IH]. }
  split; [|split].
  - rewrite Hids by (by intros [i d]).
    clear Hel Hids. induction l as [|[k d] l IH]; [constructor|].
    rewrite fmap_cons in Hnd. apply NoDup_cons in Hnd as [Hk Hnd].
    cbn [List.filter]. destruct (staff (k, d)); [|by apply IH].
    rewrite fmap_cons. apply NoDup_cons. split; [|by apply IH].
    intros Hin. apply Hk. apply list_elem_of_fmap in Hin as ([k' d'] & -> & Hin).
    apply list_elem_of_In, filter_In in Hin as [Hin _].
    apply list_elem_of_fmap. exists (k', d'). split; [done|]. by apply list_elem_of_In.
  - intros i. rewrite Hids by (by intros [i' d]). rewrite list_elem_of_fmap. split.
    + intros ([k d] & -> & Hin). apply list_elem_of_In, filter_In in Hin as [Hin Hs].
      exists d. split; [by apply Hel, list_elem_of_In|].
      unfold staff in Hs. destruct (u_role d) as [r|]; [|done].
      apply bool_decide_eq_true in Hs.
      apply elem_of_cons in Hs as [->|Hs]; [by left|].
      apply elem_of_cons in Hs as [->|Hs]; [by right|].
      by apply elem_of_nil in Hs.
    + intros (d & Hd & Hr). exists (i, d). split; [done|].
      apply list_elem_of_In, filter_In. split; [by apply list_elem_of_In, Hel|].
      unfold staff. destruct Hr as [-> | ->]; apply bool_decide_eq_true_2.
      * apply elem_of_cons. by left.
      * apply elem_of_cons. right. apply elem_of_cons. by left.
  - apply Forall_forall. intros n Hin.
    apply list_elem_of_In, in_map_iff in Hin as ([k d] & <- & _). simpl.
    by destruct profile.
Qed.

(** ** Navigation *)

Lemma navigate_keeps (P : Dashboard.View → Prop) userRole presses view :
  P view →
  (∀ v button, P v → Header.shown v userRole button = true → P (Header.onClick button)) →
  P (Header.navigate userRole view presses).
Proof.
  intros Hv Hstep. revert view Hv.
  induction presses as [|button rest IH]; intros view Hv; simpl; [done|].
  apply IH. destruct (Header.shown view userRole button) eqn:E; [|done].
  by eapply Hstep.
Qed.

Lemma title_names_the_screen view role :
  (Dashboard.renderView view role = Dashboard.AdminPanel_screen
   ↔ Header.getPageTitle view role = "Admin Panel" ∨
     Header.getPageTitle view role = "Admin Dashboard") ∧
  (Dashboard.renderView view role = Dashboard.SupportAgentDashboard_screen
   ↔ Header.getPageTitle view role = "Support Agent Dashboard" ∨
     Header.getPageTitle view role = "Support Dashboard") ∧
  (Dashboard.renderView view role = Dashboard.TicketList_screen
   ↔ Header.getPageTitle view role = "Dashboard").
Proof.
  destruct view; simpl;
    try (destruct (String.eqb role "support-agent"), (String.eqb role "admin"));
    (split; [|split]); split; try done; try (by intros [?|?]); try (by left);
    try (by right).
Qed.

(** X26. Starting from the dashboard view, whatever buttons are pressed, a
    user whose role is not admin never gets the admin panel, and a user
    whose role is neither support-agent nor admin never gets the support
    dashboard.  The guard is in the buttons alone: [renderView] itself
    returns the admin panel for the admin view whatever the role.  In
    every view the title of the header names the screen rendered: an admin
    title goes with the admin panel, a support title with the support
    dashboard, and the plain title with the ticket list. *)
Theorem buttons_keep_roles_out userRole presses :
  userRole ≠ "admin" →
  let view := Header.navigate userRole Dashboard.dashboard presses in
  Dashboard.renderView view userRole ≠ Dashboard.AdminPanel_screen ∧
  (userRole ≠ "support-agent" →
   Dashboard.renderView view userRole ≠ Dashboard.SupportAgentDashboard_screen) ∧
  (∀ role, Dashboard.renderView Dashboard.admin role = Dashboard.AdminPanel_screen) ∧
  (∀ v role,
     (Dashboard.renderView v role = Dashboard.AdminPanel_screen
      ↔ Header.getPageTitle v role = "Admin Panel" ∨
        Header.getPageTitle v role = "Admin Dashboard") ∧
     (Dashboard.renderView v role = Dashboard.SupportAgentDashboard_screen
      ↔ Header.getPageTitle v role = "Support Agent Dashboard" ∨
        Header.getPageTitle v role = "Support Dashboard") ∧
     (Dashboard.renderView v role = Dashboard.TicketList_screen
      ↔ Header.getPageTitle v role = "Dashboard")).
Proof.
  intros Hadmin view.
  assert (Ha : String.eqb userRole "admin" = false) by by apply String.eqb_neq.
  split; [|split; [|split; [done|exact title_names_the_screen]]].
  - assert (Hv : view ≠ Dashboard.admin).
    { subst view. apply navigate_keeps; [done|].
      intros v button _ Hs. destruct button; try done.
      unfold Header.shown, Header.canAccessAdmin in Hs. by rewrite Ha in Hs. }
    destruct view; try done. simpl. rewrite Ha.
    by destruct (String.eqb userRole "support-agent").
  - intros Hsup.
    assert (Hs' : String.eqb userRole "support-agent" = false) by by apply String.eqb_neq.
    assert (Hv : view ≠ Dashboard.support).
    { subst view. apply navigate_keeps; [done|].
      intros v button _ Hs. destruct button; try done.
      unfold Header.shown, Header.canAccessSupport in Hs. by rewrite Ha, Hs' in Hs. }
    destruct view; try done; simpl; by rewrite ?Ha, ?Hs'.
Qed.

(** ** Notifications *)

Lemma onSnapshot_fold docs acc count :
  List.fold_left
    (fun '(allNotifications, unreadCount) doc =>
       let notification := NotificationSystem.of_doc doc in
       (allNotifications ++ [notification],
        if negb (NotificationSystem.read notification)
        then unreadCount + 1 else unreadCount))
    docs (acc, count)
  = (acc ++ List.map NotificationSystem.of_doc docs,
     count + Z.of_nat (length (List.filter
                                 (fun notif => negb (NotificationSystem.read notif))
                                 (List.map NotificationSystem.of_doc docs)))).
Proof.
  revert acc count. induction docs as [|doc docs IH]; intros acc count.
  - simpl. by rewrite app_nil_r, Z.add_0_r.
  - cbn [List.fold_left List.map List.filter]. rewrite IH, <- app_assoc. f_equal.
    destruct (negb (NotificationSystem.read (NotificationSystem.of_doc doc)));
      cbn [length]; lia.
Qed.

Lemma insert_newest_perm a l :
  NotificationSystem.insert_newest a l ≡ₚ a :: l.
Proof.
  induction l as [|b l IH]; simpl; [done|].
  destruct (Z.leb _ _); [done|]. rewrite IH. apply Permutation_swap.
Qed.

Lemma sort_newest_first_perm l : NotificationSystem.sort_newest_first l ≡ₚ l.
Proof.
  induction l as [|a l IH]; simpl; [done|].
  rewrite insert_newest_perm. by rewrite IH.
Qed.

Lemma insert_newest_sorted a l :
  StronglySorted (fun x y => NotificationSystem.createdAt y <= NotificationSystem.createdAt x) l →
  StronglySorted (fun x y => NotificationSystem.createdAt y <= NotificationSystem.createdAt x)
                 (NotificationSystem.insert_newest a l).
Proof.
  induction l as [|b l IH]; intros Hs; simpl.
  - repeat constructor.
  - apply StronglySorted_inv in Hs as [Hl Hb].
    destruct (Z.leb_spec (NotificationSystem.createdAt b) (NotificationSystem.createdAt a))
      as [Hle|Hlt].
    + constructor; [by constructor|]. constructor; [done|].
      eapply Forall_impl; [exact Hb|]. simpl. intros. lia.
    + constructor; [by apply IH|].
      eapply Permutation_Forall; [symmetry; apply insert_newest_perm|].
      constructor; [lia|done].
Qed.

Lemma sort_newest_first_sorted l :
  StronglySorted (fun x y => NotificationSystem.createdAt y <= NotificationSystem.createdAt x)
                 (NotificationSystem.sort_newest_first l).
Proof.
  induction l as [|a l IH]; simpl; [constructor|]. by apply insert_newest_sorted.
Qed.

Lemma filter_length_perm {A} (f : A → bool) (l l' : list A) :
  l ≡ₚ l' → length (List.filter f l) = length (List.filter f l').
Proof.
  induction 1; simpl; try done.
  - destruct (f x); simpl; by rewrite ?IHPermutation.
  - by destruct (f x), (f y).
  - congruence.
Qed.

(** X27. Whatever the component held before, after a snapshot it shows the
    notifications of the snapshot, each once, the newest first, with the
    number of unread ones among them as the unread count, and it is no
    longer loading. *)
Theorem snapshot_is_shown_newest_first docs st :
  let st' := NotificationSystem.onSnapshot_next docs st in
  NotificationSystem.s_notifications st' ≡ₚ List.map NotificationSystem.of_doc docs ∧
  StronglySorted
    (fun x y => NotificationSystem.createdAt y <= NotificationSystem.createdAt x)
    (NotificationSystem.s_notifications st') ∧
  NotificationSystem.s_unreadCount st' = NotificationSystem.unread_shown st' ∧
  NotificationSystem.s_unreadCount st'
    = Z.of_nat (length (List.filter (fun doc => negb (n_read (snd doc))) docs)) ∧
  NotificationSystem.s_loading st' = false.
Proof.
  intros st'. subst st'. unfold NotificationSystem.onSnapshot_next.
  rewrite onSnapshot_fold. simpl.
  split; [apply sort_newest_first_perm|]. split; [apply sort_newest_first_sorted|].
  split; [|split; [|done]].
  - unfold NotificationSystem.unread_shown. simpl. rewrite Z.add_0_l. f_equal.
    symmetry. apply filter_length_perm, sort_newest_first_perm.
  - rewrite Z.add_0_l. f_equal. induction docs as [|doc docs IH]; [done|]. simpl.
    rewrite orb_false_r. destruct (n_read (snd doc)); simpl; by rewrite IH.
Qed.






(** ** The profile the components work with *)

Lemma str_or_nonempty a b : b ≠ EmptyString → str_or a b ≠ EmptyString.
Proof.
  intros Hb. unfold str_or. destruct a as [s|]; [|done].
  by destruct (String.eqb_spec s EmptyString).
Qed.

Lemma fallback_name_nonempty u : useUserProfile.fallback_name u ≠ EmptyString.
Proof.
  unfold useUserProfile.fallback_name. by do 2 apply str_or_nonempty.
Qed.

(** X30. Loading the profile never writes to the store, not even when the
    user has no document, and always ends the loading.  For a signed-in
    user the profile it leaves has a name, a role and a language that are
    not empty, carries the e-mail address of the account and not the
    stored one, and takes a non-empty stored role as it is when the read
    succeeds; the role the dashboard works with is the profile's.  For no
    user it leaves no profile. *)
Theorem loaded_profile_is_complete online user b st :
  let w := exec (useUserProfile.loadProfile online user) (b, st) in
  fst w = b ∧
  useUserProfile.s_loading (snd w) = false ∧
  match user with
  | None => useUserProfile.s_profile (snd w) = None
  | Some u =>
      ∃ p, useUserProfile.s_profile (snd w) = Some p ∧
           p_name p ≠ EmptyString ∧ p_role p ≠ EmptyString ∧
           p_language p ≠ EmptyString ∧
           p_email p = default EmptyString (email u) ∧
           Dashboard.userRole (Some p) = p_role p ∧
           (∀ d r, online = true → users (db b) !! uid u = Some d →
                   u_role d = Some r → r ≠ EmptyString → p_role p = r)
  end.
Proof.
  intros w. subst w.
  assert (He : ∀ u, str_or (email u) EmptyString = default EmptyString (email u)).
  { intros u. unfold str_or. destruct (email u) as [s|]; [|done]. simpl.
    by destruct (String.eqb_spec s EmptyString). }
  assert (Hrole : ∀ r, r ≠ EmptyString → str_or (Some r) "end-user" = r).
  { intros r Hr. unfold str_or. by destruct (String.eqb_spec r EmptyString). }
  unfold useUserProfile.loadProfile, useUserProfile.getDoc_users. run_async.
  destruct user as [u|]; [|done].
  destruct online; simpl; [destruct (users (db b) !! uid u) as [d|] eqn:Hd; simpl|].
  - split; [done|]. split; [done|]. eexists. split; [reflexivity|]. simpl.
    split; [apply str_or_nonempty, fallback_name_nonempty|].
    split; [by apply str_or_nonempty|]. split; [by apply str_or_nonempty|].
    split; [apply He|]. split.
    + unfold Dashboard.userRole. simpl. apply Hrole. by apply str_or_nonempty.
    + intros d' r _ [= <-] Hr Hne. rewrite Hr. by apply Hrole.
  - split; [done|]. split; [done|]. eexists. split; [reflexivity|]. simpl.
    split; [apply fallback_name_nonempty|]. do 2 (split; [done|]).
    split; [apply He|]. split; [done|]. intros d r _ [=].
  - split; [done|]. split; [done|]. eexists. split; [reflexivity|]. simpl.
    split; [apply fallback_name_nonempty|]. do 2 (split; [done|]).
    split; [apply He|]. split; [done|]. intros d r [=].
Qed.

(** ** Instances of these properties *)

Lemma page_list_shows_pages_and_gaps_witness :
  Pagination.Page 7 ∈ Pagination.getPageNumbers 5 10 ∧
  (Pagination.Page 8 ∉ Pagination.getPageNumbers 5 10) ∧
  Pagination.Dots ∈ Pagination.getPageNumbers 5 10.
Proof.
  destruct (page_list_shows_pages_and_gaps 5 10) as (Hpages & _ & Hdots); [lia|].
  split; [|split].
  - apply Hpages. lia.
  - intros H. apply Hpages in H. lia.
  - apply Hdots. exists 8. split; [lia|]. intros H. apply Hpages in H. lia.
Defined.

Lemma pagination_stays_in_range_witness :
  (∀ n, n ∈ Pagination.requests 3 4 → 1 <= n <= 4) ∧
  Pagination.endItem 3 10 25 - Pagination.startItem 3 10 + 1 <= 10.
Proof.
  split.
  - intros n. apply (proj1 pagination_stays_in_range 3 4 n). lia.
  - destruct (proj2 pagination_stays_in_range 3 10 25) as (_ & _ & _ & H & _);
      [lia|lia|lia|exact H].
Defined.

Lemma route_contract_witness :
  fst (POST Sample.server_on (Some Sample.request_complete) [])
  = [mail_of Sample.server_on Sample.request_complete].
Proof.
  apply (proj1 (route_contract Sample.server_on (Some Sample.request_complete) [])
           Sample.request_complete).
  - reflexivity.
  - split; [reflexivity|split; reflexivity].
  - split; reflexivity.
Defined.

Lemma sendEmail_end_to_end_witness :
  ∃ sent,
    sendEmail (new_EmailService Sample.env_on) Cases.server_without_key Sample.hello
      (Sample.world, tt)
    = (({| db := db Sample.world; outbox := sent;
           dispatched := dispatched Sample.world ++ [Sample.hello] |}, tt),
       Returned false).
Proof.
  destruct (sendEmail_end_to_end unit (new_EmailService Sample.env_on)
              Cases.server_without_key Sample.hello Sample.world tt
              Sample.request_complete eq_refl)
    as (r & sent & Hrun & Hr & _).
  exists sent. destruct r; [|exact Hrun].
  exfalso. destruct (proj1 Hr eq_refl) as [H|[H _]]; vm_compute in H; discriminate.
Defined.

Lemma created_ticket_mail_goes_to_support_witness :
  AskQuestionForm.s_left
    (snd (exec (AskQuestionForm.onSubmit (new_EmailService Sample.env_on) Sample.server_on
                  (Some Sample.ann) None 2000 "t9"
                  (AskQuestionForm.s_values
                     (Sample.form "VPN drops" "The VPN drops every hour" "technical")))
               (Sample.world,
                Sample.form "VPN drops" "The VPN drops every hour" "technical")))
  = true.
Proof.
  destruct (created_ticket_mail_goes_to_support (new_EmailService Sample.env_on)
              Sample.server_on Sample.ann None 2000 "t9"
              (AskQuestionForm.s_values
                 (Sample.form "VPN drops" "The VPN drops every hour" "technical"))
              Sample.world
              (Sample.form "VPN drops" "The VPN drops every hour" "technical"))
    as (_ & _ & Hleft & _).
  - reflexivity.
  - split; reflexivity.
  - exact Hleft.
Defined.

Lemma vote_keeps_counts_matching_records_witness :
  counts_match "t1"
    (db (fst (exec (TicketList.handleVote (Some Sample.bob) 2000 "t1" upvote)
                   (Cases.counted, Sample.list_view)))) ∧
  counts_match "t1"
    (db (fst (exec (TicketDetail.handleVote (Some Sample.ann) 2000 "t1" downvote)
                   (Cases.counted, Sample.detail_view)))).
Proof.
  split.
  - apply (proj1 vote_keeps_counts_matching_records Sample.bob 2000 "t1" upvote
             Cases.counted Sample.list_view Sample.printer_ticket).
    + apply not_elem_of_empty.
    + reflexivity.
    + reflexivity.
    + reflexivity.
    + split; vm_compute; reflexivity.
  - apply (proj2 vote_keeps_counts_matching_records Sample.ann 2000 "t1" downvote
             Cases.counted Sample.detail_view Sample.printer_ticket).
    + reflexivity.
    + reflexivity.
    + reflexivity.
    + reflexivity.
    + split; vm_compute; reflexivity.
Defined.

Lemma vote_touches_only_its_own_witness :
  votes (db (fst (exec (TicketList.handleVote (Some Sample.bob) 2000 "t1" upvote)
                       (Cases.counted, Sample.list_view)))) !! ("t1", "cat")
  = Some (Cases.vote_of upvote) ∧
  users (db (fst (exec (TicketDetail.handleVote (Some Sample.ann) 2000 "t1" downvote)
                       (Cases.counted, Sample.detail_view))))
  = users (db Cases.counted).
Proof.
  split.
  - destruct (proj1 vote_touches_only_its_own (Some Sample.bob) 2000 "t1" upvote
                Cases.counted Sample.list_view) as (Hvotes & _).
    rewrite (Hvotes ("t1", "cat")); [reflexivity|].
    intros u [= <-]. discriminate.
  - destruct (proj2 vote_touches_only_its_own (Some Sample.ann) 2000 "t1" downvote
                Cases.counted Sample.detail_view) as (_ & _ & Husers & _).
    exact Husers.
Defined.

Lemma vote_keeps_view_current_witness :
  TicketList.currentVote_of
    (snd (exec (TicketList.handleVote (Some Sample.bob) 2000 "t1" upvote)
               (Cases.counted, Sample.list_view))) "t1"
  = (v_type <$> votes (db (fst (exec (TicketList.handleVote (Some Sample.bob) 2000 "t1"
                                        upvote)
                                     (Cases.counted, Sample.list_view))))
                 !! ("t1", "bob")) ∧
  TicketDetail.s_voting
    (snd (exec (TicketDetail.handleVote (Some Sample.ann) 2000 "t1" downvote)
               (Cases.counted, Sample.detail_view))) = false.
Proof.
  split.
  - destruct (proj1 vote_keeps_view_current Sample.bob 2000 "t1" upvote
                Cases.counted Sample.list_view Sample.printer_ticket)
      as (_ & _ & Hcur).
    + apply not_elem_of_empty.
    + reflexivity.
    + reflexivity.
    + reflexivity.
    + exact Hcur.
  - destruct (proj2 vote_keeps_view_current Sample.ann 2000 "t1" downvote
                Cases.counted Sample.detail_view Sample.printer_ticket)
      as (Hvoting & _).
    + reflexivity.
    + reflexivity.
    + reflexivity.
    + reflexivity.
    + exact Hvoting.
Defined.

Lemma two_first_votes_count_once_witness :
  (count upvote <$>
     tickets (db (fst (exec (TicketList.handleVote (Some Sample.bob) 2001 "t1" upvote)
                            (fst (exec (TicketList.handleVote (Some Sample.ann) 2000 "t1"
                                          upvote)
                                       (Sample.world, Sample.list_view)),
                             Sample.list_view)))) !! "t1")
  = Some 4 ∧
  (count downvote <$>
     tickets (db (fst (exec (TicketDetail.handleVote (Some Sample.bob) 2001 "t1" downvote)
                            (fst (exec (TicketDetail.handleVote (Some Sample.ann) 2000
                                          "t1" downvote)
                                       (Sample.world, Sample.detail_view)),
                             Sample.detail_view)))) !! "t1")
  = Some 2.
Proof.
  split.
  - destruct (proj1 two_first_votes_count_once Sample.ann Sample.bob 2000 2001 "t1"
                upvote Sample.world Sample.list_view Sample.list_view
                Sample.printer_ticket Sample.printer_ticket) as (_ & _ & Hcount).
    + discriminate.
    + apply not_elem_of_empty.
    + reflexivity.
    + reflexivity.
    + reflexivity.
    + apply not_elem_of_empty.
    + reflexivity.
    + reflexivity.
    + reflexivity.
    + exact Hcount.
  - destruct (proj2 two_first_votes_count_once Sample.ann Sample.bob 2000 2001 "t1"
                downvote Sample.world Sample.detail_view Sample.detail_view
                Sample.printer_ticket Sample.printer_ticket) as (_ & _ & Hcount).
    + discriminate.
    + reflexivity.
    + reflexivity.
    + reflexivity.
    + reflexivity.
    + reflexivity.
    + reflexivity.
    + reflexivity.
    + reflexivity.
    + exact Hcount.
Defined.

Lemma rejected_count_update_keeps_vote_write_witness :
  (∃ b' st',
     TicketList.handleVote (Some Sample.bob) 2000 "t2" upvote
       (Sample.world, Cases.list_view_gone) = ((b', st'), Returned tt) ∧
     votes (db b') !! ("t2", "bob") = Some {| v_type := upvote; v_createdAt := 2000 |} ∧
     TicketList.currentVote_of st' "t2" = Some upvote ∧
     tickets (db b') = tickets (db Sample.world) ∧
     TicketList.s_tickets st' = TicketList.s_tickets Cases.list_view_gone) ∧
  (∃ b' st',
     TicketDetail.handleVote (Some Sample.bob) 2000 "t2" upvote
       (Sample.world, Cases.detail_view_gone) = ((b', st'), Returned tt) ∧
     votes (db b') !! ("t2", "bob") = Some {| v_type := upvote; v_createdAt := 2000 |} ∧
     TicketDetail.s_userVote st' = Some upvote ∧
     tickets (db b') = tickets (db Sample.world) ∧
     TicketDetail.s_ticket st' = TicketDetail.s_ticket Cases.detail_view_gone).
Proof.
  split.
  - apply (proj1 rejected_count_update_keeps_vote_write Sample.bob 2000 "t2" upvote
             Sample.world Cases.list_view_gone Cases.gone_ticket).
    + apply not_elem_of_empty.
    + reflexivity.
    + reflexivity.
    + discriminate.
  - apply (proj2 rejected_count_update_keeps_vote_write Sample.bob 2000 "t2" upvote
             Sample.world Cases.detail_view_gone Cases.gone_ticket).
    + reflexivity.
    + reflexivity.
    + reflexivity.
    + discriminate.
Defined.

Lemma page_change_hides_navigation_witness :
  Pagination.rendered
    (TicketListPage.totalPages
       (snd (exec (TicketListPage.handlePageChange Cases.all_reads (Some Sample.bob)
                     (Some [Sample.printer_ticket]) 3)
                  (Sample.world, Cases.list_page)))) = false.
Proof.
  destruct (page_change_hides_navigation Cases.all_reads (Some Sample.bob)
              [Sample.printer_ticket] 3 Sample.world Cases.list_page)
    as (_ & _ & _ & Hhidden).
  - vm_compute. discriminate.
  - exact Hhidden.
Defined.

Lemma loaded_list_is_current_witness :
  TicketList.currentVote_of
    (TicketListPage.s_votes
       (snd (exec (TicketListPage.fetchTickets Cases.all_reads (Some Sample.bob)
                     (Some [Sample.printer_ticket]) true)
                  (Sample.world_upvoted, Cases.list_page)))) "t1"
  = (v_type <$> votes (db Sample.world_upvoted) !! ("t1", "bob")).
Proof.
  destruct (loaded_list_is_current Cases.all_reads Sample.bob [Sample.printer_ticket]
              Sample.world_upvoted Cases.list_page "t1" Sample.printer_ticket)
    as (_ & _ & Hvote & _).
  - intros t [<-|[]]. reflexivity.
  - reflexivity.
  - reflexivity.
  - exact Hvote.
Defined.

Lemma repeated_vote_counts_twice_after_failed_read_witness :
  (count upvote <$>
     tickets (db (fst (exec
       (TicketListPage.fetchTickets Cases.no_reads (Some Sample.bob)
          (Some [Sample.printer_ticket]) true;;;
        TicketListPage.on_votes
          (TicketList.handleVote (Some Sample.bob) 2000 "t1" upvote))%async
       (Sample.world_upvoted, Cases.list_page)))) !! "t1")
  = Some 4.
Proof.
  destruct (repeated_vote_counts_twice_after_failed_read Cases.no_reads Sample.bob 2000
              [Sample.printer_ticket] Sample.world_upvoted Cases.list_page "t1"
              Sample.printer_ticket {| v_type := upvote; v_createdAt := 1200 |})
    as (_ & Hfailed).
  - apply not_elem_of_empty.
  - reflexivity.
  - reflexivity.
  - reflexivity.
  - reflexivity.
  - destruct Hfailed as (_ & Hcount); [reflexivity|]. exact Hcount.
Defined.

Lemma open_then_double_vote_restores_witness :
  fst (exec (TicketDetailPage.on_view
               (TicketDetail.handleVote (Some Sample.bob) 2001 "t1" upvote))
         (exec (TicketDetailPage.on_view
                  (TicketDetail.handleVote (Some Sample.bob) 2000 "t1" upvote))
            (exec (TicketDetailPage.useEffect true true None (Some Sample.bob) "t1")
                  (Sample.world, ([], Cases.detail_page EmptyString)))))
  = Sample.world.
Proof.
  destruct (open_then_double_vote_restores Sample.bob 2000 2001 "t1" upvote None
              Sample.printer Sample.world [] (Cases.detail_page EmptyString))
    as (Hstore & _).
  - reflexivity.
  - reflexivity.
  - simpl. lia.
  - reflexivity.
  - exact Hstore.
Defined.

Lemma reply_is_dropped_or_stored_witness :
  TicketDetailPage.handleSubmitReply (new_EmailService Sample.env_on) Sample.server_on
    (Some Sample.bob) (Some Sample.bob_profile) (Some "support-agent") 2000 "t1"
    (Sample.world, ([], Cases.detail_page Cases.blank))
  = ((Sample.world, ([], Cases.detail_page Cases.blank)), Returned tt) ∧
  outbox (fst (exec (TicketDetailPage.handleSubmitReply
                       (new_EmailService Sample.env_on) Sample.server_on
                       (Some Sample.bob) (Some Sample.bob_profile) (Some "support-agent")
                       2000 "t1")
                    (Sample.world, ([], Cases.detail_page " Restart it "))))
  = outbox Sample.world.
Proof.
  split.
  - apply (proj1 reply_is_dropped_or_stored). left. reflexivity.
  - destruct (proj2 reply_is_dropped_or_stored (new_EmailService Sample.env_on)
                Sample.server_on Sample.bob (Some Sample.bob_profile)
                (Some "support-agent") 2000 "t1" Sample.printer_ticket Sample.world []
                (Cases.detail_page " Restart it ")) as (_ & _ & Hout & _).
    + discriminate.
    + reflexivity.
    + exact Hout.
Defined.

Lemma resolved_request_is_settled_witness :
  fst (exec (AdminPanel.handleRoleRequest "r1" AdminPanel.approve)
         (exec (AdminPanelData.fetchData true)
            (exec (AdminPanel.handleRoleRequest "r1" AdminPanel.reject)
                  (Sample.world, Sample.panel))))
  = fst (exec (AdminPanel.handleRoleRequest "r1" AdminPanel.reject)
              (Sample.world, Sample.panel)).
Proof.
  destruct (resolved_request_is_settled "r1" AdminPanel.reject AdminPanel.approve
              Sample.world Sample.panel
              {| AdminPanel.rid := "r1"; AdminPanel.rdata := Sample.ann_request |}
              {| u_name := Some "Ann"; u_email := Some "ann@example.com";
                 u_role := None; u_categoryInterest := None; u_language := None |})
    as (_ & _ & Hsame).
  - reflexivity.
  - reflexivity.
  - reflexivity.
  - exact Hsame.
Defined.

Lemma approval_is_two_unchecked_writes_witness :
  (u_role <$> users (db (fst (exec (AdminPanel.handleRoleRequest "r1" AdminPanel.approve)
                                   (Cases.world_rejected, Sample.panel)))) !! "ann")
  = Some (Some "support-agent") ∧
  roleUpgradeRequests
    (db (fst (exec (AdminPanel.handleRoleRequest "r1" AdminPanel.approve)
                   (Cases.world_without_request, Sample.panel))))
  = ∅.
Proof.
  split.
  - destruct (approval_is_two_unchecked_writes "r1" Cases.world_rejected Sample.panel
                {| AdminPanel.rid := "r1"; AdminPanel.rdata := Sample.ann_request |})
      as (_ & _ & Hstale); [reflexivity|].
    destruct (Hstale {| u_name := Some "Ann"; u_email := Some "ann@example.com";
                        u_role := None; u_categoryInterest := None;
                        u_language := None |}
                     (with_request_status rejected Sample.ann_request))
      as (Hrole & _); [reflexivity|reflexivity|].
    exact (f_equal (fmap u_role) Hrole).
  - destruct (approval_is_two_unchecked_writes "r1" Cases.world_without_request
                Sample.panel
                {| AdminPanel.rid := "r1"; AdminPanel.rdata := Sample.ann_request |})
      as (_ & Hgone & _); [reflexivity|].
    destruct (Hgone {| u_name := Some "Ann"; u_email := Some "ann@example.com";
                       u_role := None; u_categoryInterest := None;
                       u_language := None |})
      as (_ & Hreq & _); [reflexivity|reflexivity|].
    exact Hreq.
Defined.

Lemma assigned_ticket_joins_my_tickets_witness :
  In Cases.taken_ticket
    (SupportAgentDashboardData.s_myTickets
       (snd (exec (SupportAgentDashboardData.fetchTickets (Some Sample.bob)
                     (Some [Cases.taken_ticket]))
                  (exec (SupportAgentDashboardData.on_dash
                           (SupportAgentDashboard.handleAssignTicket
                              (new_EmailService Sample.env_on) Sample.server_on
                              (Some Sample.bob) (Some Sample.bob_profile) 2000 "t1"))
                        (Sample.world, Cases.my_dashboard))))).
Proof.
  destruct (assigned_ticket_joins_my_tickets (new_EmailService Sample.env_on)
              Sample.server_on Sample.bob Sample.bob_profile 2000 "t1" Sample.printer
              [Cases.taken_ticket] Sample.world Cases.my_dashboard)
    as (_ & Hmine & _).
  - reflexivity.
  - discriminate.
  - intros t [<-|[]]. reflexivity.
  - exists Cases.taken_ticket. split; [by left|reflexivity].
  - exact Hmine.
Defined.

Lemma signed_out_viewer_owns_unassigned_tickets_witness :
  In Sample.printer_ticket
    (SupportAgentDashboardData.s_myTickets
       (snd (exec (SupportAgentDashboardData.fetchTickets None
                     (Some [Sample.printer_ticket; Cases.taken_ticket]))
                  (Sample.world, Cases.my_dashboard)))) ∧
  SupportAgentDashboardData.offers_status (Some Sample.bob) Sample.printer_ticket = false.
Proof.
  destruct (signed_out_viewer_owns_unassigned_tickets
              [Sample.printer_ticket; Cases.taken_ticket] Sample.world
              Cases.my_dashboard Sample.printer_ticket) as (Hmine & _ & Hexcl).
  split.
  - apply Hmine. split; [by left|reflexivity].
  - apply Hexcl; [discriminate|reflexivity].
Defined.

Lemma update_of_missing_ticket_changes_nothing_witness :
  exec (SupportAgentDashboard.handleUpdateStatus (new_EmailService Sample.env_on)
          Sample.server_on 2000 "t2" "resolved")
       (Sample.world, Sample.dashboard)
  = (Sample.world, Sample.dashboard).
Proof.
  destruct (update_of_missing_ticket_changes_nothing (new_EmailService Sample.env_on)
              Sample.server_on (Some Sample.bob) (Some Sample.bob_profile) 2000 "t2"
              "resolved" Sample.world Sample.dashboard) as (Hmissing & _).
  destruct Hmissing as (Hstatus & _); [reflexivity|]. exact Hstatus.
Defined.

Lemma buttons_keep_roles_out_witness :
  Dashboard.renderView
    (Header.navigate "end-user" Dashboard.dashboard
       [Header.Admin; Header.Support; Header.ProfileButton; Header.BackButton; Header.Admin])
    "end-user"
  ≠ Dashboard.AdminPanel_screen.
Proof.
  destruct (buttons_keep_roles_out "end-user"
              [Header.Admin; Header.Support; Header.ProfileButton; Header.BackButton;
               Header.Admin]) as (Hadmin & _).
  - discriminate.
  - exact Hadmin.
Defined.



Lemma loaded_profile_is_complete_witness :
  ∃ p, useUserProfile.s_profile
         (snd (exec (useUserProfile.loadProfile true (Some Sample.bob))
                    (Sample.world, Sample.profile_view))) = Some p ∧
       p_role p = "support-agent".
Proof.
  destruct (loaded_profile_is_complete true (Some Sample.bob) Sample.world
              Sample.profile_view) as (_ & _ & p & Hp & _ & _ & _ & _ & _ & Hrole).
  exists p. split; [exact Hp|].
  apply (Hrole {| u_name := Some "Bob"; u_email := Some "bob@example.com";
                  u_role := Some "support-agent";
                  u_categoryInterest := None; u_language := Some "en" |}).
  - reflexivity.
  - reflexivity.
  - reflexivity.
  - discriminate.
Defined.
